(** * FleetPro journey lifecycle: the route handlers of [src/app/api]

    A shallow embedding of the journey endpoints of the transport app
    ([journeys/request], [admin/journeys/assign], [journeys/cancel],
    [journeys/dropoff], [journeys/route-change]) and of [GET /api/data],
    followed by the properties of the specification that concern them.

    Conventions.
    - Every TypeScript interface of [app/types/index.ts] is a record in a
      module of the same name, so that [Journey.status], [Car.status] and
      the like keep the names of the source.
    - JavaScript numbers that only count things are [Z]; numbers that are
      merely carried around (coordinates, distances, salaries) are [Qc].
    - The JSON file [demoData.json] is the only state.  A handler is a
      function from the file to a response and the file afterwards.
    - [Date.now()] and [new Date().toISOString()] are read from a [Clock.t];
      the outcome of [fs.writeFileSync] is a boolean given to the handler.
    - The file holds data of the declared types.  Ids need not be unique in
      it: as in the handlers, the journey, car, driver or user of a request
      is the first one in its array that carries the id ([find],
      [findIndex]), and a journey keeps its identity by its slot. *)

From Stdlib Require Import Qcanon DecimalString DecimalZ.
From stdpp Require Import base list strings numbers.

Local Open Scope string_scope.
Local Open Scope Z_scope.

(** ** Data model ([app/types/index.ts]) *)

Inductive Role := role_user | role_driver | role_admin.

Inductive JourneyStatus := requested | in_progress | completed | cancelled.

Inductive CarStatus := available | in_use | servicing | cleaning.

Inductive LeaveStatus := pending | approved | rejected.

Inductive RouteChangeType := waypoint_added | waypoint_removed | destination_changed.

#[global] Instance JourneyStatus_eq_dec : EqDecision JourneyStatus.
Proof. solve_decision. Defined.

#[global] Instance CarStatus_eq_dec : EqDecision CarStatus.
Proof. solve_decision. Defined.

Module Location.
Record t := mk { lat : Qc; lng : Qc; address : string }.
End Location.

Module DistanceMetrics.
Record t := mk { day : Qc; month : Qc; year : Qc }.
End DistanceMetrics.

(** [User | Admin]: the two interfaces differ in the value of [role] only. *)
Module User.
Record t := mk {
  id : string;
  email : string;
  password : string;
  name : string;
  role : Role;
  isActive : bool;
  designation : string;
  department : string;
  currentLocation : option Location.t;
  carsUsed : list string;
  totalDistance : DistanceMetrics.t
}.
End User.

Module Driver.
Record t := mk {
  id : string;
  email : string;
  password : string;
  name : string;
  role : Role;
  isActive : bool;
  dob : string;
  licenseNo : string;
  licenseExpiry : string;
  onLeave : bool;
  salary : Qc;
  totalLeave : Qc;
  remainingLeave : Qc;
  currentLocation : Location.t;
  totalTravelledDistance : DistanceMetrics.t
}.
End Driver.

Module Car.
Record t := mk {
  id : string;
  model : string;
  regNo : string;
  drivers : list string;
  users : list string;
  status : CarStatus;
  isClean : bool;
  needsServicing : bool;
  totalDistanceTravelled : DistanceMetrics.t;
  currentLocation : Location.t
}.

(** [{ ...car, status: s }] *)
Definition with_status (s : CarStatus) (c : t) : t :=
  mk (id c) (model c) (regNo c) (drivers c) (users c) s (isClean c)
     (needsServicing c) (totalDistanceTravelled c) (currentLocation c).
End Car.

Module RouteChange.
Record t := mk {
  type : RouteChangeType;
  timestamp : string;
  waypoint : option Location.t;
  reason : option string
}.
End RouteChange.

Module Journey.
Record t := mk {
  userDesignation : option string;
  id : string;
  carId : string;
  driverId : string;
  userId : string;
  userName : string;
  driverName : string;
  carModel : string;
  startLocation : Location.t;
  endLocation : Location.t;
  waypoints : list Location.t;
  status : JourneyStatus;
  startTime : string;
  endTime : option string;
  distance : Qc;
  rating : option Qc;
  routeChanges : list RouteChange.t;
  estimatedDuration : Qc
}.

(** [{ ...journey, carId, driverId, driverName, carModel, status }] *)
Definition with_assignment
    (car driver dname cmodel : string) (s : JourneyStatus) (j : t) : t :=
  mk (userDesignation j) (id j) car driver (userId j) (userName j)
     dname cmodel (startLocation j) (endLocation j) (waypoints j) s
     (startTime j) (endTime j) (distance j) (rating j) (routeChanges j)
     (estimatedDuration j).

(** [{ ...journey, status, endTime }] *)
Definition with_end (s : JourneyStatus) (e : option string) (j : t) : t :=
  mk (userDesignation j) (id j) (carId j) (driverId j) (userId j)
     (userName j) (driverName j) (carModel j) (startLocation j)
     (endLocation j) (waypoints j) s (startTime j) e (distance j)
     (rating j) (routeChanges j) (estimatedDuration j).

(** [{ ...journey, waypoints, routeChanges }] *)
Definition with_route
    (ws : list Location.t) (rs : list RouteChange.t) (j : t) : t :=
  mk (userDesignation j) (id j) (carId j) (driverId j) (userId j)
     (userName j) (driverName j) (carModel j) (startLocation j)
     (endLocation j) ws (status j) (startTime j) (endTime j) (distance j)
     (rating j) rs (estimatedDuration j).
End Journey.

Module LeaveRequest.
Record t := mk {
  id : string;
  driverId : string;
  startDate : string;
  endDate : string;
  reason : string;
  status : LeaveStatus;
  submittedAt : string
}.
End LeaveRequest.

(** The counters are JavaScript numbers; they are modelled as integers.
    The steps [+ 1] and [- 1] of the handlers are exact in the code as long
    as the stored value is below [2 ^ 53] in absolute value, as every
    counter that is the length of an array is.  The statements on the
    dropoff, on the cancel and on a request taken back, which give the
    counter written from an arbitrary stored value, assume that bound. *)
Module SystemStats.
Record t := mk {
  totalUsers : Z;
  totalDrivers : Z;
  totalCars : Z;
  activeJourneys : Z;
  pendingRequests : Z;
  availableCars : Z;
  driversOnLeave : Z;
  monthlyDistance : Qc
}.

(** [stats.pendingRequests = n], [stats.activeJourneys = n] and
    [stats.availableCars = n]: assignments to one field. *)
Definition set_pendingRequests (n : Z) (s : t) : t :=
  mk (totalUsers s) (totalDrivers s) (totalCars s) (activeJourneys s) n
     (availableCars s) (driversOnLeave s) (monthlyDistance s).

Definition set_activeJourneys (n : Z) (s : t) : t :=
  mk (totalUsers s) (totalDrivers s) (totalCars s) n (pendingRequests s)
     (availableCars s) (driversOnLeave s) (monthlyDistance s).

Definition set_availableCars (n : Z) (s : t) : t :=
  mk (totalUsers s) (totalDrivers s) (totalCars s) (activeJourneys s)
     (pendingRequests s) n (driversOnLeave s) (monthlyDistance s).
End SystemStats.

Module FleetData.
Record t := mk {
  users : list User.t;
  drivers : list Driver.t;
  cars : list Car.t;
  locations : list Location.t;
  journeys : list Journey.t;
  leaveRequests : list LeaveRequest.t;
  systemStats : SystemStats.t
}.

Definition set_cars (cs : list Car.t) (d : t) : t :=
  mk (users d) (drivers d) cs (locations d) (journeys d) (leaveRequests d)
     (systemStats d).

Definition set_journeys (js : list Journey.t) (d : t) : t :=
  mk (users d) (drivers d) (cars d) (locations d) js (leaveRequests d)
     (systemStats d).

Definition set_systemStats (s : SystemStats.t) (d : t) : t :=
  mk (users d) (drivers d) (cars d) (locations d) (journeys d)
     (leaveRequests d) s.
End FleetData.

(** ** JavaScript helpers *)

(** [!s] for a string field of a request body: the empty string is falsy
    (and so is a field that is absent from the body). *)
Definition falsy (s : string) : bool := bool_decide (s = "").

(** [Array.prototype.find]: the first element that satisfies [P]. *)
Definition find {A} (P : A → Prop) `{∀ x, Decision (P x)} (l : list A) : option A :=
  snd <$> list_find P l.

(** [Array.prototype.findIndex]: the index of that element; [None] is [-1]. *)
Definition findIndex {A} (P : A → Prop) `{∀ x, Decision (P x)} (l : list A) : option nat :=
  fst <$> list_find P l.

(** [l.filter(P).length] *)
Definition count {A} (P : A → Prop) `{∀ x, Decision (P x)} (l : list A) : Z :=
  Z.of_nat (length (filter P l)).

(** What one element contributes to [l.filter(P).length]. *)
Definition indicator {A} (P : A → Prop) `{∀ x, Decision (P x)} (x : A) : Z :=
  if decide (P x) then 1 else 0.

(** [`${n}`] for an integer [n]. *)
Definition decimal (n : Z) : string := NilZero.string_of_int (Z.to_int n).

(** The two readings of the clock a handler makes. *)
Module Clock.
Record t := mk {
  now : Z;              (* Date.now() *)
  toISOString : string  (* new Date().toISOString() *)
}.
End Clock.

(** ** Persistence ([readData] and [writeData] of the journey routes) *)

(** The contents of [demoData.json]; [None] when the file is missing or is
    not JSON. *)
Definition File := option FleetData.t.

Definition emptyData : FleetData.t :=
  FleetData.mk [] [] [] [] [] [] (SystemStats.mk 0 0 0 0 0 0 0 0%Qc).

(** The journey routes catch the error of the read and go on with the
    empty data set. *)
Definition readData (file : File) : FleetData.t :=
  match file with
  | Some data => data
  | None => emptyData
  end.

(** [writable] is whether [fs.writeFileSync] goes through. *)
Definition writeData (writable : bool) (data : FleetData.t) (file : File) : bool * File :=
  if writable then (true, Some data) else (false, file).

(** ** Responses *)

Module Response.
Record t := mk {
  status : Z;
  error : option string;
  message : option string;
  data : option Journey.t
}.
End Response.

(** [NextResponse.json({ error }, { status })] *)
Definition failure (code : Z) (msg : string) : Response.t :=
  Response.mk code (Some msg) None None.

(** [NextResponse.json({ message, data })], status 200 *)
Definition success (msg : string) (d : option Journey.t) : Response.t :=
  Response.mk 200 None (Some msg) d.

Definition invalidJson : Response.t := failure 400 "Invalid JSON in request body".

(** ** [POST /api/admin/journeys/assign] *)

Module AssignJourneyRequest.
Record t := mk { journeyId : string; carId : string; driverId : string }.
End AssignJourneyRequest.

Module AdminJourneysAssign.
Import AssignJourneyRequest.

(** [body] is [None] when [request.json()] throws a [SyntaxError]. *)
Definition POST (writable : bool) (body : option AssignJourneyRequest.t)
    (file : File) : Response.t * File :=
  match body with
  | None => (invalidJson, file)
  | Some req =>
    if falsy (journeyId req) || falsy (carId req) || falsy (driverId req) then
      (failure 400 "Journey ID, Car ID, and Driver ID are required", file)
    else
    let data := readData file in
    match list_find (λ j, Journey.id j = journeyId req) (FleetData.journeys data) with
    | None => (failure 404 "Journey not found", file)
    | Some (journeyIndex, journey) =>
      if bool_decide (Journey.status journey ≠ requested) then
        (failure 400 "Can only assign car and driver to requested journeys", file)
      else
      match find (λ c, Car.id c = carId req) (FleetData.cars data) with
      | None => (failure 404 "Car not found", file)
      | Some car =>
        if bool_decide (Car.status car ≠ available) then
          (failure 400 "Car is not available", file)
        else
        match find (λ d, Driver.id d = driverId req) (FleetData.drivers data) with
        | None => (failure 404 "Driver not found", file)
        | Some driver =>
          if Driver.onLeave driver then
            (failure 400 "Driver is on leave", file)
          else
          (* Update car status *)
          let data :=
            match findIndex (λ c, Car.id c = carId req) (FleetData.cars data) with
            | Some carIndex =>
                FleetData.set_cars
                  (alter (Car.with_status in_use) carIndex (FleetData.cars data)) data
            | None => data
            end in
          (* Update journey with assignment *)
          let updatedJourney :=
            Journey.with_assignment (carId req) (driverId req)
              (Driver.name driver) (Car.model car) in_progress journey in
          let data :=
            FleetData.set_journeys
              (<[journeyIndex := updatedJourney]> (FleetData.journeys data)) data in
          (* Update system stats *)
          let stats := FleetData.systemStats data in
          let stats := SystemStats.set_pendingRequests
            (count (λ j, Journey.status j = requested) (FleetData.journeys data)) stats in
          let stats := SystemStats.set_activeJourneys
            (count (λ j, Journey.status j = in_progress) (FleetData.journeys data)) stats in
          let stats := SystemStats.set_availableCars
            (count (λ c, Car.status c = available) (FleetData.cars data)) stats in
          let data := FleetData.set_systemStats stats data in
          match writeData writable data file with
          | (true, file') => (success "Car and driver assigned successfully" None, file')
          | (false, file') => (failure 500 "Failed to assign car and driver", file')
          end
        end
      end
    end
  end.
End AdminJourneysAssign.

(** ** [POST /api/journeys/request] *)

Module JourneyRequest.
Record t := mk {
  userId : string;
  destination : string;
  startLocation : option Location.t;  (* absent when the body lacks it *)
  notes : option string
}.
End JourneyRequest.

Module JourneysRequest.
Import JourneyRequest.

Definition newJourney (clock : Clock.t) (req : JourneyRequest.t)
    (user : User.t) (start : Location.t) : Journey.t :=
  {| Journey.id := "journey-" +:+ decimal (Clock.now clock);
     Journey.carId := "";
     Journey.driverId := "";
     Journey.userId := userId req;
     Journey.userName := User.name user;
     Journey.driverName := "";
     Journey.carModel := "";
     Journey.startLocation := start;
     Journey.endLocation := Location.mk 0%Qc 0%Qc (destination req);
     Journey.waypoints := [];
     Journey.status := requested;
     Journey.startTime := Clock.toISOString clock;
     Journey.endTime := None;
     Journey.distance := 0%Qc;
     Journey.rating := None;
     Journey.routeChanges := [];
     Journey.estimatedDuration := 0%Qc;
     Journey.userDesignation := None |}.

Definition POST (clock : Clock.t) (writable : bool)
    (body : option JourneyRequest.t) (file : File) : Response.t * File :=
  match body with
  | None => (invalidJson, file)
  | Some req =>
    (* the three tests of the guard give the same answer, in any order *)
    match startLocation req with
    | None =>
      (failure 400 "User ID, destination, and start location are required", file)
    | Some start =>
      if falsy (userId req) || falsy (destination req) then
        (failure 400 "User ID, destination, and start location are required", file)
      else
      let data := readData file in
      match find (λ u, User.id u = userId req) (FleetData.users data) with
      | None => (failure 404 "User not found", file)
      | Some user =>
        match find (λ j, Journey.userId j = userId req ∧ Journey.status j = requested)
                   (FleetData.journeys data) with
        | Some existingRequest =>
          (failure 409 "You already have a pending journey request", file)
        | None =>
          let newJourney := newJourney clock req user start in
          (* Add to journeys *)
          let data :=
            FleetData.set_journeys (FleetData.journeys data ++ [newJourney]) data in
          (* Update system stats *)
          let stats := FleetData.systemStats data in
          let data := FleetData.set_systemStats
            (SystemStats.set_pendingRequests
               (SystemStats.pendingRequests stats + 1) stats) data in
          match writeData writable data file with
          | (true, file') =>
            (success
               "Journey request submitted successfully. Waiting for admin allocation."
               (Some newJourney), file')
          | (false, file') => (failure 500 "Failed to create journey request", file')
          end
        end
      end
    end
  end.
End JourneysRequest.

(** ** [POST /api/journeys/cancel] *)

Module CancelRequest.
Record t := mk { journeyId : string; reason : option string }.
End CancelRequest.

Module JourneysCancel.
Import CancelRequest.

Definition POST (clock : Clock.t) (writable : bool)
    (body : option CancelRequest.t) (file : File) : Response.t * File :=
  match body with
  | None => (invalidJson, file)
  | Some req =>
    if falsy (journeyId req) then (failure 400 "Journey ID is required", file) else
    let data := readData file in
    match list_find (λ j, Journey.id j = journeyId req) (FleetData.journeys data) with
    | None => (failure 404 "Journey not found", file)
    | Some (journeyIndex, journey) =>
      if bool_decide (Journey.status journey = completed) then
        (failure 400 "Cannot cancel a completed journey", file)
      else if bool_decide (Journey.status journey = cancelled) then
        (failure 400 "Journey is already cancelled", file)
      else
      (* Update journey status *)
      let updated :=
        Journey.with_end cancelled (Some (Clock.toISOString clock)) journey in
      let data :=
        FleetData.set_journeys
          (<[journeyIndex := updated]> (FleetData.journeys data)) data in
      (* Update system stats *)
      let stats := FleetData.systemStats data in
      let stats :=
        if bool_decide (Journey.status journey = requested) then
          SystemStats.set_pendingRequests
            (Z.max 0 (SystemStats.pendingRequests stats - 1)) stats
        else stats in
      let stats :=
        if bool_decide (Journey.status journey = in_progress) then
          SystemStats.set_activeJourneys
            (Z.max 0 (SystemStats.activeJourneys stats - 1)) stats
        else stats in
      let data := FleetData.set_systemStats stats data in
      match writeData writable data file with
      | (true, file') =>
        (success
           (match reason req with
            | Some r => if falsy r then "Journey cancelled successfully"
                        else "Journey cancelled: " +:+ r
            | None => "Journey cancelled successfully"
            end)
           (FleetData.journeys data !! journeyIndex), file')
      | (false, file') => (failure 500 "Failed to cancel journey", file')
      end
    end
  end.
End JourneysCancel.

(** ** [POST /api/journeys/dropoff] *)

Module DropoffRequest.
Record t := mk { journeyId : string; reason : option string }.
End DropoffRequest.

Module JourneysDropoff.
Import DropoffRequest.

Definition POST (clock : Clock.t) (writable : bool)
    (body : option DropoffRequest.t) (file : File) : Response.t * File :=
  match body with
  | None => (invalidJson, file)
  | Some req =>
    if falsy (journeyId req) then (failure 400 "Journey ID is required", file) else
    let data := readData file in
    match list_find (λ j, Journey.id j = journeyId req) (FleetData.journeys data) with
    | None => (failure 404 "Journey not found", file)
    | Some (journeyIndex, journey) =>
      if bool_decide (Journey.status journey ≠ in_progress) then
        (failure 400 "Drop-off can only be requested for journeys in progress", file)
      else
      (* Update journey status to completed *)
      let updatedJourney :=
        Journey.with_end completed (Some (Clock.toISOString clock)) journey in
      let data :=
        FleetData.set_journeys
          (<[journeyIndex := updatedJourney]> (FleetData.journeys data)) data in
      (* Update system stats *)
      let stats := FleetData.systemStats data in
      let data := FleetData.set_systemStats
        (SystemStats.set_activeJourneys
           (Z.max 0 (SystemStats.activeJourneys stats - 1)) stats) data in
      match writeData writable data file with
      | (true, file') =>
        (success
           (match reason req with
            | Some r => if falsy r then "Drop-off request sent to driver successfully"
                        else "Drop-off requested: " +:+ r
            | None => "Drop-off request sent to driver successfully"
            end)
           (Some updatedJourney), file')
      | (false, file') => (failure 500 "Failed to request drop-off", file')
      end
    end
  end.
End JourneysDropoff.

(** ** [POST /api/journeys/route-change] *)

Module RouteChangeRequest.
Record t := mk { journeyId : string; newWaypoint : string; reason : option string }.
End RouteChangeRequest.

Module JourneysRouteChange.
Import RouteChangeRequest.

Definition POST (clock : Clock.t) (writable : bool)
    (body : option RouteChangeRequest.t) (file : File) : Response.t * File :=
  match body with
  | None => (invalidJson, file)
  | Some req =>
    if falsy (journeyId req) || falsy (newWaypoint req) then
      (failure 400 "Journey ID and new waypoint are required", file)
    else
    let data := readData file in
    match list_find (λ j, Journey.id j = journeyId req) (FleetData.journeys data) with
    | None => (failure 404 "Journey not found", file)
    | Some (journeyIndex, journey) =>
      if bool_decide (Journey.status journey ≠ in_progress) then
        (failure 400 "Route changes can only be requested for journeys in progress", file)
      else
      (* Create new waypoint location *)
      let newWaypointLocation := Location.mk 0%Qc 0%Qc (newWaypoint req) in
      (* Update journey with new waypoint *)
      let updatedJourney :=
        Journey.with_route
          (Journey.waypoints journey ++ [newWaypointLocation])
          (Journey.routeChanges journey ++
             [RouteChange.mk waypoint_added (Clock.toISOString clock)
                (Some newWaypointLocation) (reason req)])
          journey in
      let data :=
        FleetData.set_journeys
          (<[journeyIndex := updatedJourney]> (FleetData.journeys data)) data in
      match writeData writable data file with
      | (true, file') =>
        (success "Route change request sent to driver successfully"
           (Some updatedJourney), file')
      | (false, file') => (failure 500 "Failed to request route change", file')
      end
    end
  end.
End JourneysRouteChange.

(** ** [GET /api/data] ([app/api/data/route.ts]) *)

(** The route strips one property from objects whatever their other
    properties are, so users and drivers are JSON objects here: lists of
    properties in the order of the file. *)
Module DataRoute.
#[local] Unset Elimination Schemes.

Inductive Json :=
| JNull
| JBool (b : bool)
| JNumber (n : Qc)
| JString (s : string)
| JArray (items : list Json)
| JObject (props : list (string * Json)).

#[local] Set Elimination Schemes.

Abbreviation Obj := (list (string * Json)).

(** [o[k]]; [None] is [undefined]. *)
Definition get (k : string) (o : Obj) : option Json :=
  snd <$> find (λ kv, kv.1 = k) o.

(** [({ password, ...user }) => user] *)
Definition omit_password (o : Obj) : Obj :=
  filter (λ kv, kv.1 ≠ "password") o.

Record FleetData := mkFleetData {
  users : list Obj;
  drivers : list Obj;
  cars : list Obj;
  locations : list Obj;
  journeys : list Obj;
  leaveRequests : list Obj;
  systemStats : Obj
}.

Record Response := mkResponse {
  status : Z;
  error : option string;
  data : option FleetData
}.

(** This [readData] rethrows: [None] stands for the thrown error. *)
Definition readData (file : option FleetData) : option FleetData := file.

Definition GET (file : option FleetData) : Response :=
  match readData file with
  | Some data =>
    let sanitizedData :=
      {| users := omit_password <$> users data;
         drivers := omit_password <$> drivers data;
         cars := cars data;
         locations := locations data;
         journeys := journeys data;
         leaveRequests := leaveRequests data;
         systemStats := systemStats data |} in
    mkResponse 200 None (Some sanitizedData)
  | None => mkResponse 500 (Some "Failed to fetch data") None
  end.
End DataRoute.

(** ** Sequences of calls and the order on statuses *)

Inductive Call :=
| CallRequest (clock : Clock.t) (writable : bool) (body : option JourneyRequest.t)
| CallAssign (writable : bool) (body : option AssignJourneyRequest.t)
| CallCancel (clock : Clock.t) (writable : bool) (body : option CancelRequest.t)
| CallDropoff (clock : Clock.t) (writable : bool) (body : option DropoffRequest.t)
| CallRouteChange (clock : Clock.t) (writable : bool) (body : option RouteChangeRequest.t).

Definition handle (c : Call) (file : File) : Response.t * File :=
  match c with
  | CallRequest clock w body => JourneysRequest.POST clock w body file
  | CallAssign w body => AdminJourneysAssign.POST w body file
  | CallCancel clock w body => JourneysCancel.POST clock w body file
  | CallDropoff clock w body => JourneysDropoff.POST clock w body file
  | CallRouteChange clock w body => JourneysRouteChange.POST clock w body file
  end.

(** The file after a sequence of calls, the first call first. *)
Definition run (cs : list Call) (file : File) : File :=
  foldl (λ f c, (handle c f).2) file cs.

Definition terminal (s : JourneyStatus) : bool :=
  match s with
  | completed | cancelled => true
  | requested | in_progress => false
  end.

(** One step of the life cycle. *)
Definition transition (s s' : JourneyStatus) : bool :=
  match s, s' with
  | requested, in_progress | requested, cancelled
  | in_progress, completed | in_progress, cancelled => true
  | _, _ => false
  end.

(** [s'] is [s] or lies after it on
    requested -> in-progress -> completed | cancelled. *)
Definition forward (s s' : JourneyStatus) : bool :=
  match s, s' with
  | requested, _ => true
  | in_progress, (in_progress | completed | cancelled) => true
  | completed, completed | cancelled, cancelled => true
  | _, _ => false
  end.

(** The requested journeys of one user. *)
Definition pendingOf (userId : string) (data : FleetData.t) : Z :=
  count (λ j, Journey.userId j = userId ∧ Journey.status j = requested)
        (FleetData.journeys data).

(** [systemStats.pendingRequests] agrees with the journeys. *)
Definition pendingConsistent (data : FleetData.t) : Prop :=
  SystemStats.pendingRequests (FleetData.systemStats data) =
  count (λ j, Journey.status j = requested) (FleetData.journeys data).

(** The data the admin assignment hands to [writeData] once every check
    has passed: [journey] found at [journeyIndex], [car] at [carIndex]. *)
Definition assigned (req : AssignJourneyRequest.t) (journeyIndex : nat)
    (journey : Journey.t) (carIndex : nat) (car : Car.t) (driver : Driver.t)
    (data : FleetData.t) : FleetData.t :=
  let cars := alter (Car.with_status in_use) carIndex (FleetData.cars data) in
  let journeys :=
    <[journeyIndex :=
        Journey.with_assignment (AssignJourneyRequest.carId req)
          (AssignJourneyRequest.driverId req) (Driver.name driver)
          (Car.model car) in_progress journey]> (FleetData.journeys data) in
  FleetData.mk (FleetData.users data) (FleetData.drivers data) cars
    (FleetData.locations data) journeys (FleetData.leaveRequests data)
    (SystemStats.set_availableCars
       (count (λ c, Car.status c = available) cars)
       (SystemStats.set_activeJourneys
          (count (λ j, Journey.status j = in_progress) journeys)
          (SystemStats.set_pendingRequests
             (count (λ j, Journey.status j = requested) journeys)
             (FleetData.systemStats data)))).

(** ** A small fleet, for the examples *)

Module Demo.
Definition dhaka : Location.t := Location.mk 0%Qc 0%Qc "Dhaka".
Definition zero : DistanceMetrics.t := DistanceMetrics.mk 0%Qc 0%Qc 0%Qc.

Definition user (id name : string) : User.t :=
  User.mk id (name +:+ "@fleet.test") "secret" name role_user true
    "Engineer" "R&D" None [] zero.

Definition driver (id name : string) (onLeave : bool) : Driver.t :=
  Driver.mk id (name +:+ "@fleet.test") "secret" name role_driver true
    "1990-01-01" ("LIC-" +:+ id) "2030-01-01" onLeave 0%Qc 0%Qc 0%Qc dhaka zero.

Definition car (id model : string) (s : CarStatus) : Car.t :=
  Car.mk id model ("REG-" +:+ id) [] [] s true false zero dhaka.

Definition journey (id userId : string) (s : JourneyStatus) : Journey.t :=
  Journey.mk None id "" "" userId userId "" "" dhaka dhaka [] s
    "2025-01-01T00:00:00.000Z" None 0%Qc None [] 0%Qc.

Definition stats (active pending free : Z) : SystemStats.t :=
  SystemStats.mk 2 1 2 active pending free 0 0%Qc.

Definition fleet (js : list Journey.t) (s : SystemStats.t) : FleetData.t :=
  FleetData.mk [user "u1" "Ada"; user "u2" "Bob"] [driver "driver1" "Dan" false]
    [car "car1" "Corolla" available; car "car2" "Hiace" servicing]
    [dhaka] js [] s.

Definition clock : Clock.t := Clock.mk 1700000000000 "2023-11-14T22:13:20.000Z".
End Demo.

(** ** The other routes over the same file

    The administration routes ([admin/cars/status], [admin/drivers/status],
    [admin/users/status]), the older [PUT /api/journeys/assign], the driver
    routes ([drivers/location], [drivers/journey/status]) and
    [user/location] read and write the same [demoData.json]. *)

(** Assignments to one field and spreads with one field replaced. *)
Module Patch.
(** [{ ...driver, onLeave }] *)
Definition driver_onLeave (b : bool) (d : Driver.t) : Driver.t :=
  Driver.mk (Driver.id d) (Driver.email d) (Driver.password d) (Driver.name d)
    (Driver.role d) (Driver.isActive d) (Driver.dob d) (Driver.licenseNo d)
    (Driver.licenseExpiry d) b (Driver.salary d) (Driver.totalLeave d)
    (Driver.remainingLeave d) (Driver.currentLocation d)
    (Driver.totalTravelledDistance d).

(** [driver.currentLocation = location] *)
Definition driver_currentLocation (l : Location.t) (d : Driver.t) : Driver.t :=
  Driver.mk (Driver.id d) (Driver.email d) (Driver.password d) (Driver.name d)
    (Driver.role d) (Driver.isActive d) (Driver.dob d) (Driver.licenseNo d)
    (Driver.licenseExpiry d) (Driver.onLeave d) (Driver.salary d)
    (Driver.totalLeave d) (Driver.remainingLeave d) l
    (Driver.totalTravelledDistance d).

(** [car.currentLocation = location] *)
Definition car_currentLocation (l : Location.t) (c : Car.t) : Car.t :=
  Car.mk (Car.id c) (Car.model c) (Car.regNo c) (Car.drivers c) (Car.users c)
    (Car.status c) (Car.isClean c) (Car.needsServicing c)
    (Car.totalDistanceTravelled c) l.

(** [{ ...user, isActive }] *)
Definition user_isActive (b : bool) (u : User.t) : User.t :=
  User.mk (User.id u) (User.email u) (User.password u) (User.name u)
    (User.role u) b (User.designation u) (User.department u)
    (User.currentLocation u) (User.carsUsed u) (User.totalDistance u).

(** [{ ...user, currentLocation: location }] *)
Definition user_currentLocation (l : Location.t) (u : User.t) : User.t :=
  User.mk (User.id u) (User.email u) (User.password u) (User.name u)
    (User.role u) (User.isActive u) (User.designation u) (User.department u)
    (Some l) (User.carsUsed u) (User.totalDistance u).

(** [{ ...journey, carId, driverId, status: 'in-progress' }] *)
Definition journey_reassigned (car driver : string) (j : Journey.t) : Journey.t :=
  Journey.with_assignment car driver (Journey.driverName j) (Journey.carModel j)
    in_progress j.

(** [{ ...journey, status, ...(status === 'completed' && { endTime }),
       ...(status === 'in-progress' && { startTime }) }] *)
Definition journey_status (s : JourneyStatus) (now : string) (j : Journey.t) : Journey.t :=
  Journey.mk (Journey.userDesignation j) (Journey.id j) (Journey.carId j)
    (Journey.driverId j) (Journey.userId j) (Journey.userName j)
    (Journey.driverName j) (Journey.carModel j) (Journey.startLocation j)
    (Journey.endLocation j) (Journey.waypoints j) s
    (if bool_decide (s = in_progress) then now else Journey.startTime j)
    (if bool_decide (s = completed) then Some now else Journey.endTime j)
    (Journey.distance j) (Journey.rating j) (Journey.routeChanges j)
    (Journey.estimatedDuration j).

(** [stats.driversOnLeave = n] *)
Definition stats_driversOnLeave (n : Z) (s : SystemStats.t) : SystemStats.t :=
  SystemStats.mk (SystemStats.totalUsers s) (SystemStats.totalDrivers s)
    (SystemStats.totalCars s) (SystemStats.activeJourneys s)
    (SystemStats.pendingRequests s) (SystemStats.availableCars s) n
    (SystemStats.monthlyDistance s).

Definition fleet_users (us : list User.t) (d : FleetData.t) : FleetData.t :=
  FleetData.mk us (FleetData.drivers d) (FleetData.cars d) (FleetData.locations d)
    (FleetData.journeys d) (FleetData.leaveRequests d) (FleetData.systemStats d).

Definition fleet_drivers (ds : list Driver.t) (d : FleetData.t) : FleetData.t :=
  FleetData.mk (FleetData.users d) ds (FleetData.cars d) (FleetData.locations d)
    (FleetData.journeys d) (FleetData.leaveRequests d) (FleetData.systemStats d).
End Patch.

(** The names of the statuses as they stand in the JSON. *)
Definition carStatusName (s : CarStatus) : string :=
  match s with
  | available => "available"
  | in_use => "in-use"
  | servicing => "servicing"
  | cleaning => "cleaning"
  end.

Definition journeyStatusName (s : JourneyStatus) : string :=
  match s with
  | requested => "requested"
  | in_progress => "in-progress"
  | completed => "completed"
  | cancelled => "cancelled"
  end.

(** *** [PUT /api/admin/cars/status] *)

Module UpdateCarStatusRequest.
(** [status] is [None] when the body has no status or an empty one. *)
Record t := mk { carId : string; status : option CarStatus }.
End UpdateCarStatusRequest.

Module AdminCarsStatus.
Import UpdateCarStatusRequest.

Definition PUT (writable : bool) (body : option UpdateCarStatusRequest.t)
    (file : File) : Response.t * File :=
  match body with
  | None => (invalidJson, file)
  | Some req =>
    match status req with
    | None => (failure 400 "Car ID and status are required", file)
    | Some status =>
      if falsy (carId req) then
        (failure 400 "Car ID and status are required", file)
      else
      let data := readData file in
      match findIndex (λ c, Car.id c = carId req) (FleetData.cars data) with
      | None => (failure 404 "Car not found", file)
      | Some carIndex =>
        (* Update car status *)
        let data :=
          FleetData.set_cars
            (alter (Car.with_status status) carIndex (FleetData.cars data)) data in
        (* Update system stats *)
        let data := FleetData.set_systemStats
          (SystemStats.set_availableCars
             (count (λ c, Car.status c = available) (FleetData.cars data))
             (FleetData.systemStats data)) data in
        match writeData writable data file with
        | (true, file') =>
          (success ("Car status updated to " +:+ carStatusName status) None, file')
        | (false, file') => (failure 500 "Failed to update car status", file')
        end
      end
    end
  end.
End AdminCarsStatus.

(** *** [PUT /api/admin/drivers/status] *)

Module UpdateDriverStatusRequest.
Record t := mk { driverId : string; onLeave : bool }.
End UpdateDriverStatusRequest.

Module AdminDriversStatus.
Import UpdateDriverStatusRequest.

Definition PUT (writable : bool) (body : option UpdateDriverStatusRequest.t)
    (file : File) : Response.t * File :=
  match body with
  | None => (invalidJson, file)
  | Some req =>
    if falsy (driverId req) then (failure 400 "Driver ID is required", file) else
    let data := readData file in
    match findIndex (λ d, Driver.id d = driverId req) (FleetData.drivers data) with
    | None => (failure 404 "Driver not found", file)
    | Some driverIndex =>
      (* Update driver status *)
      let data :=
        Patch.fleet_drivers
          (alter (Patch.driver_onLeave (onLeave req)) driverIndex
                 (FleetData.drivers data)) data in
      (* Update system stats *)
      let data := FleetData.set_systemStats
        (Patch.stats_driversOnLeave
           (count (λ d, Driver.onLeave d = true) (FleetData.drivers data))
           (FleetData.systemStats data)) data in
      match writeData writable data file with
      | (true, file') =>
        (success
           ("Driver " +:+ (if onLeave req then "set on leave" else "activated")
              +:+ " successfully") None, file')
      | (false, file') => (failure 500 "Failed to update driver status", file')
      end
    end
  end.
End AdminDriversStatus.

(** *** [PUT /api/admin/users/status] *)

Module UpdateUserStatusRequest.
Record t := mk { userId : string; isActive : bool }.
End UpdateUserStatusRequest.

Module AdminUsersStatus.
Import UpdateUserStatusRequest.

Definition PUT (writable : bool) (body : option UpdateUserStatusRequest.t)
    (file : File) : Response.t * File :=
  match body with
  | None => (invalidJson, file)
  | Some req =>
    if falsy (userId req) then (failure 400 "User ID is required", file) else
    let data := readData file in
    match findIndex (λ u, User.id u = userId req) (FleetData.users data) with
    | None => (failure 404 "User not found", file)
    | Some userIndex =>
      (* Update user status *)
      let data :=
        Patch.fleet_users
          (alter (Patch.user_isActive (isActive req)) userIndex
                 (FleetData.users data)) data in
      match writeData writable data file with
      | (true, file') =>
        (success
           ("User " +:+ (if isActive req then "activated" else "deactivated")
              +:+ " successfully") None, file')
      | (false, file') => (failure 500 "Failed to update user status", file')
      end
    end
  end.
End AdminUsersStatus.

(** *** [PUT /api/journeys/assign], the older assignment route

    It reads and writes the file with [fs] directly, so an unreadable file
    and a failed write both end in its [catch], which answers 500 for every
    error, a malformed body included.  The journey goes back under the key
    [journey], here the [data] of the response. *)

Module JourneysAssign.
Import AssignJourneyRequest.

Definition PUT (writable : bool) (body : option AssignJourneyRequest.t)
    (file : File) : Response.t * File :=
  match body with
  | None => (failure 500 "Failed to assign car and driver", file)
  | Some req =>
    if falsy (journeyId req) || falsy (carId req) || falsy (driverId req) then
      (failure 400 "Journey ID, Car ID, and Driver ID are required", file)
    else
    match file with
    | None => (failure 500 "Failed to assign car and driver", file)
    | Some data =>
      (* Find and update the journey *)
      match findIndex (λ j, Journey.id j = journeyId req) (FleetData.journeys data) with
      | None => (failure 404 "Journey not found", file)
      | Some journeyIndex =>
        let data :=
          FleetData.set_journeys
            (alter (Patch.journey_reassigned (carId req) (driverId req)) journeyIndex
                   (FleetData.journeys data)) data in
        (* Update car status *)
        let data :=
          match findIndex (λ c, Car.id c = carId req) (FleetData.cars data) with
          | Some carIndex =>
            FleetData.set_cars
              (alter (Car.with_status in_use) carIndex (FleetData.cars data)) data
          | None => data
          end in
        (* Write updated data back to file *)
        if writable then
          (success "Car and driver assigned successfully"
             (FleetData.journeys data !! journeyIndex), Some data)
        else (failure 500 "Failed to assign car and driver", file)
      end
    end
  end.
End JourneysAssign.

(** *** [lib/demoData.ts] *)

Module demoData.
(** [readData] rethrows what the read throws: [None] is the thrown error. *)
Definition readData (file : File) : option FleetData.t := file.

(** [writeData] returns [true] or throws: [None] is the thrown error. *)
Definition writeData (writable : bool) (data : FleetData.t) (file : File)
    : option bool * File :=
  if writable then (Some true, Some data) else (None, file).

Definition findDriverById (drivers : list Driver.t) (driverId : string)
    : option Driver.t :=
  find (λ driver, Driver.id driver = driverId) drivers.

Definition findJourneysByDriverId (journeys : list Journey.t) (driverId : string)
    : list Journey.t :=
  filter (λ journey, Journey.driverId journey = driverId) journeys.

Definition findCarsByDriverId (cars : list Car.t) (driverId : string) : list Car.t :=
  filter (λ car, driverId ∈ Car.drivers car) cars.

Definition findLeaveRequestsByDriverId (leaveRequests : list LeaveRequest.t)
    (driverId : string) : list LeaveRequest.t :=
  filter (λ request, LeaveRequest.driverId request = driverId) leaveRequests.
End demoData.

(** The answer [{ message, data: { success: true } }] of the driver and
    user-location routes, or their [{ error }]. *)
Module Ack.
Record t := mk {
  status : Z;
  error : option string;
  message : option string;
  success : option bool
}.

Definition failed (code : Z) (msg : string) : t := mk code (Some msg) None None.

Definition done (msg : string) : t := mk 200 None (Some msg) (Some true).
End Ack.

(** *** [POST /api/drivers/location] *)

Module UpdateLocationRequest.
(** [location] is [None] when the body lacks it. *)
Record t := mk { driverId : string; location : option Location.t }.
End UpdateLocationRequest.

Module DriversLocation.
Import UpdateLocationRequest.

(** The body of the [forEach]: the car is looked up again by its id. *)
Definition moveCar (location : Location.t) (data : FleetData.t) (car : Car.t)
    : FleetData.t :=
  match findIndex (λ c, Car.id c = Car.id car) (FleetData.cars data) with
  | Some carIndex =>
    FleetData.set_cars
      (alter (Patch.car_currentLocation location) carIndex (FleetData.cars data)) data
  | None => data
  end.

Definition POST (writable : bool) (body : option UpdateLocationRequest.t)
    (file : File) : Ack.t * File :=
  match body with
  | None => (Ack.failed 400 "Invalid JSON in request body", file)
  | Some req =>
    match location req with
    | None => (Ack.failed 400 "Driver ID and location are required", file)
    | Some location =>
      if falsy (driverId req) then
        (Ack.failed 400 "Driver ID and location are required", file)
      else
      match demoData.readData file with
      | None => (Ack.failed 500 "Failed to update location", file)
      | Some data =>
        match findIndex (λ driver, Driver.id driver = driverId req)
                        (FleetData.drivers data) with
        | None => (Ack.failed 404 "Driver not found", file)
        | Some driverIndex =>
          (* Update driver location *)
          let data :=
            Patch.fleet_drivers
              (alter (Patch.driver_currentLocation location) driverIndex
                     (FleetData.drivers data)) data in
          (* Also update car location if driver is currently assigned to a car *)
          let assignedCars :=
            filter (λ car, driverId req ∈ Car.drivers car) (FleetData.cars data) in
          let data := foldl (moveCar location) data assignedCars in
          match demoData.writeData writable data file with
          | (Some true, file') => (Ack.done "Location updated successfully", file')
          | (_, file') => (Ack.failed 500 "Failed to update location", file')
          end
        end
      end
    end
  end.
End DriversLocation.

(** *** [POST /api/drivers/journey/status] *)

Module UpdateJourneyStatusRequest.
(** [status] is [None] when the body has no status or an empty one. *)
Record t := mk {
  driverId : string;
  journeyId : string;
  status : option JourneyStatus
}.
End UpdateJourneyStatusRequest.

Module DriversJourneyStatus.
Import UpdateJourneyStatusRequest.

Definition POST (clock : Clock.t) (writable : bool)
    (body : option UpdateJourneyStatusRequest.t) (file : File) : Ack.t * File :=
  match body with
  | None => (Ack.failed 400 "Invalid JSON in request body", file)
  | Some req =>
    match status req with
    | None => (Ack.failed 400 "Driver ID, journey ID, and status are required", file)
    | Some status =>
      if falsy (driverId req) || falsy (journeyId req) then
        (Ack.failed 400 "Driver ID, journey ID, and status are required", file)
      else
      match demoData.readData file with
      | None => (Ack.failed 500 "Failed to update journey status", file)
      | Some data =>
        match findIndex
                (λ journey, Journey.id journey = journeyId req ∧
                            Journey.driverId journey = driverId req)
                (FleetData.journeys data) with
        | None => (Ack.failed 404 "Journey not found or driver not authorized", file)
        | Some journeyIndex =>
          (* Update journey status *)
          let data :=
            FleetData.set_journeys
              (alter (Patch.journey_status status (Clock.toISOString clock))
                     journeyIndex (FleetData.journeys data)) data in
          match demoData.writeData writable data file with
          | (Some true, file') =>
            (Ack.done ("Journey " +:+ journeyStatusName status +:+ " successfully"),
             file')
          | (Some false, file') =>
            (Ack.failed 500
               ("Failed to update journey status to " +:+ journeyStatusName status),
             file')
          | (None, file') => (Ack.failed 500 "Failed to update journey status", file')
          end
        end
      end
    end
  end.
End DriversJourneyStatus.

(** *** [POST /api/user/location] *)

Module UpdateUserLocationRequest.
Record t := mk { userId : string; location : option Location.t }.
End UpdateUserLocationRequest.

Module UserLocation.
Import UpdateUserLocationRequest.

(** The [catch] of this route answers 500 for every error. *)
Definition POST (writable : bool) (body : option UpdateUserLocationRequest.t)
    (file : File) : Ack.t * File :=
  match body with
  | None => (Ack.failed 500 "Failed to update user location", file)
  | Some req =>
    match location req with
    | None => (Ack.failed 400 "User ID and location are required", file)
    | Some location =>
      if falsy (userId req) then
        (Ack.failed 400 "User ID and location are required", file)
      else
      match demoData.readData file with
      | None => (Ack.failed 500 "Failed to update user location", file)
      | Some data =>
        match findIndex (λ user, User.id user = userId req) (FleetData.users data) with
        | None => (Ack.failed 404 "User not found", file)
        | Some userIndex =>
          (* Update user location *)
          let data :=
            Patch.fleet_users
              (alter (Patch.user_currentLocation location) userIndex
                     (FleetData.users data)) data in
          match demoData.writeData writable data file with
          | (Some true, file') => (Ack.done "User location updated successfully", file')
          | (_, file') => (Ack.failed 500 "Failed to update user location", file')
          end
        end
      end
    end
  end.
End UserLocation.

(** Calls of the routes that do not belong to the journey life cycle. *)
Inductive SideCall :=
| CallCarStatus (writable : bool) (body : option UpdateCarStatusRequest.t)
| CallDriverStatus (writable : bool) (body : option UpdateDriverStatusRequest.t)
| CallUserStatus (writable : bool) (body : option UpdateUserStatusRequest.t)
| CallDriverLocation (writable : bool) (body : option UpdateLocationRequest.t)
| CallUserLocation (writable : bool) (body : option UpdateUserLocationRequest.t).

(** The file after a side call. *)
Definition sideFile (c : SideCall) (file : File) : File :=
  match c with
  | CallCarStatus w body => (AdminCarsStatus.PUT w body file).2
  | CallDriverStatus w body => (AdminDriversStatus.PUT w body file).2
  | CallUserStatus w body => (AdminUsersStatus.PUT w body file).2
  | CallDriverLocation w body => (DriversLocation.POST w body file).2
  | CallUserLocation w body => (UserLocation.POST w body file).2
  end.

(** Journey calls and side calls mixed, the first call first. *)
Definition runMixed (cs : list (Call + SideCall)) (file : File) : File :=
  foldl (λ f c, match c with
                | inl c => (handle c f).2
                | inr c => sideFile c f
                end) file cs.

(** [systemStats.activeJourneys] and [systemStats.availableCars] agree with
    the journeys and the cars. *)
Definition activeConsistent (data : FleetData.t) : Prop :=
  SystemStats.activeJourneys (FleetData.systemStats data) =
  count (λ j, Journey.status j = in_progress) (FleetData.journeys data).

Definition availableConsistent (data : FleetData.t) : Prop :=
  SystemStats.availableCars (FleetData.systemStats data) =
  count (λ c, Car.status c = available) (FleetData.cars data).

(** ** [POST /api/data] ([app/api/data/route.ts]) *)

Module DataRoutePOST.
(** The [data] of the request: a data set of which any part may be
    missing. *)
Record UpdateData := mkUpdateData {
  users : option (list DataRoute.Obj);
  drivers : option (list DataRoute.Obj);
  cars : option (list DataRoute.Obj);
  locations : option (list DataRoute.Obj);
  journeys : option (list DataRoute.Obj);
  leaveRequests : option (list DataRoute.Obj);
  systemStats : option DataRoute.Obj
}.

(** [action] is empty when the body has none; [data] is [None] when the
    body has none. *)
Record Request := mkRequest { action : string; data : option UpdateData }.

Record Response := mkResponse {
  status : Z;
  error : option string;
  message : option string;
  updated : option bool
}.

(** What [fs.writeFileSync] is given. *)
Inductive Written :=
| WriteCurrent (currentData : DataRoute.FleetData)
| WriteUpdate (updateData : UpdateData).

(** [o[k] = v] on an object: an existing property keeps its place. *)
Fixpoint assign (k : string) (v : DataRoute.Json) (o : DataRoute.Obj) : DataRoute.Obj :=
  match o with
  | [] => [(k, v)]
  | (k', v') :: o' =>
    if decide (k' = k) then (k, v) :: o' else (k', v') :: assign k v o'
  end.

(** [{ ...a, ...b }] *)
Definition spread (a b : DataRoute.Obj) : DataRoute.Obj :=
  foldl (λ o kv, assign kv.1 kv.2 o) a b.

Definition set_systemStats (s : DataRoute.Obj) (d : DataRoute.FleetData)
    : DataRoute.FleetData :=
  DataRoute.mkFleetData (DataRoute.users d) (DataRoute.drivers d) (DataRoute.cars d)
    (DataRoute.locations d) (DataRoute.journeys d) (DataRoute.leaveRequests d) s.

Definition failed (code : Z) (msg : string) : Response :=
  mkResponse code (Some msg) None None.

Definition dataUpdated : Response :=
  mkResponse 200 None (Some "Data updated successfully") (Some true).

(** The second component is what was written, if anything was. *)
Definition POST (writable : bool) (body : option Request)
    (file : option DataRoute.FleetData) : Response * option Written :=
  match body with
  | None => (failed 400 "Invalid JSON in request body", None)
  | Some req =>
    if falsy (action req) then (failed 400 "Action is required", None) else
    match DataRoute.readData file with
    | None => (failed 500 "Failed to update data", None)
    | Some currentData =>
      let writeCurrent (currentData : DataRoute.FleetData) :=
        if writable then (dataUpdated, Some (WriteCurrent currentData))
        else (failed 500 "Failed to write data to file", None) in
      if bool_decide (action req = "update-system-stats") then
        match data req with
        | None => (failed 500 "Failed to update data", None)
        | Some updateData =>
          match systemStats updateData with
          | Some stats =>
            writeCurrent
              (set_systemStats (spread (DataRoute.systemStats currentData) stats)
                 currentData)
          | None => writeCurrent currentData
          end
        end
      else if bool_decide (action req = "update-data") then
        match data req with
        | Some updateData =>
          if writable then (dataUpdated, Some (WriteUpdate updateData))
          else (failed 500 "Failed to write data to file", None)
        | None => (failed 400 "No data provided for update", None)
        end
      else if bool_decide (action req = "reset-data") then
        writeCurrent currentData
      else (failed 400 "Unknown action", None)
    end
  end.
End DataRoutePOST.

(** ** The booking cooldown of the user dashboard ([app/user/page.tsx]) *)

Module UserPage.
Import Stdlib.Strings.Ascii.

Definition COOLDOWN_PERIOD : Z := 5 * 60 * 1000.

(** Times are in milliseconds. *)
Record BookingState := mkBookingState {
  isBookingAllowed : bool;
  lastBookingTime : option Z;
  cooldownRemaining : Z;
  hasActiveRequest : bool
}.

Definition initialBookingState : BookingState := mkBookingState true None 0 false.

(** The update the interval applies every second. *)
Definition tick (prev : BookingState) : BookingState :=
  let newCooldown := cooldownRemaining prev - 1000 in
  if bool_decide (newCooldown ≤ 0) then
    mkBookingState true (lastBookingTime prev) 0 false
  else
    mkBookingState (isBookingAllowed prev) (lastBookingTime prev) newCooldown
      (hasActiveRequest prev).

(** One second of the effect: the interval exists only while
    [cooldownRemaining > 0]. *)
Definition second (s : BookingState) : BookingState :=
  if bool_decide (0 < cooldownRemaining s) then tick s else s.

(** The state [requestTransport] sets after a 200, at time [now]. *)
Definition afterRequest (now : Z) : BookingState :=
  mkBookingState false (Some now) COOLDOWN_PERIOD true.

(** The state [cancelBookingRequest] sets after a 200. *)
Definition afterCancel : BookingState := mkBookingState true None 0 false.

(** [checkBookingStatus]: [storedBooking] is the time of the booking kept
    in local storage, if one is kept.  The result is the state and whether
    the stored booking was removed. *)
Definition checkBookingStatus (storedBooking : option Z) (currentTime : Z)
    (s : BookingState) : BookingState * bool :=
  match storedBooking with
  | Some bookingTime =>
    let timeDiff := currentTime - bookingTime in
    if bool_decide (timeDiff < COOLDOWN_PERIOD) then
      (mkBookingState false (Some bookingTime) (COOLDOWN_PERIOD - timeDiff) true, false)
    else (s, true)
  | None => (s, false)
  end.

Record Validation := mkValidation { isValid : bool; error : option string }.

Definition validateBookingRequest (selectedDestination : string) (s : BookingState)
    : Validation :=
  if falsy selectedDestination then
    mkValidation false (Some "Please select a destination")
  else if negb (isBookingAllowed s) then
    mkValidation false (Some "Please wait before making another booking")
  else if hasActiveRequest s then
    mkValidation false (Some "You already have an active booking request")
  else mkValidation true None.

(** [s.padStart(n, c)] for a one-character pad. *)
Definition padStart (n : nat) (c : Ascii.ascii) (s : string) : string :=
  String.concat "" (replicate (n - String.length s) (String c "")) +:+ s.

Definition formatCooldownTime (milliseconds : Z) : string :=
  let minutes := milliseconds / 60000 in
  let seconds := Z.rem milliseconds 60000 / 1000 in
  padStart 2 "0"%char (decimal minutes) +:+ ":" +:+
  padStart 2 "0"%char (decimal seconds).

(** The character of a decimal digit. *)
Definition digit (n : Z) : Ascii.ascii := Ascii.ascii_of_nat (48 + Z.to_nat n).
End UserPage.

(** ** Arrays: [find], [findIndex], assignment to a slot, [filter().length] *)

Section arrays.
Context {A : Type} (P : A → Prop) `{!∀ x, Decision (P x)}.

Lemma find_Some_index (l : list A) (x : A) :
  find P l = Some x ↔ ∃ i, list_find P l = Some (i, x).
Proof.
  unfold find. rewrite fmap_Some. split.
  - intros [[i y] [Hf ->]]. by exists i.
  - intros [i Hf]. by exists (i, x).
Qed.

Lemma findIndex_of_list_find (l : list A) (i : nat) (x : A) :
  list_find P l = Some (i, x) → findIndex P l = Some i.
Proof. unfold findIndex. by intros ->. Qed.

Lemma find_of_list_find (l : list A) (i : nat) (x : A) :
  list_find P l = Some (i, x) → find P l = Some x.
Proof. unfold find. by intros ->. Qed.

Lemma find_None_list_find (l : list A) :
  find P l = None ↔ list_find P l = None.
Proof. unfold find. by rewrite fmap_None. Qed.

(** Overwriting the slot that [findIndex] returned with an element that
    still satisfies [P] leaves it the first match. *)
Lemma list_find_insert_same (l : list A) (i : nat) (x y : A) :
  list_find P l = Some (i, x) → P y →
  list_find P (<[i := y]> l) = Some (i, y).
Proof.
  intros (Hi & _ & Hmin)%list_find_Some Hy.
  apply list_find_Some. split_and!; [|done|].
  - apply list_lookup_insert_eq. by eapply lookup_lt_Some.
  - intros k z Hk Hlt. rewrite list_lookup_insert_ne in Hk by lia. eauto.
Qed.

Lemma list_find_alter_same (f : A → A) (l : list A) (i : nat) (x : A) :
  list_find P l = Some (i, x) → P (f x) →
  list_find P (alter f i l) = Some (i, f x).
Proof.
  intros (Hi & _ & Hmin)%list_find_Some Hy.
  apply list_find_Some. split_and!; [|done|].
  - by rewrite list_lookup_alter_eq, Hi.
  - intros k z Hk Hlt. rewrite list_lookup_alter_ne in Hk by lia. eauto.
Qed.

Lemma count_nonneg (l : list A) : 0 ≤ count P l.
Proof. unfold count. lia. Qed.

Lemma count_app (l1 l2 : list A) : count P (l1 ++ l2) = count P l1 + count P l2.
Proof. unfold count. rewrite list.filter_app, length_app. lia. Qed.

Lemma count_cons (x : A) (l : list A) : count P (x :: l) = indicator P x + count P l.
Proof.
  unfold count, indicator. rewrite filter_cons.
  destruct (decide (P x)); simpl; lia.
Qed.

Lemma count_snoc (l : list A) (x : A) : count P (l ++ [x]) = count P l + indicator P x.
Proof. rewrite count_app, count_cons. change (count P []) with 0. lia. Qed.

Lemma count_insert (l : list A) (i : nat) (x y : A) :
  l !! i = Some x →
  count P (<[i := y]> l) = count P l - indicator P x + indicator P y.
Proof.
  intros Hi. rewrite insert_take_drop by (by eapply lookup_lt_Some).
  rewrite <- (take_drop_middle l i x Hi) at 3.
  rewrite !count_app, !count_cons. lia.
Qed.

Lemma count_lookup_pos (l : list A) (i : nat) (x : A) :
  l !! i = Some x → P x → 1 ≤ count P l.
Proof.
  intros Hi Hx. rewrite <- (take_drop_middle l i x Hi).
  rewrite count_app, count_cons. unfold indicator.
  rewrite decide_True by done.
  pose proof (count_nonneg (take i l)). pose proof (count_nonneg (drop (S i) l)). lia.
Qed.
End arrays.

(** ** Admin assignment *)

Section assign.
Import AssignJourneyRequest.

Lemma not_falsy (s : string) : s ≠ "" → falsy s = false.
Proof. intros. unfold falsy. by apply bool_decide_eq_false_2. Qed.

(** Whatever the request and the file, the handler either leaves the file
    as it was or answers 200 having written the journey and the car at
    once. *)
Lemma assign_all_or_nothing (w : bool) (body : option AssignJourneyRequest.t)
    (file : File) :
  (AdminJourneysAssign.POST w body file).2 = file ∨
  ∃ req data', body = Some req ∧
    AdminJourneysAssign.POST w body file =
      (success "Car and driver assigned successfully" None, Some data') ∧
    Journey.status <$> find (λ j, Journey.id j = journeyId req)
                            (FleetData.journeys data') = Some in_progress ∧
    Car.status <$> find (λ c, Car.id c = carId req)
                        (FleetData.cars data') = Some in_use.
Proof.
  unfold AdminJourneysAssign.POST.
  destruct body as [req|]; [|by left].
  destruct (falsy _ || falsy _ || falsy _); [by left|].
  destruct (list_find _ (FleetData.journeys _)) as [[i j]|] eqn:Hj; [|by left].
  case_bool_decide; [by left|].
  destruct (find _ (FleetData.cars _)) as [c|] eqn:Hc; [|by left].
  case_bool_decide; [by left|].
  destruct (find _ (FleetData.drivers _)) as [d|] eqn:Hd; [|by left].
  destruct (Driver.onLeave d); [by left|].
  destruct w; [right|by left].
  apply find_Some_index in Hc as [k Hc].
  rewrite (findIndex_of_list_find _ _ _ _ Hc). simpl.
  eexists req, _. split_and!; [done|reflexivity|..].
  - simpl. erewrite find_of_list_find.
    2:{ apply (list_find_insert_same _ _ _ j); [done|].
        by apply list_find_Some in Hj as (_ & ? & _). }
    done.
  - simpl. erewrite find_of_list_find.
    2:{ apply (list_find_alter_same _ _ _ _ c); [done|].
        by apply list_find_Some in Hc as (_ & ? & _). }
    done.
Qed.

Lemma assign_accepts (w : bool) (data : FleetData.t) (req : AssignJourneyRequest.t)
    (i k : nat) (journey : Journey.t) (car : Car.t) (driver : Driver.t) :
  journeyId req ≠ "" → carId req ≠ "" → driverId req ≠ "" →
  list_find (λ j, Journey.id j = journeyId req) (FleetData.journeys data)
    = Some (i, journey) →
  Journey.status journey = requested →
  list_find (λ c, Car.id c = carId req) (FleetData.cars data) = Some (k, car) →
  Car.status car = available →
  find (λ d, Driver.id d = driverId req) (FleetData.drivers data) = Some driver →
  Driver.onLeave driver = false →
  AdminJourneysAssign.POST w (Some req) (Some data) =
    if w then
      (success "Car and driver assigned successfully" None,
       Some (assigned req i journey k car driver data))
    else (failure 500 "Failed to assign car and driver", Some data).
Proof.
  intros Hj Hc Hd Hfj Hsj Hfc Hsc Hfd Hsd.
  unfold AdminJourneysAssign.POST, assigned.
  rewrite !not_falsy by done. simpl. rewrite Hfj.
  rewrite bool_decide_eq_false_2 by (by intros []).
  rewrite (find_of_list_find _ _ _ _ Hfc).
  rewrite bool_decide_eq_false_2 by (by intros []).
  rewrite Hfd, Hsd, (findIndex_of_list_find _ _ _ _ Hfc).
  by destruct w.
Qed.
End assign.

(** C1, as amended.  When the three ids of the request are non-empty, the
    journey found under [journeyId] is [requested], the car found under
    [carId] is [available] and the driver found under [driverId] is not on
    leave, then the assignment, on a file that can be written, answers 200
    and stores a state in which that journey carries the car id, the driver
    id, the driver's name, the car's model and the status [in_progress],
    every other field as before, and in which that car is [in_use].  The
    two updates come together: the file afterwards is that state when the
    write goes through and the untouched file when it does not. *)
Theorem assign_requested_journey (data : FleetData.t)
    (req : AssignJourneyRequest.t) (journey : Journey.t) (car : Car.t)
    (driver : Driver.t) :
  AssignJourneyRequest.journeyId req ≠ "" →
  AssignJourneyRequest.carId req ≠ "" →
  AssignJourneyRequest.driverId req ≠ "" →
  find (λ j, Journey.id j = AssignJourneyRequest.journeyId req)
       (FleetData.journeys data) = Some journey →
  Journey.status journey = requested →
  find (λ c, Car.id c = AssignJourneyRequest.carId req)
       (FleetData.cars data) = Some car →
  Car.status car = available →
  find (λ d, Driver.id d = AssignJourneyRequest.driverId req)
       (FleetData.drivers data) = Some driver →
  Driver.onLeave driver = false →
  ∃ data',
    AdminJourneysAssign.POST true (Some req) (Some data) =
      (success "Car and driver assigned successfully" None, Some data') ∧
    find (λ j, Journey.id j = AssignJourneyRequest.journeyId req)
         (FleetData.journeys data') =
      Some (Journey.with_assignment (AssignJourneyRequest.carId req)
              (AssignJourneyRequest.driverId req) (Driver.name driver)
              (Car.model car) in_progress journey) ∧
    find (λ c, Car.id c = AssignJourneyRequest.carId req)
         (FleetData.cars data') = Some (Car.with_status in_use car) ∧
    ∀ w, (AdminJourneysAssign.POST w (Some req) (Some data)).2 =
         Some (if w then data' else data).
Proof.
  intros Hj Hc Hd [i Hfj]%find_Some_index Hsj [k Hfc]%find_Some_index Hsc Hfd Hsd.
  exists (assigned req i journey k car driver data).
  split_and!.
  - by rewrite (assign_accepts true _ _ i k journey car driver).
  - eapply find_of_list_find, list_find_insert_same; [done|].
    by apply list_find_Some in Hfj as (_ & ? & _).
  - eapply find_of_list_find, list_find_alter_same; [done|].
    by apply list_find_Some in Hfc as (_ & ? & _).
  - intros w. rewrite (assign_accepts w _ _ i k journey car driver) by done.
    by destruct w.
Qed.

Lemma assign_requested_journey_witness :
  ∃ data',
    AdminJourneysAssign.POST true
      (Some (AssignJourneyRequest.mk "journey-1" "car1" "driver1"))
      (Some (Demo.fleet [Demo.journey "journey-1" "u1" requested] (Demo.stats 0 1 1))) =
      (success "Car and driver assigned successfully" None, Some data') ∧
    find (λ j, Journey.id j = "journey-1") (FleetData.journeys data') =
      Some (Journey.with_assignment "car1" "driver1" "Dan" "Corolla" in_progress
              (Demo.journey "journey-1" "u1" requested)) ∧
    find (λ c, Car.id c = "car1") (FleetData.cars data') =
      Some (Car.with_status in_use (Demo.car "car1" "Corolla" available)) ∧
    ∀ w, (AdminJourneysAssign.POST w
            (Some (AssignJourneyRequest.mk "journey-1" "car1" "driver1"))
            (Some (Demo.fleet [Demo.journey "journey-1" "u1" requested]
                     (Demo.stats 0 1 1)))).2 =
         Some (if w then data'
               else Demo.fleet [Demo.journey "journey-1" "u1" requested]
                      (Demo.stats 0 1 1)).
Proof.
  apply (assign_requested_journey
           (Demo.fleet [Demo.journey "journey-1" "u1" requested] (Demo.stats 0 1 1))
           (AssignJourneyRequest.mk "journey-1" "car1" "driver1")
           (Demo.journey "journey-1" "u1" requested)
           (Demo.car "car1" "Corolla" available)
           (Demo.driver "driver1" "Dan" false));
    first [discriminate | reflexivity].
Defined.

(** C1 as stated fails on the guards of the handler: a car filed under the
    empty id is found, available, and still refused with 400; and when the
    file cannot be written the answer is 500.  In both cases the hypotheses
    of the claim hold and the file stays as it was. *)
Lemma assign_requested_journey_refused :
  let data :=
    FleetData.set_cars [Demo.car "" "Corolla" available]
      (Demo.fleet [Demo.journey "journey-1" "u1" requested] (Demo.stats 0 1 1)) in
  let req := AssignJourneyRequest.mk "journey-1" "" "driver1" in
  let data2 := Demo.fleet [Demo.journey "journey-1" "u1" requested] (Demo.stats 0 1 1) in
  let req2 := AssignJourneyRequest.mk "journey-1" "car1" "driver1" in
  (Journey.status <$> find (λ j, Journey.id j = "journey-1") (FleetData.journeys data)
     = Some requested ∧
   Car.status <$> find (λ c, Car.id c = "") (FleetData.cars data) = Some available ∧
   Driver.onLeave <$> find (λ d, Driver.id d = "driver1") (FleetData.drivers data)
     = Some false ∧
   AdminJourneysAssign.POST true (Some req) (Some data) =
     (failure 400 "Journey ID, Car ID, and Driver ID are required", Some data)) ∧
  (Journey.status <$> find (λ j, Journey.id j = "journey-1") (FleetData.journeys data2)
     = Some requested ∧
   Car.status <$> find (λ c, Car.id c = "car1") (FleetData.cars data2) = Some available ∧
   Driver.onLeave <$> find (λ d, Driver.id d = "driver1") (FleetData.drivers data2)
     = Some false ∧
   AdminJourneysAssign.POST false (Some req2) (Some data2) =
     (failure 500 "Failed to assign car and driver", Some data2)).
Proof. vm_compute. repeat split. Qed.

(** C3, as amended.  When the journey found under [journeyId] is
    [requested] and the car found under [carId] is not [available], the
    assignment answers 400 and leaves the file as it was, whether or not it
    could be written; when moreover the three ids of the request are
    non-empty, the error is "Car is not available". *)
Theorem assign_unavailable_car (w : bool) (data : FleetData.t)
    (req : AssignJourneyRequest.t) (journey : Journey.t) (car : Car.t) :
  find (λ j, Journey.id j = AssignJourneyRequest.journeyId req)
       (FleetData.journeys data) = Some journey →
  Journey.status journey = requested →
  find (λ c, Car.id c = AssignJourneyRequest.carId req)
       (FleetData.cars data) = Some car →
  Car.status car ≠ available →
  let result := AdminJourneysAssign.POST w (Some req) (Some data) in
  Response.status result.1 = 400 ∧
  result.2 = Some data ∧
  find (λ j, Journey.id j = AssignJourneyRequest.journeyId req)
       (FleetData.journeys (readData result.2)) = Some journey ∧
  find (λ c, Car.id c = AssignJourneyRequest.carId req)
       (FleetData.cars (readData result.2)) = Some car ∧
  (AssignJourneyRequest.journeyId req ≠ "" →
   AssignJourneyRequest.carId req ≠ "" →
   AssignJourneyRequest.driverId req ≠ "" →
   result = (failure 400 "Car is not available", Some data)).
Proof.
  intros [i Hfj]%find_Some_index Hsj Hfc Hsc result.
  assert (Hguard : AdminJourneysAssign.POST w (Some req) (Some data) =
    if falsy (AssignJourneyRequest.journeyId req)
       || falsy (AssignJourneyRequest.carId req)
       || falsy (AssignJourneyRequest.driverId req)
    then (failure 400 "Journey ID, Car ID, and Driver ID are required", Some data)
    else (failure 400 "Car is not available", Some data)).
  { unfold AdminJourneysAssign.POST.
    destruct (falsy _ || falsy _ || falsy _); [done|]. simpl.
    rewrite Hfj, bool_decide_eq_false_2 by (by intros []).
    by rewrite Hfc, bool_decide_eq_true_2. }
  subst result. rewrite Hguard. split_and!.
  - by destruct (_ || _).
  - by destruct (_ || _).
  - destruct (_ || _); simpl; by eapply find_of_list_find.
  - by destruct (_ || _).
  - intros Hj Hc Hd. by rewrite !not_falsy.
Qed.

Lemma assign_unavailable_car_witness :
  let data := Demo.fleet [Demo.journey "journey-1" "u1" requested] (Demo.stats 0 1 1) in
  let result :=
    AdminJourneysAssign.POST true
      (Some (AssignJourneyRequest.mk "journey-1" "car2" "driver1")) (Some data) in
  Response.status result.1 = 400 ∧
  result.2 = Some data ∧
  find (λ j, Journey.id j = "journey-1") (FleetData.journeys (readData result.2))
    = Some (Demo.journey "journey-1" "u1" requested) ∧
  find (λ c, Car.id c = "car2") (FleetData.cars (readData result.2))
    = Some (Demo.car "car2" "Hiace" servicing) ∧
  ("journey-1" ≠ "" → "car2" ≠ "" → "driver1" ≠ "" →
   result = (failure 400 "Car is not available", Some data)).
Proof.
  apply (assign_unavailable_car true
           (Demo.fleet [Demo.journey "journey-1" "u1" requested] (Demo.stats 0 1 1))
           (AssignJourneyRequest.mk "journey-1" "car2" "driver1")
           (Demo.journey "journey-1" "u1" requested)
           (Demo.car "car2" "Hiace" servicing));
    first [discriminate | reflexivity].
Defined.

(** C3 as stated names the wrong error when the request carries no driver
    id: the journey is requested, the car is in servicing, and the answer is
    the 400 of the field check, not "Car is not available". *)
Lemma assign_unavailable_car_other_error :
  let data := Demo.fleet [Demo.journey "journey-1" "u1" requested] (Demo.stats 0 1 1) in
  let req := AssignJourneyRequest.mk "journey-1" "car2" "" in
  Journey.status <$> find (λ j, Journey.id j = "journey-1") (FleetData.journeys data)
    = Some requested ∧
  Car.status <$> find (λ c, Car.id c = "car2") (FleetData.cars data) = Some servicing ∧
  AdminJourneysAssign.POST true (Some req) (Some data) =
    (failure 400 "Journey ID, Car ID, and Driver ID are required", Some data) ∧
  Response.error (AdminJourneysAssign.POST true (Some req) (Some data)).1
    ≠ Some "Car is not available".
Proof. vm_compute. repeat split. discriminate. Qed.

(** ** Journey requests *)

Section request.
Import JourneyRequest.

(** The request handler past its field check and its user lookup. *)
Lemma request_checked (clock : Clock.t) (w : bool) (req : JourneyRequest.t)
    (start : Location.t) (user : User.t) (data : FleetData.t) :
  userId req ≠ "" → destination req ≠ "" → startLocation req = Some start →
  find (λ u, User.id u = userId req) (FleetData.users data) = Some user →
  JourneysRequest.POST clock w (Some req) (Some data) =
    match find (λ j, Journey.userId j = userId req ∧ Journey.status j = requested)
               (FleetData.journeys data) with
    | Some _ => (failure 409 "You already have a pending journey request", Some data)
    | None =>
      if w then
        (success "Journey request submitted successfully. Waiting for admin allocation."
           (Some (JourneysRequest.newJourney clock req user start)),
         Some (FleetData.set_systemStats
                 (SystemStats.set_pendingRequests
                    (SystemStats.pendingRequests (FleetData.systemStats data) + 1)
                    (FleetData.systemStats data))
                 (FleetData.set_journeys
                    (FleetData.journeys data ++
                       [JourneysRequest.newJourney clock req user start]) data)))
      else (failure 500 "Failed to create journey request", Some data)
    end.
Proof.
  intros Hu Hd Hs Hfu. unfold JourneysRequest.POST.
  rewrite Hs, !not_falsy by done. simpl. rewrite Hfu.
  destruct (find _ (FleetData.journeys data)); [done|]. by destruct w.
Qed.

(** Every answer of the handler other than 200 leaves the file alone, and
    a 200 appends the journey it returns. *)
Lemma request_outcome (clock : Clock.t) (w : bool) (body : option JourneyRequest.t)
    (file : File) :
  (JourneysRequest.POST clock w body file).2 = file ∧
    Response.status (JourneysRequest.POST clock w body file).1 ≠ 200 ∨
  ∃ req user start,
    body = Some req ∧ startLocation req = Some start ∧
    find (λ j, Journey.userId j = userId req ∧ Journey.status j = requested)
         (FleetData.journeys (readData file)) = None ∧
    JourneysRequest.POST clock w body file =
      (success "Journey request submitted successfully. Waiting for admin allocation."
         (Some (JourneysRequest.newJourney clock req user start)),
       Some (FleetData.set_systemStats
               (SystemStats.set_pendingRequests
                  (SystemStats.pendingRequests (FleetData.systemStats (readData file)) + 1)
                  (FleetData.systemStats (readData file)))
               (FleetData.set_journeys
                  (FleetData.journeys (readData file) ++
                     [JourneysRequest.newJourney clock req user start])
                  (readData file)))).
Proof.
  unfold JourneysRequest.POST.
  destruct body as [req|]; [|by left].
  destruct (startLocation req) as [start|] eqn:Hs; [|by left].
  destruct (falsy _ || falsy _); [by left|].
  destruct (find _ (FleetData.users _)) as [user|]; [|by left].
  destruct (find _ (FleetData.journeys _)) eqn:Hp; [by left|].
  destruct w; [right|by left].
  by exists req, user, start.
Qed.
End request.

(** ** What a call can do to the file

    Each handler either answers something other than 200 and leaves the
    file as it was, or answers 200 and has written the data described. *)

Lemma assign_outcome (w : bool) (body : option AssignJourneyRequest.t) (file : File) :
  (AdminJourneysAssign.POST w body file).2 = file ∧
    Response.status (AdminJourneysAssign.POST w body file).1 ≠ 200 ∨
  ∃ req i journey k car driver,
    body = Some req ∧
    list_find (λ j, Journey.id j = AssignJourneyRequest.journeyId req)
              (FleetData.journeys (readData file)) = Some (i, journey) ∧
    Journey.status journey = requested ∧
    list_find (λ c, Car.id c = AssignJourneyRequest.carId req)
              (FleetData.cars (readData file)) = Some (k, car) ∧
    AdminJourneysAssign.POST w body file =
      (success "Car and driver assigned successfully" None,
       Some (assigned req i journey k car driver (readData file))).
Proof.
  unfold AdminJourneysAssign.POST.
  destruct body as [req|]; [|by left].
  destruct (falsy _ || falsy _ || falsy _); [by left|].
  destruct (list_find _ (FleetData.journeys _)) as [[i j]|] eqn:Hj; [|by left].
  case_bool_decide as Hs; [by left|].
  destruct (find _ (FleetData.cars _)) as [c|] eqn:Hc; [|by left].
  case_bool_decide; [by left|].
  destruct (find _ (FleetData.drivers _)) as [d|] eqn:Hd; [|by left].
  destruct (Driver.onLeave d); [by left|].
  destruct w; [right|by left].
  apply find_Some_index in Hc as [k Hc].
  rewrite (findIndex_of_list_find _ _ _ _ Hc). simpl.
  exists req, i, j, k, c, d. split_and!; try done.
  all: by destruct (decide (Journey.status j = requested)).
Qed.

Lemma cancel_outcome (clock : Clock.t) (w : bool) (body : option CancelRequest.t)
    (file : File) :
  (JourneysCancel.POST clock w body file).2 = file ∧
    Response.status (JourneysCancel.POST clock w body file).1 ≠ 200 ∨
  ∃ req i journey,
    body = Some req ∧
    list_find (λ j, Journey.id j = CancelRequest.journeyId req)
              (FleetData.journeys (readData file)) = Some (i, journey) ∧
    terminal (Journey.status journey) = false ∧
    Response.status (JourneysCancel.POST clock w body file).1 = 200 ∧
    (JourneysCancel.POST clock w body file).2 =
      Some (FleetData.set_systemStats
              (let stats := FleetData.systemStats (readData file) in
               let stats :=
                 if bool_decide (Journey.status journey = requested) then
                   SystemStats.set_pendingRequests
                     (Z.max 0 (SystemStats.pendingRequests stats - 1)) stats
                 else stats in
               if bool_decide (Journey.status journey = in_progress) then
                 SystemStats.set_activeJourneys
                   (Z.max 0 (SystemStats.activeJourneys stats - 1)) stats
               else stats)
              (FleetData.set_journeys
                 (<[i := Journey.with_end cancelled (Some (Clock.toISOString clock))
                           journey]> (FleetData.journeys (readData file)))
                 (readData file))).
Proof.
  unfold JourneysCancel.POST.
  destruct body as [req|]; [|by left].
  destruct (falsy _); [by left|].
  destruct (list_find _ (FleetData.journeys _)) as [[i j]|] eqn:Hj; [|by left].
  case_bool_decide as Hc; [by left|].
  case_bool_decide as Hx; [by left|].
  destruct w; [right|by left].
  exists req, i, j. split_and!; try done.
  all: by destruct (Journey.status j).
Qed.

Lemma dropoff_outcome (clock : Clock.t) (w : bool) (body : option DropoffRequest.t)
    (file : File) :
  (JourneysDropoff.POST clock w body file).2 = file ∧
    Response.status (JourneysDropoff.POST clock w body file).1 ≠ 200 ∨
  ∃ req i journey,
    body = Some req ∧
    list_find (λ j, Journey.id j = DropoffRequest.journeyId req)
              (FleetData.journeys (readData file)) = Some (i, journey) ∧
    Journey.status journey = in_progress ∧
    Response.status (JourneysDropoff.POST clock w body file).1 = 200 ∧
    (JourneysDropoff.POST clock w body file).2 =
      Some (FleetData.set_systemStats
              (SystemStats.set_activeJourneys
                 (Z.max 0 (SystemStats.activeJourneys
                             (FleetData.systemStats (readData file)) - 1))
                 (FleetData.systemStats (readData file)))
              (FleetData.set_journeys
                 (<[i := Journey.with_end completed (Some (Clock.toISOString clock))
                           journey]> (FleetData.journeys (readData file)))
                 (readData file))).
Proof.
  unfold JourneysDropoff.POST.
  destruct body as [req|]; [|by left].
  destruct (falsy _); [by left|].
  destruct (list_find _ (FleetData.journeys _)) as [[i j]|] eqn:Hj; [|by left].
  case_bool_decide as Hs; [by left|].
  destruct w; [right|by left].
  exists req, i, j. split_and!; try done.
  all: by destruct (decide (Journey.status j = in_progress)).
Qed.

Lemma route_change_outcome (clock : Clock.t) (w : bool)
    (body : option RouteChangeRequest.t) (file : File) :
  (JourneysRouteChange.POST clock w body file).2 = file ∧
    Response.status (JourneysRouteChange.POST clock w body file).1 ≠ 200 ∨
  ∃ req i journey,
    body = Some req ∧
    list_find (λ j, Journey.id j = RouteChangeRequest.journeyId req)
              (FleetData.journeys (readData file)) = Some (i, journey) ∧
    Journey.status journey = in_progress ∧
    Response.status (JourneysRouteChange.POST clock w body file).1 = 200 ∧
    (JourneysRouteChange.POST clock w body file).2 =
      Some (FleetData.set_journeys
              (<[i := Journey.with_route
                        (Journey.waypoints journey ++
                           [Location.mk 0%Qc 0%Qc (RouteChangeRequest.newWaypoint req)])
                        (Journey.routeChanges journey ++
                           [RouteChange.mk waypoint_added (Clock.toISOString clock)
                              (Some (Location.mk 0%Qc 0%Qc
                                       (RouteChangeRequest.newWaypoint req)))
                              (RouteChangeRequest.reason req)])
                        journey]> (FleetData.journeys (readData file)))
              (readData file)).
Proof.
  unfold JourneysRouteChange.POST.
  destruct body as [req|]; [|by left].
  destruct (falsy _ || falsy _); [by left|].
  destruct (list_find _ (FleetData.journeys _)) as [[i j]|] eqn:Hj; [|by left].
  case_bool_decide as Hs; [by left|].
  destruct w; [right|by left].
  exists req, i, j. split_and!; try done.
  all: by destruct (decide (Journey.status j = in_progress)).
Qed.

Lemma count_find_None {A} (P : A → Prop) `{!∀ x, Decision (P x)} (l : list A) :
  find P l = None → count P l = 0.
Proof.
  rewrite find_None_list_find, list_find_None.
  induction 1 as [|x l Hx _ IH]; [done|].
  rewrite count_cons, IH. unfold indicator. by rewrite decide_False.
Qed.

Lemma find_elem_of {A} (P : A → Prop) `{!∀ x, Decision (P x)} (l : list A) (x : A) :
  x ∈ l → P x → is_Some (find P l).
Proof.
  intros Hin Hx. destruct (list_find_elem_of P l x Hin Hx) as [[i y] Hf].
  exists y. by eapply find_of_list_find.
Qed.

Lemma find_None_elem_of {A} (P : A → Prop) `{!∀ x, Decision (P x)} (l : list A) :
  (∀ x, x ∈ l → ¬ P x) → find P l = None.
Proof.
  intros Hall. apply find_None_list_find, list_find_None, list.Forall_forall, Hall.
Qed.

(** A user with at most one requested journey still has at most one after
    any call of the request handler. *)
Lemma request_pendingOf (clock : Clock.t) (w : bool) (body : option JourneyRequest.t)
    (file : File) (uid : string) :
  pendingOf uid (readData file) ≤ 1 →
  pendingOf uid (readData (JourneysRequest.POST clock w body file).2) ≤ 1.
Proof.
  intros Hle.
  destruct (request_outcome clock w body file)
    as [[-> _]|(req & user & start & -> & Hs & Hnone & ->)]; [done|].
  unfold pendingOf in *. simpl. rewrite count_snoc. unfold indicator.
  case_decide as Hnew; [|lia]. simpl in Hnew. destruct Hnew as [<- _].
  rewrite (count_find_None _ _ Hnone). lia.
Qed.

(** C4, as amended.  For a request that carries a user id, a destination
    and a start location and whose user exists: if some journey of that
    user is [requested], the answer is 409 and the file is as before, so no
    journey is added; if none is and the file can be written, exactly one
    journey is appended, with status [requested], empty car and driver ids
    and no end time.  In every case a user who had at most one requested
    journey still has at most one. *)
Theorem request_conflict_or_append (clock : Clock.t) (w : bool)
    (req : JourneyRequest.t) (start : Location.t) (user : User.t)
    (data : FleetData.t) :
  JourneyRequest.userId req ≠ "" →
  JourneyRequest.destination req ≠ "" →
  JourneyRequest.startLocation req = Some start →
  find (λ u, User.id u = JourneyRequest.userId req) (FleetData.users data) = Some user →
  let result := JourneysRequest.POST clock w (Some req) (Some data) in
  ((∃ j, j ∈ FleetData.journeys data ∧
         Journey.userId j = JourneyRequest.userId req ∧
         Journey.status j = requested) →
   result = (failure 409 "You already have a pending journey request", Some data)) ∧
  ((∀ j, j ∈ FleetData.journeys data →
         Journey.userId j = JourneyRequest.userId req →
         Journey.status j ≠ requested) →
   w = true →
   ∃ j data',
     result =
       (success "Journey request submitted successfully. Waiting for admin allocation."
          (Some j), Some data') ∧
     FleetData.journeys data' = (FleetData.journeys data ++ [j])%list ∧
     Journey.userId j = JourneyRequest.userId req ∧
     Journey.status j = requested ∧
     Journey.carId j = "" ∧
     Journey.driverId j = "" ∧
     Journey.endTime j = None) ∧
  (∀ uid, pendingOf uid data ≤ 1 → pendingOf uid (readData result.2) ≤ 1).
Proof.
  intros Hu Hd Hs Hfu result. split_and!.
  - intros (j & Hin & Hju & Hjs). subst result.
    rewrite (request_checked clock w req start user data) by done.
    by destruct (find_elem_of
      (λ j, Journey.userId j = JourneyRequest.userId req ∧ Journey.status j = requested)
      _ j Hin (conj Hju Hjs)) as [j' ->].
  - intros Hnone ->. subst result.
    rewrite (request_checked clock true req start user data) by done.
    rewrite find_None_elem_of by (intros j Hin [? ?]; by eapply Hnone).
    by eexists _, _.
  - intros uid. apply (request_pendingOf clock w (Some req) (Some data)).
Qed.

Lemma request_conflict_or_append_witness :
  let req := JourneyRequest.mk "u1" "Airport" (Some Demo.dhaka) None in
  let data := Demo.fleet [Demo.journey "journey-1" "u2" requested] (Demo.stats 0 1 1) in
  ∃ j data',
    JourneysRequest.POST Demo.clock true (Some req) (Some data) =
      (success "Journey request submitted successfully. Waiting for admin allocation."
         (Some j), Some data') ∧
    FleetData.journeys data' = (FleetData.journeys data ++ [j])%list ∧
    Journey.userId j = "u1" ∧
    Journey.status j = requested ∧
    Journey.carId j = "" ∧
    Journey.driverId j = "" ∧
    Journey.endTime j = None.
Proof.
  refine (proj1 (proj2
    (request_conflict_or_append Demo.clock true
       (JourneyRequest.mk "u1" "Airport" (Some Demo.dhaka) None) Demo.dhaka
       (Demo.user "u1" "Ada")
       (Demo.fleet [Demo.journey "journey-1" "u2" requested] (Demo.stats 0 1 1))
       _ _ _ _)) _ _); try first [discriminate | reflexivity].
  intros j ->%list_elem_of_singleton. discriminate.
Defined.

(** C4 as stated fails where the handler checks something else first: a
    requested journey of a user who is not in [users] gives 404, not 409;
    and a request without destination gives 400 and appends nothing although
    the user exists and has no requested journey. *)
Lemma request_conflict_or_append_refused :
  let data := Demo.fleet [Demo.journey "journey-1" "ghost" requested] (Demo.stats 0 1 1) in
  (Journey.status <$> find (λ j, Journey.userId j = "ghost") (FleetData.journeys data)
     = Some requested ∧
   JourneysRequest.POST Demo.clock true
     (Some (JourneyRequest.mk "ghost" "Airport" (Some Demo.dhaka) None)) (Some data) =
     (failure 404 "User not found", Some data)) ∧
  (User.id <$> find (λ u, User.id u = "u1") (FleetData.users data) = Some "u1" ∧
   find (λ j, Journey.userId j = "u1" ∧ Journey.status j = requested)
        (FleetData.journeys data) = None ∧
   JourneysRequest.POST Demo.clock true
     (Some (JourneyRequest.mk "u1" "" (Some Demo.dhaka) None)) (Some data) =
     (failure 400 "User ID, destination, and start location are required", Some data)).
Proof. vm_compute. repeat split. Qed.

(** ** Calls in sequence *)

(** A call that does not answer 200 has not written the file. *)
Lemma handle_not_ok (c : Call) (file : File) :
  Response.status (handle c file).1 ≠ 200 → (handle c file).2 = file.
Proof.
  destruct c as [clock w body|w body|clock w body|clock w body|clock w body]; simpl.
  - destruct (request_outcome clock w body file)
      as [[? _]|(? & ? & ? & _ & _ & _ & ->)]; done.
  - destruct (assign_outcome w body file)
      as [[? _]|(? & ? & ? & ? & ? & ? & _ & _ & _ & _ & ->)]; done.
  - destruct (cancel_outcome clock w body file)
      as [[? _]|(? & ? & ? & _ & _ & _ & ? & _)]; done.
  - destruct (dropoff_outcome clock w body file)
      as [[? _]|(? & ? & ? & _ & _ & _ & ? & _)]; done.
  - destruct (route_change_outcome clock w body file)
      as [[? _]|(? & ? & ? & _ & _ & _ & ? & _)]; done.
Qed.

(** C9.  Whenever a journey endpoint (request, admin assign, cancel,
    dropoff, route change) answers 400, 404 or 409, the file after the call
    is the file before it: nothing was written. *)
Theorem error_response_writes_nothing (c : Call) (file : File) :
  Response.status (handle c file).1 = 400 ∨
  Response.status (handle c file).1 = 404 ∨
  Response.status (handle c file).1 = 409 →
  (handle c file).2 = file.
Proof. intros H. apply handle_not_ok. lia. Qed.

Lemma error_response_writes_nothing_witness :
  (handle (CallCancel Demo.clock true (Some (CancelRequest.mk "journey-9" None)))
          (Some (Demo.fleet [Demo.journey "journey-1" "u1" requested]
                   (Demo.stats 0 1 1)))).2 =
  Some (Demo.fleet [Demo.journey "journey-1" "u1" requested] (Demo.stats 0 1 1)).
Proof.
  apply (error_response_writes_nothing
           (CallCancel Demo.clock true (Some (CancelRequest.mk "journey-9" None)))).
  right. left. reflexivity.
Defined.

Lemma forward_refl (s : JourneyStatus) : forward s s = true.
Proof. by destruct s. Qed.

(** Overwriting the slot [i0] of an array, seen from any slot. *)
Lemma lookup_insert_cases {A} (l : list A) (i0 i : nat) (x0 y x : A) :
  l !! i0 = Some x0 → l !! i = Some x →
  (<[i0 := y]> l) !! i = Some y ∧ x = x0 ∨ (<[i0 := y]> l) !! i = Some x.
Proof.
  intros H0 Hi. destruct (decide (i = i0)) as [->|Hne].
  - left. rewrite list_lookup_insert_eq by (by eapply lookup_lt_Some). split; congruence.
  - right. by rewrite list_lookup_insert_ne.
Qed.

(** One call moves the journey in a slot by at most one step of the life
    cycle, and not at all when it is completed or cancelled. *)
Lemma handle_journey (c : Call) (file : File) (i : nat) (j : Journey.t) :
  FleetData.journeys (readData file) !! i = Some j →
  ∃ j', FleetData.journeys (readData (handle c file).2) !! i = Some j' ∧
        (Journey.status j' = Journey.status j ∨
         transition (Journey.status j) (Journey.status j') = true) ∧
        (terminal (Journey.status j) = true → j' = j).
Proof.
  intros Hi.
  destruct c as [clock w body|w body|clock w body|clock w body|clock w body]; simpl.
  - destruct (request_outcome clock w body file)
      as [[-> _]|(req & user & start & _ & _ & _ & ->)]; [by eauto|].
    exists j. simpl. split_and!; [|by left|done].
    by apply lookup_app_l_Some.
  - destruct (assign_outcome w body file)
      as [[-> _]|(req & i0 & j0 & k & car & driver & _ & Hf & Hs & _ & ->)];
      [by eauto|].
    apply list_find_Some in Hf as (H0 & _ & _). simpl.
    destruct (lookup_insert_cases _ i0 i j0
      (Journey.with_assignment (AssignJourneyRequest.carId req)
         (AssignJourneyRequest.driverId req) (Driver.name driver) (Car.model car)
         in_progress j0) j H0 Hi) as [[-> ->]| ->]; [|by eauto].
    eexists; split_and!; [done|right; by rewrite Hs|by rewrite Hs].
  - destruct (cancel_outcome clock w body file)
      as [[-> _]|(req & i0 & j0 & _ & Hf & Hs & _ & ->)]; [by eauto|].
    apply list_find_Some in Hf as (H0 & _ & _). simpl.
    destruct (lookup_insert_cases _ i0 i j0
      (Journey.with_end cancelled (Some (Clock.toISOString clock)) j0) j H0 Hi)
      as [[-> ->]| ->]; [|by eauto].
    eexists; split_and!; [done|right; by destruct (Journey.status j0)|by rewrite Hs].
  - destruct (dropoff_outcome clock w body file)
      as [[-> _]|(req & i0 & j0 & _ & Hf & Hs & _ & ->)]; [by eauto|].
    apply list_find_Some in Hf as (H0 & _ & _). simpl.
    destruct (lookup_insert_cases _ i0 i j0
      (Journey.with_end completed (Some (Clock.toISOString clock)) j0) j H0 Hi)
      as [[-> ->]| ->]; [|by eauto].
    eexists; split_and!; [done|right; by rewrite Hs|by rewrite Hs].
  - destruct (route_change_outcome clock w body file)
      as [[-> _]|(req & i0 & j0 & _ & Hf & Hs & _ & ->)]; [by eauto|].
    apply list_find_Some in Hf as (H0 & _ & _). simpl.
    destruct (lookup_insert_cases _ i0 i j0
      (Journey.with_route
         (Journey.waypoints j0 ++
            [Location.mk 0%Qc 0%Qc (RouteChangeRequest.newWaypoint req)])
         (Journey.routeChanges j0 ++
            [RouteChange.mk waypoint_added (Clock.toISOString clock)
               (Some (Location.mk 0%Qc 0%Qc (RouteChangeRequest.newWaypoint req)))
               (RouteChangeRequest.reason req)]) j0) j H0 Hi)
      as [[-> ->]| ->]; [|by eauto].
    eexists; split_and!; [done|by left|by rewrite Hs].
Qed.

Lemma run_journey (cs : list Call) (file : File) (i : nat) (j : Journey.t) :
  FleetData.journeys (readData file) !! i = Some j →
  ∃ j', FleetData.journeys (readData (run cs file)) !! i = Some j' ∧
        forward (Journey.status j) (Journey.status j') = true ∧
        (terminal (Journey.status j) = true → j' = j).
Proof.
  revert file j. induction cs as [|c cs IH]; intros file j Hi.
  - exists j. split_and!; [done|apply forward_refl|done].
  - destruct (handle_journey c file i j Hi) as (j1 & H1 & Hstep & Hterm1).
    destruct (IH _ _ H1) as (j' & H' & Hfwd & Hterm).
    exists j'. split_and!; [done| |].
    + destruct Hstep as [Heq|Htr]; [by rewrite <- Heq|].
      destruct (Journey.status j), (Journey.status j1), (Journey.status j'); done.
    + intros Ht. specialize (Hterm1 Ht). subst j1. auto.
Qed.

(** C2.  Through any sequence of request, assign, cancel, dropoff and
    route-change calls, the journey in any slot of the array keeps or
    advances its status along requested, in-progress, completed or
    cancelled, and a journey that is completed or cancelled is not changed
    at all.  A cancel aimed at a completed or cancelled journey, and a
    dropoff aimed at a journey that is not in progress, answer 400 and leave
    the file as it was.  A single call keeps the status or takes one of the
    steps requested to in-progress, requested to cancelled, in-progress to
    completed, in-progress to cancelled. *)
Theorem journey_status_moves_forward :
  (∀ (cs : list Call) (file : File) (i : nat) (j : Journey.t),
     FleetData.journeys (readData file) !! i = Some j →
     ∃ j', FleetData.journeys (readData (run cs file)) !! i = Some j' ∧
           forward (Journey.status j) (Journey.status j') = true ∧
           (terminal (Journey.status j) = true → j' = j)) ∧
  (∀ (clock : Clock.t) (w : bool) (req : CancelRequest.t) (file : File)
     (journey : Journey.t),
     find (λ j, Journey.id j = CancelRequest.journeyId req)
          (FleetData.journeys (readData file)) = Some journey →
     terminal (Journey.status journey) = true →
     Response.status (JourneysCancel.POST clock w (Some req) file).1 = 400 ∧
     (JourneysCancel.POST clock w (Some req) file).2 = file) ∧
  (∀ (clock : Clock.t) (w : bool) (req : DropoffRequest.t) (file : File)
     (journey : Journey.t),
     find (λ j, Journey.id j = DropoffRequest.journeyId req)
          (FleetData.journeys (readData file)) = Some journey →
     Journey.status journey ≠ in_progress →
     Response.status (JourneysDropoff.POST clock w (Some req) file).1 = 400 ∧
     (JourneysDropoff.POST clock w (Some req) file).2 = file) ∧
  (∀ (c : Call) (file : File) (i : nat) (j : Journey.t),
     FleetData.journeys (readData file) !! i = Some j →
     ∃ j', FleetData.journeys (readData (handle c file).2) !! i = Some j' ∧
           (Journey.status j' = Journey.status j ∨
            transition (Journey.status j) (Journey.status j') = true)).
Proof.
  split_and!; [| | |intros c file i j Hi;
    destruct (handle_journey c file i j Hi) as (j' & ? & ? & _); by exists j'].
  - apply run_journey.
  - intros clock w req file journey [i Hf]%find_Some_index Ht.
    unfold JourneysCancel.POST. destruct (falsy _); [done|]. rewrite Hf.
    destruct (Journey.status journey); try done.
  - intros clock w req file journey [i Hf]%find_Some_index Hs.
    unfold JourneysDropoff.POST. destruct (falsy _); [done|]. rewrite Hf.
    by rewrite bool_decide_eq_true_2.
Qed.

(** A requested journey is assigned, dropped off and then cancelled: the
    cancel is refused, and so is a dropoff of a journey still requested. *)
Lemma journey_status_moves_forward_witness :
  (∃ j',
     FleetData.journeys
       (readData
          (run [CallAssign true
                  (Some (AssignJourneyRequest.mk "journey-1" "car1" "driver1"));
                CallDropoff Demo.clock true (Some (DropoffRequest.mk "journey-1" None));
                CallCancel Demo.clock true (Some (CancelRequest.mk "journey-1" None))]
             (Some (Demo.fleet [Demo.journey "journey-1" "u1" requested]
                      (Demo.stats 0 1 1))))) !! 0%nat = Some j' ∧
     forward requested (Journey.status j') = true ∧
     (terminal requested = true → j' = Demo.journey "journey-1" "u1" requested)) ∧
  (Response.status
     (JourneysCancel.POST Demo.clock true (Some (CancelRequest.mk "journey-1" None))
        (Some (Demo.fleet [Demo.journey "journey-1" "u1" completed]
                 (Demo.stats 0 0 1)))).1 = 400 ∧
   (JourneysCancel.POST Demo.clock true (Some (CancelRequest.mk "journey-1" None))
      (Some (Demo.fleet [Demo.journey "journey-1" "u1" completed]
               (Demo.stats 0 0 1)))).2 =
   Some (Demo.fleet [Demo.journey "journey-1" "u1" completed] (Demo.stats 0 0 1))) ∧
  (Response.status
     (JourneysDropoff.POST Demo.clock true (Some (DropoffRequest.mk "journey-1" None))
        (Some (Demo.fleet [Demo.journey "journey-1" "u1" requested]
                 (Demo.stats 0 1 1)))).1 = 400 ∧
   (JourneysDropoff.POST Demo.clock true (Some (DropoffRequest.mk "journey-1" None))
      (Some (Demo.fleet [Demo.journey "journey-1" "u1" requested]
               (Demo.stats 0 1 1)))).2 =
   Some (Demo.fleet [Demo.journey "journey-1" "u1" requested] (Demo.stats 0 1 1))).
Proof.
  split; [|split].
  - apply (proj1 journey_status_moves_forward
             [CallAssign true
                (Some (AssignJourneyRequest.mk "journey-1" "car1" "driver1"));
              CallDropoff Demo.clock true (Some (DropoffRequest.mk "journey-1" None));
              CallCancel Demo.clock true (Some (CancelRequest.mk "journey-1" None))]
             (Some (Demo.fleet [Demo.journey "journey-1" "u1" requested]
                      (Demo.stats 0 1 1)))
             0%nat (Demo.journey "journey-1" "u1" requested)).
    reflexivity.
  - apply (proj1 (proj2 journey_status_moves_forward) Demo.clock true
             (CancelRequest.mk "journey-1" None)
             (Some (Demo.fleet [Demo.journey "journey-1" "u1" completed]
                      (Demo.stats 0 0 1)))
             (Demo.journey "journey-1" "u1" completed)); reflexivity.
  - apply (proj1 (proj2 (proj2 journey_status_moves_forward)) Demo.clock true
             (DropoffRequest.mk "journey-1" None)
             (Some (Demo.fleet [Demo.journey "journey-1" "u1" requested]
                      (Demo.stats 0 1 1)))
             (Demo.journey "journey-1" "u1" requested)); [reflexivity|discriminate].
Defined.

(** ** The pending-requests counter *)

Lemma indicator_requested (j : Journey.t) :
  indicator (λ j, Journey.status j = requested) j =
  if bool_decide (Journey.status j = requested) then 1 else 0.
Proof. unfold indicator. by destruct (Journey.status j). Qed.

(** The admin assignment recounts: after a 200 the counter is right
    whatever it was before. *)
Lemma assign_recounts (w : bool) (body : option AssignJourneyRequest.t) (file : File) :
  Response.status (AdminJourneysAssign.POST w body file).1 = 200 →
  pendingConsistent (readData (AdminJourneysAssign.POST w body file).2).
Proof.
  destruct (assign_outcome w body file)
    as [[_ Hne]|(req & i & j & k & car & driver & _ & _ & _ & _ & ->)]; [done|].
  intros _. reflexivity.
Qed.

(** Every call keeps a right counter right. *)
Lemma handle_pendingConsistent (c : Call) (file : File) :
  pendingConsistent (readData file) →
  pendingConsistent (readData (handle c file).2).
Proof.
  unfold pendingConsistent. intros Hok.
  destruct c as [clock w body|w body|clock w body|clock w body|clock w body]; simpl.
  - destruct (request_outcome clock w body file)
      as [[-> _]|(req & user & start & _ & _ & _ & ->)]; [done|].
    simpl. rewrite count_snoc, Hok. by rewrite indicator_requested.
  - destruct (assign_outcome w body file)
      as [[-> _]|(req & i & j & k & car & driver & _ & _ & _ & _ & ->)]; done.
  - destruct (cancel_outcome clock w body file)
      as [[-> _]|(req & i & j & _ & Hf & Hs & _ & ->)]; [done|].
    apply list_find_Some in Hf as (Hi & _ & _). simpl.
    rewrite (count_insert _ _ _ j) by done. rewrite !indicator_requested. simpl.
    destruct (Journey.status j) eqn:Hj; try done; simpl.
    + assert (1 ≤ count (λ j, Journey.status j = requested)
                    (FleetData.journeys (readData file)))
        by (by eapply count_lookup_pos).
      lia.
    + lia.
  - destruct (dropoff_outcome clock w body file)
      as [[-> _]|(req & i & j & _ & Hf & Hs & _ & ->)]; [done|].
    apply list_find_Some in Hf as (Hi & _ & _). simpl.
    rewrite (count_insert _ _ _ j) by done. rewrite !indicator_requested. simpl.
    rewrite Hs. simpl. lia.
  - destruct (route_change_outcome clock w body file)
      as [[-> _]|(req & i & j & _ & Hf & Hs & _ & ->)]; [done|].
    apply list_find_Some in Hf as (Hi & _ & _). simpl.
    rewrite (count_insert _ _ _ j) by done. rewrite !indicator_requested. simpl.
    lia.
Qed.

(** C5, as amended.  If [systemStats.pendingRequests] equals the number of
    requested journeys before a call (request, admin assign, cancel,
    dropoff, route change), it does so after it.  Only the admin assignment
    recounts, and is right after a 200 whatever the counter was before; the
    other handlers add or subtract one, or leave the counter alone. *)
Theorem pending_requests_stay_consistent (c : Call) (file : File) :
  (pendingConsistent (readData file) →
   pendingConsistent (readData (handle c file).2)) ∧
  (∀ w body, c = CallAssign w body →
     Response.status (handle c file).1 = 200 →
     pendingConsistent (readData (handle c file).2)).
Proof.
  split.
  - apply handle_pendingConsistent.
  - intros w body ->. apply assign_recounts.
Qed.

Lemma pending_requests_stay_consistent_witness :
  let file := Some (Demo.fleet [Demo.journey "journey-1" "u1" requested] (Demo.stats 0 1 1)) in
  let call := CallCancel Demo.clock true (Some (CancelRequest.mk "journey-1" None)) in
  pendingConsistent (readData (handle call file).2).
Proof.
  apply (proj1 (pending_requests_stay_consistent
    (CallCancel Demo.clock true (Some (CancelRequest.mk "journey-1" None)))
    (Some (Demo.fleet [Demo.journey "journey-1" "u1" requested] (Demo.stats 0 1 1))))).
  reflexivity.
Defined.

(** C5 as stated says the counter is recounted after every mutation.  It is
    not: from a file whose counter says 5 while no journey is requested, a
    successful request leaves 6 against one requested journey, and a
    successful cancel of the only requested journey leaves 4 against none. *)
Lemma pending_requests_not_recounted :
  let requestCall :=
    JourneysRequest.POST Demo.clock true
      (Some (JourneyRequest.mk "u1" "Airport" (Some Demo.dhaka) None))
      (Some (Demo.fleet [] (Demo.stats 0 5 1))) in
  let cancelCall :=
    JourneysCancel.POST Demo.clock true (Some (CancelRequest.mk "journey-1" None))
      (Some (Demo.fleet [Demo.journey "journey-1" "u1" requested] (Demo.stats 0 5 1))) in
  (Response.status requestCall.1 = 200 ∧
   SystemStats.pendingRequests (FleetData.systemStats (readData requestCall.2)) = 6 ∧
   count (λ j, Journey.status j = requested) (FleetData.journeys (readData requestCall.2))
     = 1) ∧
  (Response.status cancelCall.1 = 200 ∧
   SystemStats.pendingRequests (FleetData.systemStats (readData cancelCall.2)) = 4 ∧
   count (λ j, Journey.status j = requested) (FleetData.journeys (readData cancelCall.2))
     = 0).
Proof. vm_compute. repeat split. Qed.

(** ** Dropoff *)

(** C6, as amended.  For a dropoff request with a non-empty journey id whose
    journey, found in slot [i], is in progress, a stored [activeJourneys]
    below [2 ^ 53] (where the subtraction of the code is exact), and a file
    that can be written: the call answers 200; the journey in slot [i] gets
    the status [completed] and the current time as end time, its other
    fields as before; every other journey, and all users, drivers, cars,
    locations and leave requests are unchanged, so the car of the journey
    keeps its status; of the statistics only [activeJourneys] changes,
    lowered by one but not below zero. *)
Theorem dropoff_completes_journey (clock : Clock.t) (req : DropoffRequest.t)
    (data : FleetData.t) (i : nat) (journey : Journey.t) :
  DropoffRequest.journeyId req ≠ "" →
  list_find (λ j, Journey.id j = DropoffRequest.journeyId req)
            (FleetData.journeys data) = Some (i, journey) →
  Journey.status journey = in_progress →
  SystemStats.activeJourneys (FleetData.systemStats data) < 2 ^ 53 →
  ∃ data',
    let updated := Journey.with_end completed (Some (Clock.toISOString clock)) journey in
    Response.status (JourneysDropoff.POST clock true (Some req) (Some data)).1 = 200 ∧
    Response.data (JourneysDropoff.POST clock true (Some req) (Some data)).1
      = Some updated ∧
    (JourneysDropoff.POST clock true (Some req) (Some data)).2 = Some data' ∧
    FleetData.journeys data' !! i = Some updated ∧
    (∀ k, k ≠ i → FleetData.journeys data' !! k = FleetData.journeys data !! k) ∧
    length (FleetData.journeys data') = length (FleetData.journeys data) ∧
    FleetData.cars data' = FleetData.cars data ∧
    FleetData.drivers data' = FleetData.drivers data ∧
    FleetData.users data' = FleetData.users data ∧
    FleetData.locations data' = FleetData.locations data ∧
    FleetData.leaveRequests data' = FleetData.leaveRequests data ∧
    FleetData.systemStats data' =
      SystemStats.set_activeJourneys
        (Z.max 0 (SystemStats.activeJourneys (FleetData.systemStats data) - 1))
        (FleetData.systemStats data).
Proof.
  intros Hid Hf Hs _.
  assert (Hpost : JourneysDropoff.POST clock true (Some req) (Some data) =
    (success
       (match DropoffRequest.reason req with
        | Some r => if falsy r then "Drop-off request sent to driver successfully"
                    else "Drop-off requested: " +:+ r
        | None => "Drop-off request sent to driver successfully"
        end)
       (Some (Journey.with_end completed (Some (Clock.toISOString clock)) journey)),
     Some (FleetData.set_systemStats
             (SystemStats.set_activeJourneys
                (Z.max 0 (SystemStats.activeJourneys (FleetData.systemStats data) - 1))
                (FleetData.systemStats data))
             (FleetData.set_journeys
                (<[i := Journey.with_end completed (Some (Clock.toISOString clock))
                          journey]> (FleetData.journeys data)) data)))).
  { unfold JourneysDropoff.POST. rewrite not_falsy by done. simpl. rewrite Hf.
    by rewrite bool_decide_eq_false_2 by (by intros []). }
  rewrite Hpost. eexists. simpl. split_and!; try done.
  - apply list_find_Some in Hf as (Hi & _ & _).
    apply list_lookup_insert_eq. by eapply lookup_lt_Some.
  - intros k Hk. by apply list_lookup_insert_ne.
  - apply length_insert.
Qed.

Lemma dropoff_completes_journey_witness :
  let data :=
    Demo.fleet
      [Journey.with_assignment "car1" "driver1" "Dan" "Corolla" in_progress
         (Demo.journey "journey-1" "u1" requested)]
      (Demo.stats 1 0 0) in
  let post :=
    JourneysDropoff.POST Demo.clock true (Some (DropoffRequest.mk "journey-1" None))
      (Some data) in
  ∃ data',
    let updated :=
      Journey.with_end completed (Some (Clock.toISOString Demo.clock))
        (Journey.with_assignment "car1" "driver1" "Dan" "Corolla" in_progress
           (Demo.journey "journey-1" "u1" requested)) in
    Response.status post.1 = 200 ∧
    Response.data post.1 = Some updated ∧
    post.2 = Some data' ∧
    FleetData.journeys data' !! 0%nat = Some updated ∧
    (∀ k, k ≠ 0%nat → FleetData.journeys data' !! k = FleetData.journeys data !! k) ∧
    length (FleetData.journeys data') = length (FleetData.journeys data) ∧
    FleetData.cars data' = FleetData.cars data ∧
    FleetData.drivers data' = FleetData.drivers data ∧
    FleetData.users data' = FleetData.users data ∧
    FleetData.locations data' = FleetData.locations data ∧
    FleetData.leaveRequests data' = FleetData.leaveRequests data ∧
    FleetData.systemStats data' =
      SystemStats.set_activeJourneys
        (Z.max 0 (SystemStats.activeJourneys (FleetData.systemStats data) - 1))
        (FleetData.systemStats data).
Proof.
  apply (dropoff_completes_journey Demo.clock (DropoffRequest.mk "journey-1" None)
           (Demo.fleet
              [Journey.with_assignment "car1" "driver1" "Dan" "Corolla" in_progress
                 (Demo.journey "journey-1" "u1" requested)]
              (Demo.stats 1 0 0))
           0%nat
           (Journey.with_assignment "car1" "driver1" "Dan" "Corolla" in_progress
              (Demo.journey "journey-1" "u1" requested)));
    first [discriminate | reflexivity].
Defined.

(** C6 as stated fails in three ways.  The dropoff does change something
    else, the statistics: [activeJourneys] goes from 1 to 0.  A journey
    filed under the empty id is found, in progress, and refused with 400.
    And when the file cannot be written the answer is 500 and the journey
    stays in progress. *)
Lemma dropoff_changes_stats :
  let running := Journey.with_assignment "car1" "driver1" "Dan" "Corolla" in_progress in
  let data := Demo.fleet [running (Demo.journey "journey-1" "u1" requested)]
                (Demo.stats 1 0 0) in
  let blank := Demo.fleet [running (Demo.journey "" "u1" requested)] (Demo.stats 1 0 0) in
  let req := DropoffRequest.mk "journey-1" None in
  (Response.status (JourneysDropoff.POST Demo.clock true (Some req) (Some data)).1 = 200 ∧
   FleetData.systemStats
     (readData (JourneysDropoff.POST Demo.clock true (Some req) (Some data)).2)
     = Demo.stats 0 0 0 ∧
   FleetData.systemStats data = Demo.stats 1 0 0) ∧
  (Journey.status <$> find (λ j, Journey.id j = "") (FleetData.journeys blank)
     = Some in_progress ∧
   JourneysDropoff.POST Demo.clock true (Some (DropoffRequest.mk "" None)) (Some blank)
     = (failure 400 "Journey ID is required", Some blank)) ∧
  JourneysDropoff.POST Demo.clock false (Some req) (Some data)
    = (failure 500 "Failed to request drop-off", Some data).
Proof. vm_compute. repeat split. Qed.

(** ** Route changes *)

(** C7, as amended.  For a route-change request whose journey is found in
    slot [i]: if the journey is not in progress the call answers 400 and
    leaves the file as it was, with the error of the status check when the
    journey id and the new waypoint are non-empty.  If the journey is in
    progress, both are non-empty and the file can be written, the call
    answers 200 and replaces the journey by one whose waypoints are the old
    ones followed by the new waypoint, whose route changes are the old ones
    followed by one [waypoint_added] record, and whose other fields, the
    status among them, are as before. *)
Theorem route_change_appends_waypoint (clock : Clock.t) (w : bool)
    (req : RouteChangeRequest.t) (data : FleetData.t) (i : nat)
    (journey : Journey.t) :
  list_find (λ j, Journey.id j = RouteChangeRequest.journeyId req)
            (FleetData.journeys data) = Some (i, journey) →
  let post := JourneysRouteChange.POST clock w (Some req) (Some data) in
  let place := Location.mk 0%Qc 0%Qc (RouteChangeRequest.newWaypoint req) in
  let change :=
    RouteChange.mk waypoint_added (Clock.toISOString clock) (Some place)
      (RouteChangeRequest.reason req) in
  (Journey.status journey ≠ in_progress →
   Response.status post.1 = 400 ∧ post.2 = Some data ∧
   (RouteChangeRequest.journeyId req ≠ "" →
    RouteChangeRequest.newWaypoint req ≠ "" →
    post.1 = failure 400 "Route changes can only be requested for journeys in progress")) ∧
  (Journey.status journey = in_progress →
   RouteChangeRequest.journeyId req ≠ "" →
   RouteChangeRequest.newWaypoint req ≠ "" →
   w = true →
   ∃ updated,
     post = (success "Route change request sent to driver successfully" (Some updated),
             Some (FleetData.set_journeys
                     (<[i := updated]> (FleetData.journeys data)) data)) ∧
     updated = Journey.with_route (Journey.waypoints journey ++ [place])
                 (Journey.routeChanges journey ++ [change]) journey ∧
     Journey.waypoints updated = (Journey.waypoints journey ++ [place])%list ∧
     Journey.routeChanges updated = (Journey.routeChanges journey ++ [change])%list ∧
     Journey.status updated = Journey.status journey ∧
     FleetData.journeys (readData post.2) !! i = Some updated).
Proof.
  intros Hf post place change. subst post. split.
  - intros Hs.
    assert (Hpost : JourneysRouteChange.POST clock w (Some req) (Some data) =
      if falsy (RouteChangeRequest.journeyId req)
         || falsy (RouteChangeRequest.newWaypoint req)
      then (failure 400 "Journey ID and new waypoint are required", Some data)
      else (failure 400 "Route changes can only be requested for journeys in progress",
            Some data)).
    { unfold JourneysRouteChange.POST. destruct (_ || _); [done|]. simpl.
      by rewrite Hf, bool_decide_eq_true_2. }
    rewrite Hpost. split_and!.
    + by destruct (_ || _).
    + by destruct (_ || _).
    + intros Hj Hw. by rewrite !not_falsy.
  - intros Hs Hj Hw ->. eexists. split_and!; [|reflexivity|done..|].
    + unfold JourneysRouteChange.POST. rewrite !not_falsy by done. simpl.
      rewrite Hf. by rewrite bool_decide_eq_false_2 by (by intros []).
    + unfold JourneysRouteChange.POST. rewrite !not_falsy by done. simpl.
      rewrite Hf. rewrite bool_decide_eq_false_2 by (by intros []). simpl.
      apply list_find_Some in Hf as (Hi & _ & _).
      apply list_lookup_insert_eq. by eapply lookup_lt_Some.
Qed.

Lemma route_change_appends_waypoint_witness :
  let running :=
    Journey.with_assignment "car1" "driver1" "Dan" "Corolla" in_progress
      (Demo.journey "journey-1" "u1" requested) in
  let data := Demo.fleet [running] (Demo.stats 1 0 0) in
  let req := RouteChangeRequest.mk "journey-1" "Museum" (Some "sightseeing") in
  let post := JourneysRouteChange.POST Demo.clock true (Some req) (Some data) in
  let place := Location.mk 0%Qc 0%Qc "Museum" in
  let change :=
    RouteChange.mk waypoint_added (Clock.toISOString Demo.clock) (Some place)
      (Some "sightseeing") in
  ∃ updated,
    post = (success "Route change request sent to driver successfully" (Some updated),
            Some (FleetData.set_journeys
                    (<[0%nat := updated]> (FleetData.journeys data)) data)) ∧
    updated = Journey.with_route (Journey.waypoints running ++ [place])
                (Journey.routeChanges running ++ [change]) running ∧
    Journey.waypoints updated = (Journey.waypoints running ++ [place])%list ∧
    Journey.routeChanges updated = (Journey.routeChanges running ++ [change])%list ∧
    Journey.status updated = Journey.status running ∧
    FleetData.journeys (readData post.2) !! 0%nat = Some updated.
Proof.
  refine (proj2
    (route_change_appends_waypoint Demo.clock true
       (RouteChangeRequest.mk "journey-1" "Museum" (Some "sightseeing"))
       (Demo.fleet
          [Journey.with_assignment "car1" "driver1" "Dan" "Corolla" in_progress
             (Demo.journey "journey-1" "u1" requested)]
          (Demo.stats 1 0 0))
       0%nat
       (Journey.with_assignment "car1" "driver1" "Dan" "Corolla" in_progress
          (Demo.journey "journey-1" "u1" requested)) _) _ _ _ _);
    first [discriminate | reflexivity].
Defined.

(** C7 as stated fails on the field check: for a journey in progress and an
    empty new waypoint the call answers 400 and appends nothing; and when
    the file cannot be written the answer is 500 and nothing is appended. *)
Lemma route_change_refused :
  let running :=
    Journey.with_assignment "car1" "driver1" "Dan" "Corolla" in_progress
      (Demo.journey "journey-1" "u1" requested) in
  let data := Demo.fleet [running] (Demo.stats 1 0 0) in
  Journey.status <$> find (λ j, Journey.id j = "journey-1") (FleetData.journeys data)
    = Some in_progress ∧
  JourneysRouteChange.POST Demo.clock true
    (Some (RouteChangeRequest.mk "journey-1" "" None)) (Some data)
    = (failure 400 "Journey ID and new waypoint are required", Some data) ∧
  JourneysRouteChange.POST Demo.clock false
    (Some (RouteChangeRequest.mk "journey-1" "Museum" None)) (Some data)
    = (failure 500 "Failed to request route change", Some data).
Proof. vm_compute. repeat split. Qed.

(** ** Journey ids *)

Lemma append_cancel (p a b : string) : p +:+ a = p +:+ b → a = b.
Proof. induction p as [|c p IH]; simpl; [done|]. intros [= Heq]. auto. Qed.

Lemma decimal_inj (n m : Z) : decimal n = decimal m → n = m.
Proof.
  unfold decimal. intros Heq.
  assert (Hnil : ∀ z, Z.to_int z ≠ Decimal.Pos Decimal.Nil ∧
                      Z.to_int z ≠ Decimal.Neg Decimal.Nil).
  { intros z. split; intros Hz; pose proof (f_equal Z.of_int Hz) as Hz0;
      rewrite DecimalZ.of_to in Hz0; subst z; discriminate Hz. }
  assert (Hint : Some (Z.to_int n) = Some (Z.to_int m)).
  { rewrite <- (NilZero.isi (Z.to_int n)), <- (NilZero.isi (Z.to_int m))
      by apply Hnil.
    by rewrite Heq. }
  injection Hint as Hint. apply (f_equal Z.of_int) in Hint.
  by rewrite !DecimalZ.of_to in Hint.
Qed.

(** C10.  A journey created by the request handler has the id "journey-"
    followed by the decimal form of [Date.now()], whatever the request and
    the file.  Two such ids are equal exactly when the two clock readings
    are, so ids differ between distinct milliseconds; and there are two
    requests, handled one after the other in the same millisecond, whose
    journeys both sit in the file under the same id. *)
Theorem journey_id_is_timestamp :
  (∀ (clock : Clock.t) (w : bool) (body : option JourneyRequest.t) (file : File),
     Response.status (JourneysRequest.POST clock w body file).1 = 200 →
     ∃ j, Response.data (JourneysRequest.POST clock w body file).1 = Some j ∧
          FleetData.journeys (readData (JourneysRequest.POST clock w body file).2) =
            (FleetData.journeys (readData file) ++ [j])%list ∧
          Journey.id j = "journey-" +:+ decimal (Clock.now clock)) ∧
  (∀ n m : Z, "journey-" +:+ decimal n = "journey-" +:+ decimal m ↔ n = m) ∧
  (∃ (clock : Clock.t) (first second : JourneyRequest.t) (file : File) (j1 j2 : Journey.t),
     first ≠ second ∧
     Response.data (JourneysRequest.POST clock true (Some first) file).1 = Some j1 ∧
     Response.data
       (JourneysRequest.POST clock true (Some second)
          (JourneysRequest.POST clock true (Some first) file).2).1 = Some j2 ∧
     FleetData.journeys
       (readData
          (JourneysRequest.POST clock true (Some second)
             (JourneysRequest.POST clock true (Some first) file).2).2) = [j1; j2] ∧
     j1 ≠ j2 ∧
     Journey.id j1 = Journey.id j2).
Proof.
  split_and!.
  - intros clock w body file Hok.
    destruct (request_outcome clock w body file)
      as [[_ Hne]|(req & user & start & _ & _ & _ & Hpost)]; [done|].
    rewrite Hpost. eexists. split_and!; reflexivity.
  - intros n m. split; [|by intros ->].
    intros Heq. by eapply decimal_inj, append_cancel.
  - exists Demo.clock,
      (JourneyRequest.mk "u1" "Airport" (Some Demo.dhaka) None),
      (JourneyRequest.mk "u2" "Harbour" (Some Demo.dhaka) None),
      (Some (Demo.fleet [] (Demo.stats 0 0 1))).
    eexists _, _. split_and!; try reflexivity.
    + intros Heq. discriminate Heq.
    + intros Heq. vm_compute in Heq. discriminate Heq.
Qed.

Lemma journey_id_is_timestamp_witness :
  ∃ j,
    Response.data
      (JourneysRequest.POST Demo.clock true
         (Some (JourneyRequest.mk "u1" "Airport" (Some Demo.dhaka) None))
         (Some (Demo.fleet [] (Demo.stats 0 0 1)))).1 = Some j ∧
    FleetData.journeys
      (readData
         (JourneysRequest.POST Demo.clock true
            (Some (JourneyRequest.mk "u1" "Airport" (Some Demo.dhaka) None))
            (Some (Demo.fleet [] (Demo.stats 0 0 1)))).2) =
      (FleetData.journeys (readData (Some (Demo.fleet [] (Demo.stats 0 0 1)))) ++ [j])%list ∧
    Journey.id j = "journey-" +:+ decimal (Clock.now Demo.clock).
Proof.
  apply (proj1 journey_id_is_timestamp Demo.clock true
           (Some (JourneyRequest.mk "u1" "Airport" (Some Demo.dhaka) None))
           (Some (Demo.fleet [] (Demo.stats 0 0 1)))).
  reflexivity.
Defined.

Example journey_id_of_demo_clock :
  Journey.id (JourneysRequest.newJourney Demo.clock
                (JourneyRequest.mk "u1" "Airport" (Some Demo.dhaka) None)
                (Demo.user "u1" "Ada") Demo.dhaka) = "journey-1700000000000".
Proof. reflexivity. Qed.

(** ** The data snapshot *)

Lemma find_cons {A} (P : A → Prop) `{!∀ x, Decision (P x)} (x : A) (l : list A) :
  find P (x :: l) = if decide (P x) then Some x else find P l.
Proof.
  unfold find. simpl. destruct (decide (P x)); [done|].
  by destruct (list_find P l) as [[i y]|].
Qed.

Lemma get_omit_password (o : DataRoute.Obj) :
  DataRoute.get "password" (DataRoute.omit_password o) = None.
Proof.
  unfold DataRoute.get, DataRoute.omit_password.
  induction o as [|[k v] o IH]; [done|].
  rewrite list.filter_cons. simpl. destruct (decide (k ≠ "password")) as [Hk|Hk]; [|done].
  rewrite find_cons. simpl. by rewrite decide_False.
Qed.

Lemma get_omit_other (k : string) (o : DataRoute.Obj) :
  k ≠ "password" →
  DataRoute.get k (DataRoute.omit_password o) = DataRoute.get k o.
Proof.
  intros Hk. unfold DataRoute.get, DataRoute.omit_password.
  induction o as [|[k' v] o IH]; [done|].
  rewrite list.filter_cons, (find_cons _ (k', v) o). simpl.
  destruct (decide (k' ≠ "password")) as [Hk'|Hk'].
  - rewrite find_cons. simpl. by destruct (decide (k' = k)).
  - rewrite decide_False by (intros ->; by apply Hk'). done.
Qed.

(** C8.  For every stored data set, [GET /api/data] answers 200 with a
    snapshot whose cars, locations, journeys, leave requests and statistics
    are the stored ones, and whose users and drivers are the stored ones in
    the same order, each with every property it had except [password],
    which none of them has. *)
Theorem data_snapshot_strips_passwords (data : DataRoute.FleetData) :
  ∃ snapshot,
    DataRoute.GET (Some data) = DataRoute.mkResponse 200 None (Some snapshot) ∧
    DataRoute.cars snapshot = DataRoute.cars data ∧
    DataRoute.locations snapshot = DataRoute.locations data ∧
    DataRoute.journeys snapshot = DataRoute.journeys data ∧
    DataRoute.leaveRequests snapshot = DataRoute.leaveRequests data ∧
    DataRoute.systemStats snapshot = DataRoute.systemStats data ∧
    length (DataRoute.users snapshot) = length (DataRoute.users data) ∧
    length (DataRoute.drivers snapshot) = length (DataRoute.drivers data) ∧
    (∀ i u, DataRoute.users data !! i = Some u →
       ∃ u', DataRoute.users snapshot !! i = Some u' ∧
             DataRoute.get "password" u' = None ∧
             ∀ k, k ≠ "password" → DataRoute.get k u' = DataRoute.get k u) ∧
    (∀ i d, DataRoute.drivers data !! i = Some d →
       ∃ d', DataRoute.drivers snapshot !! i = Some d' ∧
             DataRoute.get "password" d' = None ∧
             ∀ k, k ≠ "password" → DataRoute.get k d' = DataRoute.get k d).
Proof.
  eexists. split; [reflexivity|]. simpl.
  split_and!; try done; try apply length_fmap.
  - intros i u Hi. exists (DataRoute.omit_password u).
    rewrite list_lookup_fmap, Hi.
    split_and!; [done|apply get_omit_password|]. intros k Hk. by apply get_omit_other.
  - intros i d Hi. exists (DataRoute.omit_password d).
    rewrite list_lookup_fmap, Hi.
    split_and!; [done|apply get_omit_password|]. intros k Hk. by apply get_omit_other.
Qed.

Lemma data_snapshot_strips_passwords_witness :
  ∃ snapshot,
    DataRoute.GET
      (Some (DataRoute.mkFleetData
               [[("id", DataRoute.JString "u1"); ("password", DataRoute.JString "secret")]]
               [] [] [] [] [] [])) =
      DataRoute.mkResponse 200 None (Some snapshot) ∧
    DataRoute.users snapshot = [[("id", DataRoute.JString "u1")]].
Proof.
  destruct (data_snapshot_strips_passwords
    (DataRoute.mkFleetData
       [[("id", DataRoute.JString "u1"); ("password", DataRoute.JString "secret")]]
       [] [] [] [] [] [])) as (snapshot & Hget & _).
  exists snapshot. split; [exact Hget|].
  vm_compute in Hget. by injection Hget as <-.
Defined.

Example data_snapshot_of_one_user :
  let ada := [("id", DataRoute.JString "u1"); ("password", DataRoute.JString "secret");
              ("name", DataRoute.JString "Ada")] in
  let dan := [("id", DataRoute.JString "driver1"); ("onLeave", DataRoute.JBool false);
              ("password", DataRoute.JString "secret")] in
  let stats := [("pendingRequests", DataRoute.JNumber 0%Qc)] in
  DataRoute.GET (Some (DataRoute.mkFleetData [ada] [dan] [] [] [] [] stats)) =
  DataRoute.mkResponse 200 None
    (Some (DataRoute.mkFleetData
             [[("id", DataRoute.JString "u1"); ("name", DataRoute.JString "Ada")]]
             [[("id", DataRoute.JString "driver1"); ("onLeave", DataRoute.JBool false)]]
             [] [] [] [] stats)).
Proof. reflexivity. Qed.

(** * The other routes *)

(** ** Arrays again: updating a slot in place *)

Section alter.
Context {A : Type} (P : A → Prop) `{!∀ x, Decision (P x)} (f : A → A).
Hypothesis f_keeps : ∀ x, P (f x) ↔ P x.

(** An update that does not change what [P] sees leaves [find] at the same
    slot, with the updated element when that slot was the one updated. *)
Lemma list_find_alter_keeps (i : nat) (l : list A) :
  list_find P (alter f i l) =
  (λ jx, (jx.1, if decide (jx.1 = i) then f jx.2 else jx.2)) <$> list_find P l.
Proof.
  revert i. induction l as [|x l IH]; intros i; [done|].
  destruct i as [|i]; simpl.
  - destruct (decide (P (f x))) as [Hf|Hf], (decide (P x)) as [Hx|Hx]; simpl;
      [done|by destruct Hx; apply f_keeps|by destruct Hf; apply f_keeps|].
    by destruct (list_find P l) as [[j y]|].
  - destruct (decide (P x)); [done|].
    change (list_alter f i l) with (alter f i l). rewrite IH.
    destruct (list_find P l) as [[j y]|]; simpl; [|done].
    by destruct (decide (j = i)), (decide (S j = S i)); try lia.
Qed.

Lemma findIndex_alter_keeps (i : nat) (l : list A) :
  findIndex P (alter f i l) = findIndex P l.
Proof.
  unfold findIndex. rewrite list_find_alter_keeps.
  by destruct (list_find P l) as [[j y]|].
Qed.

Lemma count_alter_keeps (i : nat) (l : list A) :
  count P (alter f i l) = count P l.
Proof.
  revert i. induction l as [|x l IH]; intros i; [done|].
  destruct i as [|i]; simpl; rewrite !count_cons.
  - unfold indicator. destruct (decide (P (f x))) as [Hf|Hf], (decide (P x)) as [Hx|Hx];
      try done; [by destruct Hx; apply f_keeps|by destruct Hf; apply f_keeps].
  - change (list_alter f i l) with (alter f i l). by rewrite IH.
Qed.
End alter.

Lemma alter_alter_idemp {A} (f : A → A) (i : nat) (l : list A) :
  (∀ x, f (f x) = f x) → alter f i (alter f i l) = alter f i l.
Proof.
  intros Hf. revert i. induction l as [|x l IH]; intros [|i]; simpl; try done.
  - by rewrite Hf.
  - change (list_alter f i (list_alter f i l)) with (alter f i (alter f i l)).
    by rewrite IH.
Qed.

Lemma lookup_alter_Some {A} (f : A → A) (i k : nat) (l : list A) (x : A) :
  l !! k = Some x →
  alter f i l !! k = Some (if decide (k = i) then f x else x).
Proof.
  intros Hk. destruct (decide (k = i)) as [->|Hne].
  - by rewrite list_lookup_alter_eq, Hk.
  - by rewrite list_lookup_alter_ne.
Qed.

(** ** The administration routes *)

Lemma findIndex_Some_list_find {A} (P : A → Prop) `{!∀ x, Decision (P x)}
    (l : list A) (i : nat) :
  findIndex P l = Some i ↔ ∃ x, list_find P l = Some (i, x).
Proof.
  unfold findIndex. rewrite fmap_Some. split.
  - intros [[j x] [Hf ->]]. by exists x.
  - intros [x Hf]. by exists (i, x).
Qed.

Lemma car_status_outcome (w : bool) (body : option UpdateCarStatusRequest.t)
    (file : File) :
  (AdminCarsStatus.PUT w body file).2 = file ∧
    Response.status (AdminCarsStatus.PUT w body file).1 ≠ 200 ∨
  ∃ req s k car,
    body = Some req ∧ UpdateCarStatusRequest.status req = Some s ∧
    list_find (λ c, Car.id c = UpdateCarStatusRequest.carId req)
              (FleetData.cars (readData file)) = Some (k, car) ∧
    AdminCarsStatus.PUT w body file =
      (success ("Car status updated to " +:+ carStatusName s) None,
       Some (FleetData.set_systemStats
               (SystemStats.set_availableCars
                  (count (λ c, Car.status c = available)
                     (alter (Car.with_status s) k (FleetData.cars (readData file))))
                  (FleetData.systemStats (readData file)))
               (FleetData.set_cars
                  (alter (Car.with_status s) k (FleetData.cars (readData file)))
                  (readData file)))).
Proof.
  unfold AdminCarsStatus.PUT.
  destruct body as [req|]; [|by left].
  destruct (UpdateCarStatusRequest.status req) as [s|] eqn:Hs; [|by left].
  destruct (falsy _); [by left|].
  destruct (findIndex _ _) as [k|] eqn:Hk; [|by left].
  apply findIndex_Some_list_find in Hk as [car Hk].
  destruct w; [right|by left].
  by exists req, s, k, car.
Qed.

Lemma driver_status_outcome (w : bool) (body : option UpdateDriverStatusRequest.t)
    (file : File) :
  (AdminDriversStatus.PUT w body file).2 = file ∧
    Response.status (AdminDriversStatus.PUT w body file).1 ≠ 200 ∨
  ∃ req k driver,
    body = Some req ∧
    list_find (λ d, Driver.id d = UpdateDriverStatusRequest.driverId req)
              (FleetData.drivers (readData file)) = Some (k, driver) ∧
    Response.status (AdminDriversStatus.PUT w body file).1 = 200 ∧
    (AdminDriversStatus.PUT w body file).2 =
      Some (FleetData.set_systemStats
              (Patch.stats_driversOnLeave
                 (count (λ d, Driver.onLeave d = true)
                    (alter (Patch.driver_onLeave (UpdateDriverStatusRequest.onLeave req))
                           k (FleetData.drivers (readData file))))
                 (FleetData.systemStats (readData file)))
              (Patch.fleet_drivers
                 (alter (Patch.driver_onLeave (UpdateDriverStatusRequest.onLeave req))
                        k (FleetData.drivers (readData file)))
                 (readData file))).
Proof.
  unfold AdminDriversStatus.PUT.
  destruct body as [req|]; [|by left].
  destruct (falsy _); [by left|].
  destruct (findIndex _ _) as [k|] eqn:Hk; [|by left].
  apply findIndex_Some_list_find in Hk as [driver Hk].
  destruct w; [right|by left].
  by exists req, k, driver.
Qed.

Lemma user_status_outcome (w : bool) (body : option UpdateUserStatusRequest.t)
    (file : File) :
  (AdminUsersStatus.PUT w body file).2 = file ∧
    Response.status (AdminUsersStatus.PUT w body file).1 ≠ 200 ∨
  ∃ req k user,
    body = Some req ∧
    list_find (λ u, User.id u = UpdateUserStatusRequest.userId req)
              (FleetData.users (readData file)) = Some (k, user) ∧
    Response.status (AdminUsersStatus.PUT w body file).1 = 200 ∧
    (AdminUsersStatus.PUT w body file).2 =
      Some (Patch.fleet_users
              (alter (Patch.user_isActive (UpdateUserStatusRequest.isActive req))
                     k (FleetData.users (readData file)))
              (readData file)).
Proof.
  unfold AdminUsersStatus.PUT.
  destruct body as [req|]; [|by left].
  destruct (falsy _); [by left|].
  destruct (findIndex _ _) as [k|] eqn:Hk; [|by left].
  apply findIndex_Some_list_find in Hk as [user Hk].
  destruct w; [right|by left].
  by exists req, k, user.
Qed.

(** X1.  A car-status update for a non-empty car id and a status, on a file
    that can be written, answers 200 when the car exists: the first car
    with that id gets the status and keeps its other fields, every other
    car, every journey, driver and user is as before, and
    [systemStats.availableCars] is recounted, so it is right afterwards
    whatever it was before.  No check is made on the old status or on the
    journeys that use the car. *)
Theorem car_status_update (data : FleetData.t) (req : UpdateCarStatusRequest.t)
    (s : CarStatus) (k : nat) (car : Car.t) :
  UpdateCarStatusRequest.carId req ≠ "" →
  UpdateCarStatusRequest.status req = Some s →
  list_find (λ c, Car.id c = UpdateCarStatusRequest.carId req)
            (FleetData.cars data) = Some (k, car) →
  ∃ data',
    AdminCarsStatus.PUT true (Some req) (Some data) =
      (success ("Car status updated to " +:+ carStatusName s) None, Some data') ∧
    find (λ c, Car.id c = UpdateCarStatusRequest.carId req) (FleetData.cars data')
      = Some (Car.with_status s car) ∧
    (∀ i, i ≠ k → FleetData.cars data' !! i = FleetData.cars data !! i) ∧
    FleetData.journeys data' = FleetData.journeys data ∧
    FleetData.drivers data' = FleetData.drivers data ∧
    FleetData.users data' = FleetData.users data ∧
    availableConsistent data' ∧
    SystemStats.pendingRequests (FleetData.systemStats data') =
      SystemStats.pendingRequests (FleetData.systemStats data) ∧
    SystemStats.activeJourneys (FleetData.systemStats data') =
      SystemStats.activeJourneys (FleetData.systemStats data).
Proof.
  intros Hid Hs Hf. eexists. split.
  - unfold AdminCarsStatus.PUT, readData. rewrite Hs, not_falsy by done.
    rewrite (findIndex_of_list_find _ _ _ _ Hf). reflexivity.
  - simpl. split_and!; try done.
    + eapply find_of_list_find, list_find_alter_same; [done|].
      by apply list_find_Some in Hf as (_ & ? & _).
    + intros i Hi. by apply list_lookup_alter_ne.
Qed.

Lemma car_status_update_witness :
  ∃ data',
    AdminCarsStatus.PUT true (Some (UpdateCarStatusRequest.mk "car2" (Some available)))
      (Some (Demo.fleet [] (Demo.stats 0 0 7))) =
      (success ("Car status updated to " +:+ carStatusName available) None, Some data') ∧
    find (λ c, Car.id c = "car2") (FleetData.cars data')
      = Some (Car.with_status available (Demo.car "car2" "Hiace" servicing)) ∧
    (∀ i, i ≠ 1%nat →
       FleetData.cars data' !! i = FleetData.cars (Demo.fleet [] (Demo.stats 0 0 7)) !! i) ∧
    FleetData.journeys data' = [] ∧
    FleetData.drivers data' = FleetData.drivers (Demo.fleet [] (Demo.stats 0 0 7)) ∧
    FleetData.users data' = FleetData.users (Demo.fleet [] (Demo.stats 0 0 7)) ∧
    availableConsistent data' ∧
    SystemStats.pendingRequests (FleetData.systemStats data') = 0 ∧
    SystemStats.activeJourneys (FleetData.systemStats data') = 0.
Proof.
  apply (car_status_update (Demo.fleet [] (Demo.stats 0 0 7))
           (UpdateCarStatusRequest.mk "car2" (Some available)) available 1%nat
           (Demo.car "car2" "Hiace" servicing));
    first [discriminate | reflexivity].
Defined.

(** X2.  The three status updates are idempotent: repeating a call on the
    file it left gives the same answer and the same file. *)
Theorem admin_status_idempotent (w : bool) (file : File) :
  (∀ body, AdminCarsStatus.PUT w body (AdminCarsStatus.PUT w body file).2 =
           AdminCarsStatus.PUT w body file) ∧
  (∀ body, AdminDriversStatus.PUT w body (AdminDriversStatus.PUT w body file).2 =
           AdminDriversStatus.PUT w body file) ∧
  (∀ body, AdminUsersStatus.PUT w body (AdminUsersStatus.PUT w body file).2 =
           AdminUsersStatus.PUT w body file).
Proof.
  split_and!; intros body.
  - unfold AdminCarsStatus.PUT.
    destruct body as [req|]; [|done].
    destruct (UpdateCarStatusRequest.status req) as [s|] eqn:Hs; [|done].
    destruct (falsy _) eqn:Hid; [done|].
    destruct (findIndex _ (FleetData.cars (readData file))) as [k|] eqn:Hk;
      simpl; [|by rewrite Hk].
    destruct w; simpl; [|by rewrite Hk].
    rewrite findIndex_alter_keeps, Hk by done.
    by rewrite alter_alter_idemp.
  - unfold AdminDriversStatus.PUT.
    destruct body as [req|]; [|done].
    destruct (falsy _) eqn:Hid; [done|].
    destruct (findIndex _ (FleetData.drivers (readData file))) as [k|] eqn:Hk;
      simpl; [|by rewrite Hk].
    destruct w; simpl; [|by rewrite Hk].
    rewrite findIndex_alter_keeps, Hk by done.
    by rewrite alter_alter_idemp.
  - unfold AdminUsersStatus.PUT.
    destruct body as [req|]; [|done].
    destruct (falsy _) eqn:Hid; [done|].
    destruct (findIndex _ (FleetData.users (readData file))) as [k|] eqn:Hk;
      simpl; [|by rewrite Hk].
    destruct w; simpl; [|by rewrite Hk].
    rewrite findIndex_alter_keeps, Hk by done.
    by rewrite alter_alter_idemp.
Qed.

(** X3.  Setting a car to [available] is what lets it be assigned: whatever
    the status of the car was (for one, [in_use], left by a journey that is
    over), after the status update the assignment of a requested journey to
    that car and a driver not on leave answers 200 and the car is
    [in_use]. *)
Theorem car_release_then_assign (data : FleetData.t) (req : AssignJourneyRequest.t)
    (journey : Journey.t) (car : Car.t) (driver : Driver.t) :
  AssignJourneyRequest.journeyId req ≠ "" →
  AssignJourneyRequest.carId req ≠ "" →
  AssignJourneyRequest.driverId req ≠ "" →
  find (λ j, Journey.id j = AssignJourneyRequest.journeyId req)
       (FleetData.journeys data) = Some journey →
  Journey.status journey = requested →
  find (λ c, Car.id c = AssignJourneyRequest.carId req) (FleetData.cars data)
    = Some car →
  find (λ d, Driver.id d = AssignJourneyRequest.driverId req) (FleetData.drivers data)
    = Some driver →
  Driver.onLeave driver = false →
  let released :=
    (AdminCarsStatus.PUT true
       (Some (UpdateCarStatusRequest.mk (AssignJourneyRequest.carId req)
                (Some available))) (Some data)).2 in
  Response.status (AdminJourneysAssign.POST true (Some req) released).1 = 200 ∧
  Car.status <$> find (λ c, Car.id c = AssignJourneyRequest.carId req)
      (FleetData.cars (readData (AdminJourneysAssign.POST true (Some req) released).2))
    = Some in_use ∧
  Journey.status <$> find (λ j, Journey.id j = AssignJourneyRequest.journeyId req)
      (FleetData.journeys
         (readData (AdminJourneysAssign.POST true (Some req) released).2))
    = Some in_progress.
Proof.
  intros Hj Hc Hd [i Hfj]%find_Some_index Hsj [k Hfc]%find_Some_index Hfd Hsd released.
  assert (Hrel : released =
    Some (FleetData.set_systemStats
            (SystemStats.set_availableCars
               (count (λ c, Car.status c = available)
                  (alter (Car.with_status available) k (FleetData.cars data)))
               (FleetData.systemStats data))
            (FleetData.set_cars
               (alter (Car.with_status available) k (FleetData.cars data)) data))).
  { subst released. unfold AdminCarsStatus.PUT, readData. simpl.
    rewrite not_falsy by done. by rewrite (findIndex_of_list_find _ _ _ _ Hfc). }
  rewrite Hrel.
  rewrite (assign_accepts true _ req i k journey (Car.with_status available car) driver);
    try done.
  - simpl. split_and!; [done| |].
    + erewrite find_of_list_find.
      2:{ pose proof Hfc as (_ & Hcid & _)%list_find_Some.
          apply (list_find_alter_same _ _ _ _ (Car.with_status available car)); [|done].
          by apply list_find_alter_same. }
      done.
    + erewrite find_of_list_find.
      2:{ apply (list_find_insert_same _ _ _ journey); [done|].
          by apply list_find_Some in Hfj as (_ & ? & _). }
      done.
  - simpl. apply list_find_alter_same; [done|].
    by apply list_find_Some in Hfc as (_ & ? & _).
Qed.

Lemma car_release_then_assign_witness :
  let data :=
    FleetData.set_cars [Demo.car "car1" "Corolla" in_use]
      (Demo.fleet [Demo.journey "journey-2" "u2" requested] (Demo.stats 0 1 0)) in
  let req := AssignJourneyRequest.mk "journey-2" "car1" "driver1" in
  let released :=
    (AdminCarsStatus.PUT true (Some (UpdateCarStatusRequest.mk "car1" (Some available)))
       (Some data)).2 in
  Response.status (AdminJourneysAssign.POST true (Some req) released).1 = 200 ∧
  Car.status <$> find (λ c, Car.id c = "car1")
      (FleetData.cars (readData (AdminJourneysAssign.POST true (Some req) released).2))
    = Some in_use ∧
  Journey.status <$> find (λ j, Journey.id j = "journey-2")
      (FleetData.journeys
         (readData (AdminJourneysAssign.POST true (Some req) released).2))
    = Some in_progress.
Proof.
  apply (car_release_then_assign
           (FleetData.set_cars [Demo.car "car1" "Corolla" in_use]
              (Demo.fleet [Demo.journey "journey-2" "u2" requested] (Demo.stats 0 1 0)))
           (AssignJourneyRequest.mk "journey-2" "car1" "driver1")
           (Demo.journey "journey-2" "u2" requested)
           (Demo.car "car1" "Corolla" in_use)
           (Demo.driver "driver1" "Dan" false));
    first [discriminate | reflexivity].
Defined.

(** X4.  Putting a driver on leave blocks every assignment that names the
    driver: once the status update has gone through, no assignment with
    that driver id answers 200 or changes the file, whatever journey and car
    it names.  Taking the driver off leave lifts the block: an assignment of
    a requested journey to an available car then answers 200. *)
Theorem driver_leave_blocks_assign (data : FleetData.t) (driverId : string)
    (k : nat) (driver : Driver.t) :
  driverId ≠ "" →
  list_find (λ d, Driver.id d = driverId) (FleetData.drivers data) = Some (k, driver) →
  let leave b :=
    (AdminDriversStatus.PUT true (Some (UpdateDriverStatusRequest.mk driverId b))
       (Some data)).2 in
  (∀ w req, AssignJourneyRequest.driverId req = driverId →
     Response.status (AdminJourneysAssign.POST w (Some req) (leave true)).1 ≠ 200 ∧
     (AdminJourneysAssign.POST w (Some req) (leave true)).2 = leave true) ∧
  (∀ req journey car,
     AssignJourneyRequest.driverId req = driverId →
     AssignJourneyRequest.journeyId req ≠ "" →
     AssignJourneyRequest.carId req ≠ "" →
     find (λ j, Journey.id j = AssignJourneyRequest.journeyId req)
          (FleetData.journeys data) = Some journey →
     Journey.status journey = requested →
     find (λ c, Car.id c = AssignJourneyRequest.carId req) (FleetData.cars data)
       = Some car →
     Car.status car = available →
     Response.status (AdminJourneysAssign.POST true (Some req) (leave false)).1 = 200).
Proof.
  intros Hid Hf leave.
  pose proof Hf as (_ & Hdid & _)%list_find_Some.
  assert (Hleave : ∀ b, leave b =
    Some (FleetData.set_systemStats
            (Patch.stats_driversOnLeave
               (count (λ d, Driver.onLeave d = true)
                  (alter (Patch.driver_onLeave b) k (FleetData.drivers data)))
               (FleetData.systemStats data))
            (Patch.fleet_drivers
               (alter (Patch.driver_onLeave b) k (FleetData.drivers data)) data))).
  { intros b. subst leave. unfold AdminDriversStatus.PUT, readData. simpl.
    rewrite not_falsy by done. by rewrite (findIndex_of_list_find _ _ _ _ Hf). }
  assert (Hfind : ∀ b,
    find (λ d, Driver.id d = driverId)
         (alter (Patch.driver_onLeave b) k (FleetData.drivers data)) =
    Some (Patch.driver_onLeave b driver)).
  { intros b. eapply find_of_list_find. by apply list_find_alter_same. }
  split.
  - intros w req Hreq. rewrite Hleave. unfold AdminJourneysAssign.POST.
    destruct (falsy _ || falsy _ || falsy _); [done|].
    destruct (list_find _ (FleetData.journeys _)) as [[i j]|]; [|done].
    case_bool_decide; [done|].
    destruct (find _ (FleetData.cars _)) as [c|]; [|done].
    case_bool_decide; [done|].
    simpl. by rewrite Hreq, Hfind.
  - intros req journey car Hreq Hj Hc [i Hfj]%find_Some_index Hsj
      [kc Hfc]%find_Some_index Hsc.
    rewrite Hleave.
    by rewrite (assign_accepts true _ req i kc journey car
                  (Patch.driver_onLeave false driver));
      try done; simpl; rewrite ?Hreq.
Qed.

Lemma driver_leave_blocks_assign_witness :
  let data := Demo.fleet [Demo.journey "journey-1" "u1" requested] (Demo.stats 0 1 1) in
  let leave b :=
    (AdminDriversStatus.PUT true (Some (UpdateDriverStatusRequest.mk "driver1" b))
       (Some data)).2 in
  (∀ w req, AssignJourneyRequest.driverId req = "driver1" →
     Response.status (AdminJourneysAssign.POST w (Some req) (leave true)).1 ≠ 200 ∧
     (AdminJourneysAssign.POST w (Some req) (leave true)).2 = leave true) ∧
  (∀ req journey car,
     AssignJourneyRequest.driverId req = "driver1" →
     AssignJourneyRequest.journeyId req ≠ "" →
     AssignJourneyRequest.carId req ≠ "" →
     find (λ j, Journey.id j = AssignJourneyRequest.journeyId req)
          (FleetData.journeys data) = Some journey →
     Journey.status journey = requested →
     find (λ c, Car.id c = AssignJourneyRequest.carId req) (FleetData.cars data)
       = Some car →
     Car.status car = available →
     Response.status (AdminJourneysAssign.POST true (Some req) (leave false)).1 = 200).
Proof.
  apply (driver_leave_blocks_assign
           (Demo.fleet [Demo.journey "journey-1" "u1" requested] (Demo.stats 0 1 1))
           "driver1" 0%nat (Demo.driver "driver1" "Dan" false));
    first [discriminate | reflexivity].
Defined.

(** X5.  The request handler does not look at [isActive]: whatever a
    user-status update did to the file, a journey request gets the answer
    it would have got before the update.  A deactivated user can still
    request a journey. *)
Theorem user_status_irrelevant_to_request (clock : Clock.t) (w w' : bool)
    (body : option JourneyRequest.t) (update : option UpdateUserStatusRequest.t)
    (file : File) :
  (JourneysRequest.POST clock w body (AdminUsersStatus.PUT w' update file).2).1 =
  (JourneysRequest.POST clock w body file).1.
Proof.
  destruct (user_status_outcome w' update file)
    as [[-> _]|(up & k & user & _ & Hf & _ & ->)]; [done|].
  unfold JourneysRequest.POST.
  destruct body as [req|]; [|done].
  destruct (JourneyRequest.startLocation req) as [start|]; [|done].
  destruct (falsy _ || falsy _); [done|].
  change (readData (Some ?d)) with d. simpl.
  clear Hf. unfold find at 1 3. rewrite list_find_alter_keeps by done.
  destruct (list_find _ (FleetData.users (readData file))) as [[i u]|]; simpl; [|done].
  destruct (find _ (FleetData.journeys (readData file))); [done|].
  destruct (decide (i = k)); destruct w; simpl; done.
Qed.

Example deactivated_user_can_request :
  let data := Demo.fleet [] (Demo.stats 0 0 1) in
  let off :=
    AdminUsersStatus.PUT true (Some (UpdateUserStatusRequest.mk "u1" false)) (Some data) in
  Response.status off.1 = 200 ∧
  User.isActive <$> find (λ u, User.id u = "u1") (FleetData.users (readData off.2))
    = Some false ∧
  Response.status
    (JourneysRequest.POST Demo.clock true
       (Some (JourneyRequest.mk "u1" "Airport" (Some Demo.dhaka) None)) off.2).1 = 200.
Proof. vm_compute. repeat split. Qed.

(** ** Cancelling *)

(** X6.  A cancel request with a non-empty journey id whose journey, found
    in slot [i], is neither completed nor cancelled, on a file that can be
    written and whose two journey counters are below [2 ^ 53] (where the
    subtraction of the code is exact), answers 200 with the updated
    journey: the journey gets the
    status [cancelled] and the current time as end time; every other
    journey and all cars, drivers and users are as before, so a car that was
    in use for the journey stays in use; the pending counter is lowered by
    one (not below zero) when the journey was requested, the active counter
    when it was in progress. *)
Theorem cancel_marks_cancelled (clock : Clock.t) (req : CancelRequest.t)
    (data : FleetData.t) (i : nat) (journey : Journey.t) :
  CancelRequest.journeyId req ≠ "" →
  list_find (λ j, Journey.id j = CancelRequest.journeyId req)
            (FleetData.journeys data) = Some (i, journey) →
  terminal (Journey.status journey) = false →
  SystemStats.pendingRequests (FleetData.systemStats data) < 2 ^ 53 →
  SystemStats.activeJourneys (FleetData.systemStats data) < 2 ^ 53 →
  ∃ data',
    let updated := Journey.with_end cancelled (Some (Clock.toISOString clock)) journey in
    let stats := FleetData.systemStats data in
    JourneysCancel.POST clock true (Some req) (Some data) =
      (success
         (match CancelRequest.reason req with
          | Some r => if falsy r then "Journey cancelled successfully"
                      else "Journey cancelled: " +:+ r
          | None => "Journey cancelled successfully"
          end) (Some updated), Some data') ∧
    FleetData.journeys data' !! i = Some updated ∧
    (∀ k, k ≠ i → FleetData.journeys data' !! k = FleetData.journeys data !! k) ∧
    FleetData.cars data' = FleetData.cars data ∧
    FleetData.drivers data' = FleetData.drivers data ∧
    FleetData.users data' = FleetData.users data ∧
    SystemStats.pendingRequests (FleetData.systemStats data') =
      (if bool_decide (Journey.status journey = requested)
       then Z.max 0 (SystemStats.pendingRequests stats - 1)
       else SystemStats.pendingRequests stats) ∧
    SystemStats.activeJourneys (FleetData.systemStats data') =
      (if bool_decide (Journey.status journey = in_progress)
       then Z.max 0 (SystemStats.activeJourneys stats - 1)
       else SystemStats.activeJourneys stats) ∧
    SystemStats.availableCars (FleetData.systemStats data') =
      SystemStats.availableCars stats.
Proof.
  intros Hid Hf Ht _ _.
  pose proof Hf as (Hi & _ & _)%list_find_Some.
  assert (Hlt : (i < length (FleetData.journeys data))%nat)
    by (by eapply lookup_lt_Some).
  assert (Hs : Journey.status journey = requested ∨ Journey.status journey = in_progress)
    by (destruct (Journey.status journey); auto; done).
  clear Ht.
  exists (FleetData.set_systemStats
            (let stats := FleetData.systemStats data in
             let stats :=
               if bool_decide (Journey.status journey = requested) then
                 SystemStats.set_pendingRequests
                   (Z.max 0 (SystemStats.pendingRequests stats - 1)) stats
               else stats in
             if bool_decide (Journey.status journey = in_progress) then
               SystemStats.set_activeJourneys
                 (Z.max 0 (SystemStats.activeJourneys stats - 1)) stats
             else stats)
            (FleetData.set_journeys
               (<[i := Journey.with_end cancelled (Some (Clock.toISOString clock))
                         journey]> (FleetData.journeys data)) data)).
  simpl. split.
  - unfold JourneysCancel.POST, readData. rewrite not_falsy by done. rewrite Hf.
    destruct Hs as [Hs|Hs]; rewrite Hs; simpl;
      rewrite list_lookup_insert_eq by done; reflexivity.
  - simpl. split_and!; try done.
    + by apply list_lookup_insert_eq.
    + intros k Hk. by apply list_lookup_insert_ne.
    + by destruct (Journey.status journey).
    + by destruct (Journey.status journey).
    + by destruct (Journey.status journey).
Qed.

Lemma cancel_marks_cancelled_witness :
  let running :=
    Journey.with_assignment "car1" "driver1" "Dan" "Corolla" in_progress
      (Demo.journey "journey-1" "u1" requested) in
  let data :=
    FleetData.set_cars [Demo.car "car1" "Corolla" in_use]
      (Demo.fleet [running] (Demo.stats 1 0 0)) in
  let req := CancelRequest.mk "journey-1" (Some "Cancelled by user") in
  ∃ data',
    let updated :=
      Journey.with_end cancelled (Some (Clock.toISOString Demo.clock)) running in
    let stats := FleetData.systemStats data in
    JourneysCancel.POST Demo.clock true (Some req) (Some data) =
      (success
         (match CancelRequest.reason req with
          | Some r => if falsy r then "Journey cancelled successfully"
                      else "Journey cancelled: " +:+ r
          | None => "Journey cancelled successfully"
          end) (Some updated), Some data') ∧
    FleetData.journeys data' !! 0%nat = Some updated ∧
    (∀ k, k ≠ 0%nat → FleetData.journeys data' !! k = FleetData.journeys data !! k) ∧
    FleetData.cars data' = FleetData.cars data ∧
    FleetData.drivers data' = FleetData.drivers data ∧
    FleetData.users data' = FleetData.users data ∧
    SystemStats.pendingRequests (FleetData.systemStats data') =
      (if bool_decide (Journey.status running = requested)
       then Z.max 0 (SystemStats.pendingRequests stats - 1)
       else SystemStats.pendingRequests stats) ∧
    SystemStats.activeJourneys (FleetData.systemStats data') =
      (if bool_decide (Journey.status running = in_progress)
       then Z.max 0 (SystemStats.activeJourneys stats - 1)
       else SystemStats.activeJourneys stats) ∧
    SystemStats.availableCars (FleetData.systemStats data') =
      SystemStats.availableCars stats.
Proof.
  apply (cancel_marks_cancelled Demo.clock
           (CancelRequest.mk "journey-1" (Some "Cancelled by user"))
           (FleetData.set_cars [Demo.car "car1" "Corolla" in_use]
              (Demo.fleet
                 [Journey.with_assignment "car1" "driver1" "Dan" "Corolla" in_progress
                    (Demo.journey "journey-1" "u1" requested)]
                 (Demo.stats 1 0 0)))
           0%nat
           (Journey.with_assignment "car1" "driver1" "Dan" "Corolla" in_progress
              (Demo.journey "journey-1" "u1" requested)));
    first [discriminate | reflexivity].
Defined.

(** ** The older assignment route *)

Lemma alter_as_insert {A} (f : A → A) (i : nat) (l : list A) (x : A) :
  l !! i = Some x → alter f i l = <[i := f x]> l.
Proof.
  revert i. induction l as [|y l IH]; intros [|i] Hi; simplify_eq/=; [done|].
  f_equal. by apply IH.
Qed.

Lemma legacy_assign_accepts (data : FleetData.t) (req : AssignJourneyRequest.t)
    (i : nat) (journey : Journey.t) :
  AssignJourneyRequest.journeyId req ≠ "" →
  AssignJourneyRequest.carId req ≠ "" →
  AssignJourneyRequest.driverId req ≠ "" →
  list_find (λ j, Journey.id j = AssignJourneyRequest.journeyId req)
            (FleetData.journeys data) = Some (i, journey) →
  JourneysAssign.PUT true (Some req) (Some data) =
    (success "Car and driver assigned successfully"
       (Some (Patch.journey_reassigned (AssignJourneyRequest.carId req)
                (AssignJourneyRequest.driverId req) journey)),
     Some (FleetData.mk (FleetData.users data) (FleetData.drivers data)
             (match findIndex (λ c, Car.id c = AssignJourneyRequest.carId req)
                              (FleetData.cars data) with
              | Some carIndex =>
                alter (Car.with_status in_use) carIndex (FleetData.cars data)
              | None => FleetData.cars data
              end)
             (FleetData.locations data)
             (alter (Patch.journey_reassigned (AssignJourneyRequest.carId req)
                       (AssignJourneyRequest.driverId req)) i
                    (FleetData.journeys data))
             (FleetData.leaveRequests data) (FleetData.systemStats data))).
Proof.
  intros Hj Hc Hd Hf. unfold JourneysAssign.PUT.
  rewrite !not_falsy by done. simpl.
  rewrite (findIndex_of_list_find _ _ _ _ Hf).
  pose proof Hf as (Hi & _ & _)%list_find_Some.
  destruct (findIndex _ (FleetData.cars data)) as [k|]; simpl;
    by rewrite list_lookup_alter_eq, Hi.
Qed.

(** X7.  The older [PUT /api/journeys/assign] checks neither the status of
    the journey nor that the car and the driver exist.  For non-empty ids
    and a journey found in slot [i], whatever its status, it answers 200 on
    a file that can be read and written: the journey gets the car id, the
    driver id and the status [in_progress], so a completed or cancelled
    journey is reopened with its old end time; its driver name and car model
    stay as they were; the statistics are not touched; and when no car has
    the id, no car changes. *)
Theorem legacy_assign_overrides_status (data : FleetData.t)
    (req : AssignJourneyRequest.t) (i : nat) (journey : Journey.t) :
  AssignJourneyRequest.journeyId req ≠ "" →
  AssignJourneyRequest.carId req ≠ "" →
  AssignJourneyRequest.driverId req ≠ "" →
  list_find (λ j, Journey.id j = AssignJourneyRequest.journeyId req)
            (FleetData.journeys data) = Some (i, journey) →
  ∃ updated data',
    JourneysAssign.PUT true (Some req) (Some data) =
      (success "Car and driver assigned successfully" (Some updated), Some data') ∧
    FleetData.journeys data' !! i = Some updated ∧
    Journey.status updated = in_progress ∧
    Journey.carId updated = AssignJourneyRequest.carId req ∧
    Journey.driverId updated = AssignJourneyRequest.driverId req ∧
    Journey.driverName updated = Journey.driverName journey ∧
    Journey.carModel updated = Journey.carModel journey ∧
    Journey.endTime updated = Journey.endTime journey ∧
    (∀ k, k ≠ i → FleetData.journeys data' !! k = FleetData.journeys data !! k) ∧
    FleetData.systemStats data' = FleetData.systemStats data ∧
    FleetData.drivers data' = FleetData.drivers data ∧
    (find (λ c, Car.id c = AssignJourneyRequest.carId req) (FleetData.cars data) = None →
     FleetData.cars data' = FleetData.cars data).
Proof.
  intros Hj Hc Hd Hf. eexists _, _. split.
  - by apply legacy_assign_accepts.
  - pose proof Hf as (Hi & _ & _)%list_find_Some. simpl. split_and!; try done.
    + by rewrite list_lookup_alter_eq, Hi.
    + intros k Hk. by apply list_lookup_alter_ne.
    + intros Hnone%find_None_list_find. unfold findIndex. by rewrite Hnone.
Qed.

Lemma legacy_assign_overrides_status_witness :
  let data := Demo.fleet [Demo.journey "journey-1" "u1" completed] (Demo.stats 0 0 1) in
  let req := AssignJourneyRequest.mk "journey-1" "no-such-car" "no-such-driver" in
  ∃ updated data',
    JourneysAssign.PUT true (Some req) (Some data) =
      (success "Car and driver assigned successfully" (Some updated), Some data') ∧
    FleetData.journeys data' !! 0%nat = Some updated ∧
    Journey.status updated = in_progress ∧
    Journey.carId updated = "no-such-car" ∧
    Journey.driverId updated = "no-such-driver" ∧
    Journey.driverName updated = "" ∧
    Journey.carModel updated = "" ∧
    Journey.endTime updated = None ∧
    (∀ k, k ≠ 0%nat → FleetData.journeys data' !! k = FleetData.journeys data !! k) ∧
    FleetData.systemStats data' = FleetData.systemStats data ∧
    FleetData.drivers data' = FleetData.drivers data ∧
    (find (λ c, Car.id c = "no-such-car") (FleetData.cars data) = None →
     FleetData.cars data' = FleetData.cars data).
Proof.
  apply (legacy_assign_overrides_status
           (Demo.fleet [Demo.journey "journey-1" "u1" completed] (Demo.stats 0 0 1))
           (AssignJourneyRequest.mk "journey-1" "no-such-car" "no-such-driver")
           0%nat (Demo.journey "journey-1" "u1" completed));
    first [discriminate | reflexivity].
Defined.

(** X8.  Because the older route leaves the statistics alone, it puts the
    pending counter out of step: when the counter was right and the journey
    was requested, after the call the counter is one more than the number
    of requested journeys. *)
Theorem legacy_assign_stales_counter (data : FleetData.t)
    (req : AssignJourneyRequest.t) (i : nat) (journey : Journey.t) :
  AssignJourneyRequest.journeyId req ≠ "" →
  AssignJourneyRequest.carId req ≠ "" →
  AssignJourneyRequest.driverId req ≠ "" →
  list_find (λ j, Journey.id j = AssignJourneyRequest.journeyId req)
            (FleetData.journeys data) = Some (i, journey) →
  Journey.status journey = requested →
  pendingConsistent data →
  let data' := readData (JourneysAssign.PUT true (Some req) (Some data)).2 in
  SystemStats.pendingRequests (FleetData.systemStats data') =
    count (λ j, Journey.status j = requested) (FleetData.journeys data') + 1 ∧
  ¬ pendingConsistent data'.
Proof.
  intros Hj Hc Hd Hf Hs Hok data'.
  assert (Heq : SystemStats.pendingRequests (FleetData.systemStats data') =
    count (λ j, Journey.status j = requested) (FleetData.journeys data') + 1).
  { subst data'. rewrite (legacy_assign_accepts data req i journey) by done. simpl.
    pose proof Hf as (Hi & _ & _)%list_find_Some.
    rewrite Hok.
    rewrite (alter_as_insert _ _ _ journey) by done.
    rewrite (count_insert _ _ _ journey) by done.
    rewrite !indicator_requested, Hs. simpl. lia. }
  split; [done|]. unfold pendingConsistent. lia.
Qed.

Lemma legacy_assign_stales_counter_witness :
  let data := Demo.fleet [Demo.journey "journey-1" "u1" requested] (Demo.stats 0 1 1) in
  let req := AssignJourneyRequest.mk "journey-1" "car1" "driver1" in
  let data' := readData (JourneysAssign.PUT true (Some req) (Some data)).2 in
  SystemStats.pendingRequests (FleetData.systemStats data') =
    count (λ j, Journey.status j = requested) (FleetData.journeys data') + 1 ∧
  ¬ pendingConsistent data'.
Proof.
  apply (legacy_assign_stales_counter
           (Demo.fleet [Demo.journey "journey-1" "u1" requested] (Demo.stats 0 1 1))
           (AssignJourneyRequest.mk "journey-1" "car1" "driver1")
           0%nat (Demo.journey "journey-1" "u1" requested));
    first [discriminate | reflexivity].
Defined.

(** ** The driver routes *)

Lemma driver_journey_status_outcome (clock : Clock.t) (w : bool)
    (body : option UpdateJourneyStatusRequest.t) (file : File) :
  (DriversJourneyStatus.POST clock w body file).2 = file ∧
    Ack.status (DriversJourneyStatus.POST clock w body file).1 ≠ 200 ∨
  ∃ req s data i journey,
    body = Some req ∧ UpdateJourneyStatusRequest.status req = Some s ∧
    file = Some data ∧
    list_find (λ j, Journey.id j = UpdateJourneyStatusRequest.journeyId req ∧
                    Journey.driverId j = UpdateJourneyStatusRequest.driverId req)
              (FleetData.journeys data) = Some (i, journey) ∧
    DriversJourneyStatus.POST clock w body file =
      (Ack.done ("Journey " +:+ journeyStatusName s +:+ " successfully"),
       Some (FleetData.set_journeys
               (alter (Patch.journey_status s (Clock.toISOString clock)) i
                      (FleetData.journeys data)) data)).
Proof.
  unfold DriversJourneyStatus.POST.
  destruct body as [req|]; [|by left].
  destruct (UpdateJourneyStatusRequest.status req) as [s|] eqn:Hs; [|by left].
  destruct (falsy _ || falsy _); [by left|].
  destruct file as [data|]; [|by left]. simpl.
  destruct (findIndex _ _) as [i|] eqn:Hi; [|by left].
  apply findIndex_Some_list_find in Hi as [journey Hi].
  destruct w; [right|by left].
  by exists req, s, data, i, journey.
Qed.

(** X9.  A driver changes only journeys of their own: whatever the call, a
    journey whose id or whose driver id differs from those of the request
    is in the file afterwards exactly as it was before. *)
Theorem driver_touches_only_own_journeys (clock : Clock.t) (w : bool)
    (req : UpdateJourneyStatusRequest.t) (file : File) (i : nat) (j : Journey.t) :
  FleetData.journeys (readData file) !! i = Some j →
  Journey.id j ≠ UpdateJourneyStatusRequest.journeyId req ∨
  Journey.driverId j ≠ UpdateJourneyStatusRequest.driverId req →
  FleetData.journeys
    (readData (DriversJourneyStatus.POST clock w (Some req) file).2) !! i = Some j.
Proof.
  intros Hi Hother.
  destruct (driver_journey_status_outcome clock w (Some req) file)
    as [[-> _]|(req' & s & data & i0 & j0 & [= <-] & _ & -> & Hf & ->)]; [done|].
  simpl in *. apply list_find_Some in Hf as (Hi0 & [Hid Hdrv] & _).
  destruct (decide (i = i0)) as [->|Hne].
  - rewrite Hi in Hi0. injection Hi0 as ->. by destruct Hother.
  - by rewrite list_lookup_alter_ne.
Qed.

Lemma driver_touches_only_own_journeys_witness :
  FleetData.journeys
    (readData
       (DriversJourneyStatus.POST Demo.clock true
          (Some (UpdateJourneyStatusRequest.mk "driver2" "journey-1" (Some completed)))
          (Some (Demo.fleet
                   [Journey.with_assignment "car1" "driver1" "Dan" "Corolla" in_progress
                      (Demo.journey "journey-1" "u1" requested)]
                   (Demo.stats 1 0 0)))).2) !! 0%nat =
  Some (Journey.with_assignment "car1" "driver1" "Dan" "Corolla" in_progress
          (Demo.journey "journey-1" "u1" requested)).
Proof.
  apply (driver_touches_only_own_journeys Demo.clock true
           (UpdateJourneyStatusRequest.mk "driver2" "journey-1" (Some completed))).
  - reflexivity.
  - right. discriminate.
Defined.

(** X10.  The driver's status update accepts every transition.  For
    non-empty ids, a status [s] and a journey of that driver found in slot
    [i], whatever its current status, the call answers 200 on a file that
    can be read and written and the journey gets the status [s]: its end
    time becomes the current time exactly when [s] is [completed], its start
    time exactly when [s] is [in_progress]; cars and statistics are not
    touched.  In particular a completed journey can be set back to
    [requested]. *)
Theorem driver_status_any_transition (clock : Clock.t)
    (req : UpdateJourneyStatusRequest.t) (s : JourneyStatus) (data : FleetData.t)
    (i : nat) (journey : Journey.t) :
  UpdateJourneyStatusRequest.driverId req ≠ "" →
  UpdateJourneyStatusRequest.journeyId req ≠ "" →
  UpdateJourneyStatusRequest.status req = Some s →
  list_find (λ j, Journey.id j = UpdateJourneyStatusRequest.journeyId req ∧
                  Journey.driverId j = UpdateJourneyStatusRequest.driverId req)
            (FleetData.journeys data) = Some (i, journey) →
  ∃ updated data',
    DriversJourneyStatus.POST clock true (Some req) (Some data) =
      (Ack.done ("Journey " +:+ journeyStatusName s +:+ " successfully"), Some data') ∧
    FleetData.journeys data' !! i = Some updated ∧
    Journey.status updated = s ∧
    Journey.endTime updated =
      (if bool_decide (s = completed) then Some (Clock.toISOString clock)
       else Journey.endTime journey) ∧
    Journey.startTime updated =
      (if bool_decide (s = in_progress) then Clock.toISOString clock
       else Journey.startTime journey) ∧
    Journey.carId updated = Journey.carId journey ∧
    Journey.driverId updated = Journey.driverId journey ∧
    (∀ k, k ≠ i → FleetData.journeys data' !! k = FleetData.journeys data !! k) ∧
    FleetData.cars data' = FleetData.cars data ∧
    FleetData.systemStats data' = FleetData.systemStats data.
Proof.
  intros Hd Hj Hs Hf. pose proof Hf as (Hi & _ & _)%list_find_Some.
  exists (Patch.journey_status s (Clock.toISOString clock) journey). eexists. split.
  - unfold DriversJourneyStatus.POST. rewrite Hs, !not_falsy by done. simpl.
    by rewrite (findIndex_of_list_find _ _ _ _ Hf).
  - simpl. split_and!; try done.
    + by rewrite list_lookup_alter_eq, Hi.
    + intros k Hk. by apply list_lookup_alter_ne.
Qed.

Lemma driver_status_any_transition_witness :
  let finished :=
    Journey.with_end completed (Some "2023-11-14T21:00:00.000Z")
      (Journey.with_assignment "car1" "driver1" "Dan" "Corolla" in_progress
         (Demo.journey "journey-1" "u1" requested)) in
  let data := Demo.fleet [finished] (Demo.stats 0 0 0) in
  ∃ updated data',
    DriversJourneyStatus.POST Demo.clock true
      (Some (UpdateJourneyStatusRequest.mk "driver1" "journey-1" (Some requested)))
      (Some data) =
      (Ack.done ("Journey " +:+ journeyStatusName requested +:+ " successfully"),
       Some data') ∧
    FleetData.journeys data' !! 0%nat = Some updated ∧
    Journey.status updated = requested ∧
    Journey.endTime updated =
      (if bool_decide (requested = completed) then Some (Clock.toISOString Demo.clock)
       else Journey.endTime finished) ∧
    Journey.startTime updated =
      (if bool_decide (requested = in_progress) then Clock.toISOString Demo.clock
       else Journey.startTime finished) ∧
    Journey.carId updated = Journey.carId finished ∧
    Journey.driverId updated = Journey.driverId finished ∧
    (∀ k, k ≠ 0%nat → FleetData.journeys data' !! k = FleetData.journeys data !! k) ∧
    FleetData.cars data' = FleetData.cars data ∧
    FleetData.systemStats data' = FleetData.systemStats data.
Proof.
  apply (driver_status_any_transition Demo.clock
           (UpdateJourneyStatusRequest.mk "driver1" "journey-1" (Some requested))
           requested
           (Demo.fleet
              [Journey.with_end completed (Some "2023-11-14T21:00:00.000Z")
                 (Journey.with_assignment "car1" "driver1" "Dan" "Corolla" in_progress
                    (Demo.journey "journey-1" "u1" requested))]
              (Demo.stats 0 0 0))
           0%nat
           (Journey.with_end completed (Some "2023-11-14T21:00:00.000Z")
              (Journey.with_assignment "car1" "driver1" "Dan" "Corolla" in_progress
                 (Demo.journey "journey-1" "u1" requested))));
    first [discriminate | reflexivity].
Defined.

(** *** Moving the cars of a driver *)

Section keyed.
Context {A : Type} (key : A → string) (f : A → A).
Hypothesis f_key : ∀ x, key (f x) = key x.

(** Where the keys are unique, updating the first element with a key is
    updating every element with that key. *)
Lemma alter_first_keyed (a : string) (l : list A) :
  NoDup (key <$> l) →
  match findIndex (λ x, key x = a) l with
  | Some k => alter f k l
  | None => l
  end = (λ x, if decide (key x = a) then f x else x) <$> l.
Proof.
  intros Hnd. unfold findIndex.
  destruct (list_find (λ x, key x = a) l) as [[k x]|] eqn:Hf; simpl.
  - apply list_find_Some in Hf as (Hk & Hx & _).
    apply list_eq. intros j. rewrite list_lookup_fmap.
    destruct (l !! j) as [y|] eqn:Hj; simpl.
    + rewrite (lookup_alter_Some f k j l y Hj). f_equal.
      destruct (decide (j = k)) as [->|Hne], (decide (key y = a)) as [Hy|Hy];
        try done.
      * rewrite Hk in Hj. by injection Hj as ->.
      * destruct Hne. eapply (NoDup_lookup (key <$> l)); [done|..];
          rewrite list_lookup_fmap; [by rewrite Hj|by rewrite Hk; simpl; rewrite Hx, Hy].
    + apply lookup_ge_None. rewrite length_alter. by apply lookup_ge_None.
  - apply list_find_None in Hf. symmetry.
    rewrite <- (list_fmap_id l) at 2. apply list_fmap_ext.
    intros j y Hj. rewrite decide_False; [done|].
    by eapply (Forall_lookup_1 _ l j y Hf).
Qed.

Lemma keyed_fmap_NoDup (a : string) (l : list A) :
  NoDup (key <$> l) →
  NoDup (key <$> ((λ x, if decide (key x = a) then f x else x) <$> l)).
Proof.
  intros Hnd. rewrite <- list_fmap_compose.
  erewrite list_fmap_ext; [exact Hnd|].
  intros j y _. simpl. destruct (decide _); [apply f_key|done].
Qed.
End keyed.

Lemma moveCar_fields (location : Location.t) (data : FleetData.t) (car : Car.t) :
  let data' := DriversLocation.moveCar location data car in
  FleetData.users data' = FleetData.users data ∧
  FleetData.drivers data' = FleetData.drivers data ∧
  FleetData.locations data' = FleetData.locations data ∧
  FleetData.journeys data' = FleetData.journeys data ∧
  FleetData.leaveRequests data' = FleetData.leaveRequests data ∧
  FleetData.systemStats data' = FleetData.systemStats data.
Proof.
  unfold DriversLocation.moveCar. by destruct (findIndex _ _).
Qed.

Lemma moveCar_cars (location : Location.t) (data : FleetData.t) (car : Car.t) :
  NoDup (Car.id <$> FleetData.cars data) →
  FleetData.cars (DriversLocation.moveCar location data car) =
  (λ c, if decide (Car.id c = Car.id car) then Patch.car_currentLocation location c
        else c) <$> FleetData.cars data.
Proof.
  intros Hnd.
  rewrite <- (alter_first_keyed Car.id (Patch.car_currentLocation location)
                (Car.id car) _ Hnd).
  unfold DriversLocation.moveCar. by destruct (findIndex _ _).
Qed.

Lemma moveCars_cars (location : Location.t) (targets : list Car.t) (data : FleetData.t) :
  NoDup (Car.id <$> FleetData.cars data) →
  FleetData.cars (foldl (DriversLocation.moveCar location) data targets) =
  (λ c, if decide (Car.id c ∈ Car.id <$> targets)
        then Patch.car_currentLocation location c else c) <$> FleetData.cars data.
Proof.
  revert data. induction targets as [|t targets IH]; intros data Hnd; simpl.
  - rewrite <- (list_fmap_id (FleetData.cars data)) at 1. apply list_fmap_ext.
    by intros j c _.
  - rewrite IH; rewrite moveCar_cars by done.
    2:{ by apply (keyed_fmap_NoDup Car.id (Patch.car_currentLocation location)
                    (λ _, eq_refl)). }
    rewrite <- list_fmap_compose. apply list_fmap_ext. intros j c _. simpl.
    simpl; repeat case_decide; try done;
      repeat match goal with
             | H : _ ∉ _ :: _ |- _ => apply not_elem_of_cons in H as [? ?]
             | H : _ ∈ _ :: _ |- _ => apply elem_of_cons in H as [?|?]
             end; done.
Qed.

Lemma moveCars_fields (location : Location.t) (targets : list Car.t) (data : FleetData.t) :
  let data' := foldl (DriversLocation.moveCar location) data targets in
  FleetData.users data' = FleetData.users data ∧
  FleetData.drivers data' = FleetData.drivers data ∧
  FleetData.locations data' = FleetData.locations data ∧
  FleetData.journeys data' = FleetData.journeys data ∧
  FleetData.leaveRequests data' = FleetData.leaveRequests data ∧
  FleetData.systemStats data' = FleetData.systemStats data.
Proof.
  revert data. induction targets as [|t targets IH]; intros data; simpl; [done|].
  destruct (IH (DriversLocation.moveCar location data t)) as (-> & -> & -> & -> & -> & ->).
  apply moveCar_fields.
Qed.

(** X11.  When no two cars share an id, a location update for an existing
    driver, on a file that can be read and written, answers 200 and moves
    the driver and exactly the cars that list the driver among their
    drivers: each of those cars gets the location, every other car, every
    journey and user and the statistics are as before. *)
Theorem driver_location_moves_cars (data : FleetData.t)
    (req : UpdateLocationRequest.t) (place : Location.t) (k : nat)
    (driver : Driver.t) :
  UpdateLocationRequest.driverId req ≠ "" →
  UpdateLocationRequest.location req = Some place →
  list_find (λ d, Driver.id d = UpdateLocationRequest.driverId req)
            (FleetData.drivers data) = Some (k, driver) →
  NoDup (Car.id <$> FleetData.cars data) →
  ∃ data',
    DriversLocation.POST true (Some req) (Some data) =
      (Ack.done "Location updated successfully", Some data') ∧
    FleetData.drivers data' =
      alter (Patch.driver_currentLocation place) k (FleetData.drivers data) ∧
    FleetData.cars data' =
      (λ c, if decide (UpdateLocationRequest.driverId req ∈ Car.drivers c)
            then Patch.car_currentLocation place c else c) <$> FleetData.cars data ∧
    FleetData.journeys data' = FleetData.journeys data ∧
    FleetData.users data' = FleetData.users data ∧
    FleetData.systemStats data' = FleetData.systemStats data.
Proof.
  intros Hid Hloc Hf Hnd. eexists. split.
  - unfold DriversLocation.POST. rewrite Hloc, not_falsy by done. simpl.
    by rewrite (findIndex_of_list_find _ _ _ _ Hf).
  - simpl.
    destruct (moveCars_fields place
      (filter (λ car, UpdateLocationRequest.driverId req ∈ Car.drivers car)
              (FleetData.cars data))
      (Patch.fleet_drivers
         (alter (Patch.driver_currentLocation place) k (FleetData.drivers data)) data))
      as (Hu & Hd & _ & Hj & _ & Hs).
    rewrite Hu, Hd, Hj, Hs. split_and!; try done.
    rewrite moveCars_cars by done. simpl.
    apply list_fmap_ext. intros j c Hc. simpl.
    destruct (decide (UpdateLocationRequest.driverId req ∈ Car.drivers c)) as [Hin|Hin].
    + rewrite decide_True; [done|].
      apply list_elem_of_fmap. exists c. split; [done|].
      apply list_elem_of_filter. split; [done|]. by eapply list_elem_of_lookup_2.
    + rewrite decide_False; [done|].
      intros (c' & Hid' & [Hin' (j' & Hc')%list_elem_of_lookup]%list_elem_of_filter)%list_elem_of_fmap.
      assert (j = j') as <-.
      { eapply (NoDup_lookup (Car.id <$> FleetData.cars data)); [done|..];
          rewrite list_lookup_fmap; [by rewrite Hc|by rewrite Hc'; simpl; rewrite Hid']. }
      rewrite Hc in Hc'. by injection Hc' as <-.
Qed.

Lemma driver_location_moves_cars_witness :
  let shared := Car.mk "car1" "Corolla" "REG-car1" ["driver1"] [] available true false
                  Demo.zero Demo.dhaka in
  let other := Demo.car "car2" "Hiace" servicing in
  let data := FleetData.set_cars [shared; other] (Demo.fleet [] (Demo.stats 0 0 1)) in
  let place := Location.mk 0%Qc 0%Qc "Gulshan" in
  ∃ data',
    DriversLocation.POST true
      (Some (UpdateLocationRequest.mk "driver1" (Some place))) (Some data) =
      (Ack.done "Location updated successfully", Some data') ∧
    FleetData.drivers data' =
      alter (Patch.driver_currentLocation place) 0%nat (FleetData.drivers data) ∧
    FleetData.cars data' =
      (λ c, if decide ("driver1" ∈ Car.drivers c)
            then Patch.car_currentLocation place c else c) <$> FleetData.cars data ∧
    FleetData.journeys data' = FleetData.journeys data ∧
    FleetData.users data' = FleetData.users data ∧
    FleetData.systemStats data' = FleetData.systemStats data.
Proof.
  apply (driver_location_moves_cars
           (FleetData.set_cars
              [Car.mk "car1" "Corolla" "REG-car1" ["driver1"] [] available true false
                 Demo.zero Demo.dhaka;
               Demo.car "car2" "Hiace" servicing]
              (Demo.fleet [] (Demo.stats 0 0 1)))
           (UpdateLocationRequest.mk "driver1" (Some (Location.mk 0%Qc 0%Qc "Gulshan")))
           (Location.mk 0%Qc 0%Qc "Gulshan") 0%nat (Demo.driver "driver1" "Dan" false));
    try first [discriminate | reflexivity].
  simpl. apply NoDup_cons_2; [by intros [=]%list_elem_of_singleton|].
  apply NoDup_singleton.
Defined.

(** With two cars under one id the lookup by id reaches the first of them:
    the car of the driver stays where it was and the other one moves. *)
Example driver_location_shared_id :
  let mine := Car.mk "car1" "Hiace" "REG-2" ["driver1"] [] available true false
                Demo.zero Demo.dhaka in
  let first := Demo.car "car1" "Corolla" available in
  let place := Location.mk 0%Qc 0%Qc "Gulshan" in
  FleetData.cars
    (readData
       (DriversLocation.POST true
          (Some (UpdateLocationRequest.mk "driver1" (Some place)))
          (Some (FleetData.set_cars [first; mine]
                   (Demo.fleet [] (Demo.stats 0 0 2))))).2) =
  [Patch.car_currentLocation place first; mine].
Proof. reflexivity. Qed.

(** ** Journey calls and side calls mixed *)

Lemma driver_location_outcome (w : bool) (body : option UpdateLocationRequest.t)
    (file : File) :
  (DriversLocation.POST w body file).2 = file ∧
    Ack.status (DriversLocation.POST w body file).1 ≠ 200 ∨
  ∃ req place data k,
    body = Some req ∧ file = Some data ∧
    Ack.status (DriversLocation.POST w body file).1 = 200 ∧
    (DriversLocation.POST w body file).2 =
      Some (foldl (DriversLocation.moveCar place)
              (Patch.fleet_drivers
                 (alter (Patch.driver_currentLocation place) k (FleetData.drivers data))
                 data)
              (filter (λ car, UpdateLocationRequest.driverId req ∈ Car.drivers car)
                      (FleetData.cars data))).
Proof.
  unfold DriversLocation.POST.
  destruct body as [req|]; [|by left].
  destruct (UpdateLocationRequest.location req) as [place|]; [|by left].
  destruct (falsy _); [by left|].
  destruct file as [data|]; [|by left]. simpl.
  destruct (findIndex _ _) as [k|]; [|by left].
  destruct w; [right|by left].
  by exists req, place, data, k.
Qed.

Lemma user_location_outcome (w : bool) (body : option UpdateUserLocationRequest.t)
    (file : File) :
  (UserLocation.POST w body file).2 = file ∧
    Ack.status (UserLocation.POST w body file).1 ≠ 200 ∨
  ∃ req place data k,
    body = Some req ∧ file = Some data ∧
    Ack.status (UserLocation.POST w body file).1 = 200 ∧
    (UserLocation.POST w body file).2 =
      Some (Patch.fleet_users
              (alter (Patch.user_currentLocation place) k (FleetData.users data)) data).
Proof.
  unfold UserLocation.POST.
  destruct body as [req|]; [|by left].
  destruct (UpdateUserLocationRequest.location req) as [place|]; [|by left].
  destruct (falsy _); [by left|].
  destruct file as [data|]; [|by left]. simpl.
  destruct (findIndex _ _) as [k|]; [|by left].
  destruct w; [right|by left].
  by exists req, place, data, k.
Qed.

Lemma moveCars_count (place : Location.t) (targets : list Car.t) (data : FleetData.t) :
  count (λ c, Car.status c = available)
        (FleetData.cars (foldl (DriversLocation.moveCar place) data targets)) =
  count (λ c, Car.status c = available) (FleetData.cars data).
Proof.
  revert data. induction targets as [|t targets IH]; intros data; simpl; [done|].
  rewrite IH. unfold DriversLocation.moveCar.
  destruct (findIndex _ _); [|done]. simpl. by apply count_alter_keeps.
Qed.

(** What a side call leaves alone: the journeys and the two journey
    counters; and it keeps a right [availableCars] right. *)
Lemma sideFile_keeps (c : SideCall) (file : File) :
  let data := readData file in
  let data' := readData (sideFile c file) in
  FleetData.journeys data' = FleetData.journeys data ∧
  SystemStats.pendingRequests (FleetData.systemStats data') =
    SystemStats.pendingRequests (FleetData.systemStats data) ∧
  SystemStats.activeJourneys (FleetData.systemStats data') =
    SystemStats.activeJourneys (FleetData.systemStats data) ∧
  (availableConsistent data → availableConsistent data').
Proof.
  destruct c as [w body|w body|w body|w body|w body]; simpl.
  - destruct (car_status_outcome w body file)
      as [[-> _]|(req & s & k & car & _ & _ & _ & ->)]; done.
  - destruct (driver_status_outcome w body file)
      as [[-> _]|(req & k & driver & _ & _ & _ & ->)]; done.
  - destruct (user_status_outcome w body file)
      as [[-> _]|(req & k & user & _ & _ & _ & ->)]; done.
  - destruct (driver_location_outcome w body file)
      as [[-> _]|(req & place & data & k & _ & -> & _ & ->)]; [done|].
    simpl.
    destruct (moveCars_fields place
      (filter (λ car, UpdateLocationRequest.driverId req ∈ Car.drivers car)
              (FleetData.cars data))
      (Patch.fleet_drivers
         (alter (Patch.driver_currentLocation place) k (FleetData.drivers data)) data))
      as (_ & _ & _ & -> & _ & Hs).
    unfold availableConsistent. rewrite Hs, moveCars_count. done.
  - destruct (user_location_outcome w body file)
      as [[-> _]|(req & place & data & k & _ & -> & _ & ->)]; done.
Qed.

(** X12.  Side calls never touch a journey, so the order of the life cycle
    holds for every mix of journey calls (request, admin assign, cancel,
    dropoff, route change) and side calls (car, driver and user status,
    driver and user location): the journey in a slot keeps or advances its
    status, and is unchanged once it is completed or cancelled. *)
Theorem mixed_calls_move_forward (cs : list (Call + SideCall)) (file : File)
    (i : nat) (j : Journey.t) :
  FleetData.journeys (readData file) !! i = Some j →
  ∃ j', FleetData.journeys (readData (runMixed cs file)) !! i = Some j' ∧
        forward (Journey.status j) (Journey.status j') = true ∧
        (terminal (Journey.status j) = true → j' = j).
Proof.
  revert file j. induction cs as [|c cs IH]; intros file j Hi.
  - exists j. split_and!; [done|apply forward_refl|done].
  - destruct c as [c|c]; simpl.
    + destruct (handle_journey c file i j Hi) as (j1 & H1 & Hstep & Hterm1).
      destruct (IH _ _ H1) as (j' & H' & Hfwd & Hterm).
      exists j'. split_and!; [done| |].
      * destruct Hstep as [Heq|Htr]; [by rewrite <- Heq|].
        destruct (Journey.status j), (Journey.status j1), (Journey.status j'); done.
      * intros Ht. specialize (Hterm1 Ht). subst j1. auto.
    + apply IH. destruct (sideFile_keeps c file) as (-> & _). done.
Qed.

Lemma mixed_calls_move_forward_witness :
  ∃ j',
    FleetData.journeys
      (readData
         (runMixed
            [inl (CallAssign true
                    (Some (AssignJourneyRequest.mk "journey-1" "car1" "driver1")));
             inr (CallCarStatus true
                    (Some (UpdateCarStatusRequest.mk "car1" (Some available))));
             inl (CallDropoff Demo.clock true
                    (Some (DropoffRequest.mk "journey-1" None)));
             inr (CallDriverStatus true
                    (Some (UpdateDriverStatusRequest.mk "driver1" true)))]
            (Some (Demo.fleet [Demo.journey "journey-1" "u1" requested]
                     (Demo.stats 0 1 1))))) !! 0%nat = Some j' ∧
    forward requested (Journey.status j') = true ∧
    (terminal requested = true → j' = Demo.journey "journey-1" "u1" requested).
Proof.
  apply (mixed_calls_move_forward
           [inl (CallAssign true
                   (Some (AssignJourneyRequest.mk "journey-1" "car1" "driver1")));
            inr (CallCarStatus true
                   (Some (UpdateCarStatusRequest.mk "car1" (Some available))));
            inl (CallDropoff Demo.clock true
                   (Some (DropoffRequest.mk "journey-1" None)));
            inr (CallDriverStatus true
                   (Some (UpdateDriverStatusRequest.mk "driver1" true)))]
           (Some (Demo.fleet [Demo.journey "journey-1" "u1" requested]
                    (Demo.stats 0 1 1)))
           0%nat (Demo.journey "journey-1" "u1" requested)).
  reflexivity.
Defined.

(** ** The three counters *)

Lemma indicator_in_progress (j : Journey.t) :
  indicator (λ j, Journey.status j = in_progress) j =
  if bool_decide (Journey.status j = in_progress) then 1 else 0.
Proof. unfold indicator. by destruct (Journey.status j). Qed.

Lemma handle_activeConsistent (c : Call) (file : File) :
  activeConsistent (readData file) →
  activeConsistent (readData (handle c file).2).
Proof.
  unfold activeConsistent. intros Hok.
  destruct c as [clock w body|w body|clock w body|clock w body|clock w body]; simpl.
  - destruct (request_outcome clock w body file)
      as [[-> _]|(req & user & start & _ & _ & _ & ->)]; [done|].
    simpl. rewrite count_snoc, Hok. rewrite indicator_in_progress. simpl. lia.
  - destruct (assign_outcome w body file)
      as [[-> _]|(req & i & j & k & car & driver & _ & _ & _ & _ & ->)]; done.
  - destruct (cancel_outcome clock w body file)
      as [[-> _]|(req & i & j & _ & Hf & Hs & _ & ->)]; [done|].
    apply list_find_Some in Hf as (Hi & _ & _). simpl.
    rewrite (count_insert _ _ _ j) by done. rewrite !indicator_in_progress. simpl.
    destruct (Journey.status j) eqn:Hj; try done; simpl.
    + lia.
    + assert (1 ≤ count (λ j, Journey.status j = in_progress)
                    (FleetData.journeys (readData file)))
        by (by eapply count_lookup_pos).
      lia.
  - destruct (dropoff_outcome clock w body file)
      as [[-> _]|(req & i & j & _ & Hf & Hs & _ & ->)]; [done|].
    apply list_find_Some in Hf as (Hi & _ & _). simpl.
    rewrite (count_insert _ _ _ j) by done. rewrite !indicator_in_progress. simpl.
    rewrite Hs. simpl.
    assert (1 ≤ count (λ j, Journey.status j = in_progress)
                  (FleetData.journeys (readData file)))
      by (by eapply count_lookup_pos).
    lia.
  - destruct (route_change_outcome clock w body file)
      as [[-> _]|(req & i & j & _ & Hf & Hs & _ & ->)]; [done|].
    apply list_find_Some in Hf as (Hi & _ & _). simpl.
    rewrite (count_insert _ _ _ j) by done. rewrite !indicator_in_progress. simpl.
    lia.
Qed.

Lemma handle_availableConsistent (c : Call) (file : File) :
  availableConsistent (readData file) →
  availableConsistent (readData (handle c file).2).
Proof.
  unfold availableConsistent. intros Hok.
  destruct c as [clock w body|w body|clock w body|clock w body|clock w body]; simpl.
  - destruct (request_outcome clock w body file)
      as [[-> _]|(req & user & start & _ & _ & _ & ->)]; done.
  - destruct (assign_outcome w body file)
      as [[-> _]|(req & i & j & k & car & driver & _ & _ & _ & _ & ->)]; done.
  - destruct (cancel_outcome clock w body file)
      as [[-> _]|(req & i & j & _ & Hf & Hs & _ & ->)]; [done|].
    simpl. by destruct (Journey.status j).
  - destruct (dropoff_outcome clock w body file)
      as [[-> _]|(req & i & j & _ & Hf & Hs & _ & ->)]; done.
  - destruct (route_change_outcome clock w body file)
      as [[-> _]|(req & i & j & _ & Hf & Hs & _ & ->)]; done.
Qed.

(** X13.  Each of the three counters, once right, stays right through every
    mix of journey calls and side calls: [pendingRequests] equals the number
    of requested journeys, [activeJourneys] the number of journeys in
    progress, [availableCars] the number of available cars. *)
Theorem counters_stay_consistent (cs : list (Call + SideCall)) (file : File) :
  (pendingConsistent (readData file) →
   pendingConsistent (readData (runMixed cs file))) ∧
  (activeConsistent (readData file) →
   activeConsistent (readData (runMixed cs file))) ∧
  (availableConsistent (readData file) →
   availableConsistent (readData (runMixed cs file))).
Proof.
  revert file. induction cs as [|c cs IH]; intros file; [done|].
  destruct (IH (match c with
                | inl c => (handle c file).2
                | inr c => sideFile c file
                end)) as (IHp & IHa & IHv).
  simpl. destruct c as [c|c].
  - split_and!; intros Hok.
    + by apply IHp, handle_pendingConsistent.
    + by apply IHa, handle_activeConsistent.
    + by apply IHv, handle_availableConsistent.
  - destruct (sideFile_keeps c file) as (Hj & Hp & Ha & Hv).
    split_and!; intros Hok.
    + apply IHp. unfold pendingConsistent in *. by rewrite Hp, Hj.
    + apply IHa. unfold activeConsistent in *. by rewrite Ha, Hj.
    + by apply IHv, Hv.
Qed.

Lemma counters_stay_consistent_witness :
  let file := Some (Demo.fleet [Demo.journey "journey-1" "u1" requested] (Demo.stats 0 1 1)) in
  let calls :=
    [inl (CallAssign true
            (Some (AssignJourneyRequest.mk "journey-1" "car1" "driver1")));
     inr (CallDriverLocation true
            (Some (UpdateLocationRequest.mk "driver1" (Some Demo.dhaka))));
     inl (CallCancel Demo.clock true (Some (CancelRequest.mk "journey-1" None)))] in
  pendingConsistent (readData (runMixed calls file)) ∧
  activeConsistent (readData (runMixed calls file)) ∧
  availableConsistent (readData (runMixed calls file)).
Proof.
  intros file calls.
  destruct (counters_stay_consistent calls file) as (Hp & Ha & Hv).
  split_and!; [apply Hp|apply Ha|apply Hv]; reflexivity.
Defined.

(** X14.  A successful admin assignment recounts all three counters: after
    a 200 each of them is right, whatever it was before. *)
Theorem assign_recounts_all (w : bool) (body : option AssignJourneyRequest.t)
    (file : File) :
  Response.status (AdminJourneysAssign.POST w body file).1 = 200 →
  pendingConsistent (readData (AdminJourneysAssign.POST w body file).2) ∧
  activeConsistent (readData (AdminJourneysAssign.POST w body file).2) ∧
  availableConsistent (readData (AdminJourneysAssign.POST w body file).2).
Proof.
  destruct (assign_outcome w body file)
    as [[_ Hne]|(req & i & j & k & car & driver & _ & _ & _ & _ & ->)]; [done|].
  intros _. by split_and!.
Qed.

Lemma assign_recounts_all_witness :
  let post :=
    AdminJourneysAssign.POST true
      (Some (AssignJourneyRequest.mk "journey-1" "car1" "driver1"))
      (Some (Demo.fleet [Demo.journey "journey-1" "u1" requested] (Demo.stats 9 9 9))) in
  pendingConsistent (readData post.2) ∧
  activeConsistent (readData post.2) ∧
  availableConsistent (readData post.2).
Proof.
  apply (assign_recounts_all true
           (Some (AssignJourneyRequest.mk "journey-1" "car1" "driver1"))
           (Some (Demo.fleet [Demo.journey "journey-1" "u1" requested]
                    (Demo.stats 9 9 9)))).
  reflexivity.
Defined.

(** ** Errors of the other routes *)

(** X15.  None of the other routes writes when it does not answer 200: for
    the three status updates, the older assignment route, the two driver
    routes and the user-location route, an answer other than 200 leaves the
    file exactly as it was. *)
Theorem side_error_writes_nothing (clock : Clock.t) (w : bool) (file : File) :
  (∀ body, Response.status (AdminCarsStatus.PUT w body file).1 ≠ 200 →
           (AdminCarsStatus.PUT w body file).2 = file) ∧
  (∀ body, Response.status (AdminDriversStatus.PUT w body file).1 ≠ 200 →
           (AdminDriversStatus.PUT w body file).2 = file) ∧
  (∀ body, Response.status (AdminUsersStatus.PUT w body file).1 ≠ 200 →
           (AdminUsersStatus.PUT w body file).2 = file) ∧
  (∀ body, Response.status (JourneysAssign.PUT w body file).1 ≠ 200 →
           (JourneysAssign.PUT w body file).2 = file) ∧
  (∀ body, Ack.status (DriversLocation.POST w body file).1 ≠ 200 →
           (DriversLocation.POST w body file).2 = file) ∧
  (∀ body, Ack.status (DriversJourneyStatus.POST clock w body file).1 ≠ 200 →
           (DriversJourneyStatus.POST clock w body file).2 = file) ∧
  (∀ body, Ack.status (UserLocation.POST w body file).1 ≠ 200 →
           (UserLocation.POST w body file).2 = file).
Proof.
  split_and!; intros body.
  - destruct (car_status_outcome w body file)
      as [[? _]|(? & ? & ? & ? & _ & _ & _ & ->)]; done.
  - destruct (driver_status_outcome w body file)
      as [[? _]|(? & ? & ? & _ & _ & ? & _)]; done.
  - destruct (user_status_outcome w body file)
      as [[? _]|(? & ? & ? & _ & _ & ? & _)]; done.
  - unfold JourneysAssign.PUT.
    destruct body as [req|]; [|done].
    destruct (falsy _ || falsy _ || falsy _); [done|].
    destruct file as [data|]; [|done].
    destruct (findIndex _ (FleetData.journeys data)); [|done].
    by destruct w.
  - destruct (driver_location_outcome w body file)
      as [[? _]|(? & ? & ? & ? & _ & _ & ? & _)]; done.
  - destruct (driver_journey_status_outcome clock w body file)
      as [[? _]|(? & ? & ? & ? & ? & _ & _ & _ & _ & ->)]; done.
  - destruct (user_location_outcome w body file)
      as [[? _]|(? & ? & ? & ? & _ & _ & ? & _)]; done.
Qed.

Lemma side_error_writes_nothing_witness :
  (AdminCarsStatus.PUT true (Some (UpdateCarStatusRequest.mk "car9" (Some cleaning)))
     (Some (Demo.fleet [] (Demo.stats 0 0 1)))).2 =
  Some (Demo.fleet [] (Demo.stats 0 0 1)).
Proof.
  apply (proj1 (side_error_writes_nothing Demo.clock true
                  (Some (Demo.fleet [] (Demo.stats 0 0 1))))).
  discriminate.
Defined.



(** ** [POST /api/data] *)

Lemma get_cons (k k' : string) (v : DataRoute.Json) (o : DataRoute.Obj) :
  DataRoute.get k ((k', v) :: o) = if decide (k' = k) then Some v else DataRoute.get k o.
Proof.
  unfold DataRoute.get. rewrite find_cons. simpl. by destruct (decide (k' = k)).
Qed.

Lemma get_assign (k k' : string) (v : DataRoute.Json) (o : DataRoute.Obj) :
  DataRoute.get k (DataRoutePOST.assign k' v o) =
  if decide (k' = k) then Some v else DataRoute.get k o.
Proof.
  induction o as [|[k1 v1] o IH]; simpl.
  - rewrite get_cons. by destruct (decide (k' = k)).
  - destruct (decide (k1 = k')) as [->|Hne]; rewrite !get_cons.
    + by destruct (decide (k' = k)).
    + rewrite IH. destruct (decide (k1 = k)), (decide (k' = k)); congruence.
Qed.

Lemma get_absent (k : string) (o : DataRoute.Obj) :
  k ∉ o.*1 → DataRoute.get k o = None.
Proof.
  induction o as [|[k1 v1] o IH]; [done|]. simpl.
  intros [Hne Hin]%not_elem_of_cons. rewrite get_cons, decide_False by done. auto.
Qed.

Lemma get_spread (k : string) (a b : DataRoute.Obj) :
  NoDup b.*1 →
  DataRoute.get k (DataRoutePOST.spread a b) =
  match DataRoute.get k b with
  | Some v => Some v
  | None => DataRoute.get k a
  end.
Proof.
  unfold DataRoutePOST.spread. revert a.
  induction b as [|[k1 v1] b IH]; intros a Hnd; [done|].
  apply list.NoDup_cons in Hnd as [Hk1 Hnd]. simpl.
  rewrite IH by done. rewrite get_cons, get_assign.
  destruct (decide (k1 = k)) as [->|Hne]; [|done].
  by rewrite get_absent.
Qed.

(** X17.  The action [update-system-stats] merges the given statistics
    into the stored ones: on a file that can be read and written, the
    statistics written hold, for every key, the given value when the update
    has the key and the stored value otherwise; the rest of the data is
    written back as it was. *)
Theorem stats_patch_merges (req : DataRoutePOST.Request)
    (updateData : DataRoutePOST.UpdateData) (patch : DataRoute.Obj)
    (currentData : DataRoute.FleetData) :
  DataRoutePOST.action req = "update-system-stats" →
  DataRoutePOST.data req = Some updateData →
  DataRoutePOST.systemStats updateData = Some patch →
  NoDup patch.*1 →
  ∃ written,
    DataRoutePOST.POST true (Some req) (Some currentData) =
      (DataRoutePOST.dataUpdated, Some (DataRoutePOST.WriteCurrent written)) ∧
    (∀ k, DataRoute.get k (DataRoute.systemStats written) =
          match DataRoute.get k patch with
          | Some v => Some v
          | None => DataRoute.get k (DataRoute.systemStats currentData)
          end) ∧
    DataRoute.users written = DataRoute.users currentData ∧
    DataRoute.drivers written = DataRoute.drivers currentData ∧
    DataRoute.cars written = DataRoute.cars currentData ∧
    DataRoute.locations written = DataRoute.locations currentData ∧
    DataRoute.journeys written = DataRoute.journeys currentData ∧
    DataRoute.leaveRequests written = DataRoute.leaveRequests currentData.
Proof.
  intros Ha Hd Hs Hnd. eexists. split.
  - unfold DataRoutePOST.POST. rewrite Ha, Hd, Hs. reflexivity.
  - simpl. split_and!; try done. intros k. by apply get_spread.
Qed.

Lemma stats_patch_merges_witness :
  let stored := [("pendingRequests", DataRoute.JNumber 0%Qc);
                 ("totalCars", DataRoute.JNumber 0%Qc)] in
  let patch := [("totalCars", DataRoute.JString "two"); ("note", DataRoute.JNull)] in
  let currentData := DataRoute.mkFleetData [] [] [] [] [] [] stored in
  ∃ written,
    DataRoutePOST.POST true
      (Some (DataRoutePOST.mkRequest "update-system-stats"
               (Some (DataRoutePOST.mkUpdateData None None None None None None
                        (Some patch))))) (Some currentData) =
      (DataRoutePOST.dataUpdated, Some (DataRoutePOST.WriteCurrent written)) ∧
    (∀ k, DataRoute.get k (DataRoute.systemStats written) =
          match DataRoute.get k patch with
          | Some v => Some v
          | None => DataRoute.get k (DataRoute.systemStats currentData)
          end) ∧
    DataRoute.users written = DataRoute.users currentData ∧
    DataRoute.drivers written = DataRoute.drivers currentData ∧
    DataRoute.cars written = DataRoute.cars currentData ∧
    DataRoute.locations written = DataRoute.locations currentData ∧
    DataRoute.journeys written = DataRoute.journeys currentData ∧
    DataRoute.leaveRequests written = DataRoute.leaveRequests currentData.
Proof.
  apply (stats_patch_merges
           (DataRoutePOST.mkRequest "update-system-stats"
              (Some (DataRoutePOST.mkUpdateData None None None None None None
                       (Some [("totalCars", DataRoute.JString "two");
                              ("note", DataRoute.JNull)]))))
           (DataRoutePOST.mkUpdateData None None None None None None
              (Some [("totalCars", DataRoute.JString "two"); ("note", DataRoute.JNull)]))
           [("totalCars", DataRoute.JString "two"); ("note", DataRoute.JNull)]);
    try reflexivity.
  simpl. apply NoDup_cons_2; [by intros [=]%list_elem_of_singleton|].
  apply NoDup_singleton.
Defined.

Example stats_patch_keeps_order :
  DataRoutePOST.spread
    [("pendingRequests", DataRoute.JNumber 0%Qc); ("totalCars", DataRoute.JNumber 0%Qc)]
    [("totalCars", DataRoute.JString "two"); ("note", DataRoute.JNull)] =
  [("pendingRequests", DataRoute.JNumber 0%Qc); ("totalCars", DataRoute.JString "two");
   ("note", DataRoute.JNull)].
Proof. reflexivity. Qed.

(** X18.  [POST /api/data] writes only in three cases, each needing a file
    that can be read and that can be written: [update-system-stats] with
    data writes the stored data with the statistics merged, or unchanged
    when the data has no statistics; [update-data] with data writes exactly
    the data of the request, whatever is stored; [reset-data] writes the
    stored data back unchanged.  Without an action, with any other action,
    with an unreadable file or a malformed body nothing is written. *)
Theorem data_post_written (w : bool) (body : option DataRoutePOST.Request)
    (file : option DataRoute.FleetData) (written : DataRoutePOST.Written) :
  (DataRoutePOST.POST w body file).2 = Some written →
  DataRoutePOST.status (DataRoutePOST.POST w body file).1 = 200 ∧
  w = true ∧
  ∃ req currentData,
    body = Some req ∧ file = Some currentData ∧
    ((DataRoutePOST.action req = "update-system-stats" ∧
      ∃ updateData, DataRoutePOST.data req = Some updateData ∧
        written = DataRoutePOST.WriteCurrent
          (match DataRoutePOST.systemStats updateData with
           | Some stats =>
             DataRoutePOST.set_systemStats
               (DataRoutePOST.spread (DataRoute.systemStats currentData) stats)
               currentData
           | None => currentData
           end)) ∨
     (DataRoutePOST.action req = "update-data" ∧
      ∃ updateData, DataRoutePOST.data req = Some updateData ∧
        written = DataRoutePOST.WriteUpdate updateData) ∨
     (DataRoutePOST.action req = "reset-data" ∧
      written = DataRoutePOST.WriteCurrent currentData)).
Proof.
  unfold DataRoutePOST.POST.
  destruct body as [req|]; [|done].
  destruct (falsy _); [done|].
  destruct file as [currentData|]; [|done]. simpl.
  repeat case_bool_decide.
  - destruct (DataRoutePOST.data req) as [u|] eqn:Hu; [|done].
    destruct (DataRoutePOST.systemStats u) eqn:Hs; destruct w; try done;
      intros [= <-]; split_and!; try done; exists req, currentData;
      split_and!; try done; left; split; [done| |done|]; exists u; by rewrite Hs.
  - destruct (DataRoutePOST.data req) as [u|] eqn:Hu; [|done].
    destruct w; [|done]. intros [= <-]. split_and!; try done.
    exists req, currentData. split_and!; try done. right; left. eauto.
  - destruct w; [|done]. intros [= <-]. split_and!; try done.
    exists req, currentData. split_and!; try done. right; right. eauto.
  - done.
Qed.

Lemma data_post_written_witness :
  DataRoutePOST.status
    (DataRoutePOST.POST true (Some (DataRoutePOST.mkRequest "reset-data" None))
       (Some (DataRoute.mkFleetData [] [] [] [] [] [] []))).1 = 200 ∧
  true = true ∧
  ∃ req currentData,
    Some (DataRoutePOST.mkRequest "reset-data" None) = Some req ∧
    Some (DataRoute.mkFleetData [] [] [] [] [] [] []) = Some currentData ∧
    ((DataRoutePOST.action req = "update-system-stats" ∧
      ∃ updateData, DataRoutePOST.data req = Some updateData ∧
        DataRoutePOST.WriteCurrent (DataRoute.mkFleetData [] [] [] [] [] [] []) =
        DataRoutePOST.WriteCurrent
          (match DataRoutePOST.systemStats updateData with
           | Some stats =>
             DataRoutePOST.set_systemStats
               (DataRoutePOST.spread (DataRoute.systemStats currentData) stats)
               currentData
           | None => currentData
           end)) ∨
     (DataRoutePOST.action req = "update-data" ∧
      ∃ updateData, DataRoutePOST.data req = Some updateData ∧
        DataRoutePOST.WriteCurrent (DataRoute.mkFleetData [] [] [] [] [] [] []) =
        DataRoutePOST.WriteUpdate updateData) ∨
     (DataRoutePOST.action req = "reset-data" ∧
      DataRoutePOST.WriteCurrent (DataRoute.mkFleetData [] [] [] [] [] [] []) =
      DataRoutePOST.WriteCurrent currentData)).
Proof.
  apply (data_post_written true (Some (DataRoutePOST.mkRequest "reset-data" None))
           (Some (DataRoute.mkFleetData [] [] [] [] [] [] []))
           (DataRoutePOST.WriteCurrent (DataRoute.mkFleetData [] [] [] [] [] [] []))).
  reflexivity.
Defined.

(** ** The booking cooldown *)

Lemma seconds_pass (s : UserPage.BookingState) (n : nat) :
  0 < UserPage.cooldownRemaining s →
  let c := UserPage.cooldownRemaining s in
  let s' := Nat.iter n UserPage.second s in
  UserPage.cooldownRemaining s' = Z.max 0 (c - 1000 * Z.of_nat n) ∧
  UserPage.lastBookingTime s' = UserPage.lastBookingTime s ∧
  UserPage.isBookingAllowed s' =
    (if bool_decide (c ≤ 1000 * Z.of_nat n) then true else UserPage.isBookingAllowed s) ∧
  UserPage.hasActiveRequest s' =
    (if bool_decide (c ≤ 1000 * Z.of_nat n) then false else UserPage.hasActiveRequest s).
Proof.
  intros Hc c s'. subst s'. induction n as [|n IH].
  - simpl. rewrite bool_decide_eq_false_2 by lia. split_and!; [lia|done..].
  - rewrite Nat.iter_succ. destruct IH as (IHc & IHt & IHa & IHr).
    set (sn := Nat.iter n UserPage.second s) in *.
    unfold UserPage.second, UserPage.tick. rewrite IHc.
    repeat case_bool_decide; simpl; rewrite ?IHt, ?IHa, ?IHr, ?IHc;
      repeat case_bool_decide; split_and!; try done; try lia.
Qed.

(** X19.  The cooldown counts down by whole seconds and stops at zero: from
    a state with [cooldownRemaining = c > 0], after [n] seconds the value is
    [max 0 (c - 1000 n)]; as long as it is positive the two flags are as
    they were, and from the second at which it reaches zero booking is
    allowed again and the active request is forgotten. *)
Theorem cooldown_counts_down (s : UserPage.BookingState) (n : nat) :
  0 < UserPage.cooldownRemaining s →
  let c := UserPage.cooldownRemaining s in
  let s' := Nat.iter n UserPage.second s in
  UserPage.cooldownRemaining s' = Z.max 0 (c - 1000 * Z.of_nat n) ∧
  UserPage.lastBookingTime s' = UserPage.lastBookingTime s ∧
  UserPage.isBookingAllowed s' =
    (if bool_decide (c ≤ 1000 * Z.of_nat n) then true else UserPage.isBookingAllowed s) ∧
  UserPage.hasActiveRequest s' =
    (if bool_decide (c ≤ 1000 * Z.of_nat n) then false else UserPage.hasActiveRequest s).
Proof. apply seconds_pass. Qed.

Lemma cooldown_counts_down_witness :
  let s := UserPage.mkBookingState false (Some 0) 2500 true in
  let s' := Nat.iter 2 UserPage.second s in
  UserPage.cooldownRemaining s' = Z.max 0 (2500 - 1000 * Z.of_nat 2) ∧
  UserPage.lastBookingTime s' = Some 0 ∧
  UserPage.isBookingAllowed s' =
    (if bool_decide (2500 ≤ 1000 * Z.of_nat 2) then true else false) ∧
  UserPage.hasActiveRequest s' =
    (if bool_decide (2500 ≤ 1000 * Z.of_nat 2) then false else true).
Proof.
  apply (cooldown_counts_down (UserPage.mkBookingState false (Some 0) 2500 true) 2).
  reflexivity.
Defined.

(** X20.  After a successful request the dashboard refuses another one for
    five minutes: the booking check passes after [n] seconds exactly when a
    destination is selected and [n] is at least 300. *)
Theorem booking_blocked_for_five_minutes (now : Z) (n : nat)
    (selectedDestination : string) :
  UserPage.isValid
    (UserPage.validateBookingRequest selectedDestination
       (Nat.iter n UserPage.second (UserPage.afterRequest now))) = true
  ↔ selectedDestination ≠ "" ∧ (300 ≤ n)%nat.
Proof.
  pose proof (seconds_pass (UserPage.afterRequest now) n) as Hpass. cbv zeta in Hpass.
  destruct (Hpass ltac:(done)) as (_ & _ & Ha & Hr). clear Hpass.
  change (UserPage.cooldownRemaining (UserPage.afterRequest now)) with 300000 in *.
  unfold UserPage.validateBookingRequest, falsy. rewrite Ha, Hr.
  simpl. repeat case_bool_decide; simpl; split; try done;
    first [intros [? ?]; first [done|lia] | intros _; split; [done|lia]].
Qed.

(** X21.  The cooldown stays between zero and the period: this holds at
    the start, after a request and after a cancel, it is kept by every
    second, and it is kept when the state is restored from a stored booking
    whose time is not in the future.  A stored booking from the future gives
    a cooldown longer than the period. *)
Theorem cooldown_within_period :
  (0 ≤ UserPage.cooldownRemaining UserPage.initialBookingState ≤ UserPage.COOLDOWN_PERIOD) ∧
  (∀ now, 0 ≤ UserPage.cooldownRemaining (UserPage.afterRequest now)
            ≤ UserPage.COOLDOWN_PERIOD) ∧
  (0 ≤ UserPage.cooldownRemaining UserPage.afterCancel ≤ UserPage.COOLDOWN_PERIOD) ∧
  (∀ s, 0 ≤ UserPage.cooldownRemaining s ≤ UserPage.COOLDOWN_PERIOD →
        0 ≤ UserPage.cooldownRemaining (UserPage.second s) ≤ UserPage.COOLDOWN_PERIOD) ∧
  (∀ storedBooking currentTime s,
     0 ≤ UserPage.cooldownRemaining s ≤ UserPage.COOLDOWN_PERIOD →
     (∀ bookingTime, storedBooking = Some bookingTime → bookingTime ≤ currentTime) →
     0 ≤ UserPage.cooldownRemaining
           (UserPage.checkBookingStatus storedBooking currentTime s).1
       ≤ UserPage.COOLDOWN_PERIOD) ∧
  (∀ bookingTime currentTime s, currentTime < bookingTime →
     UserPage.COOLDOWN_PERIOD <
     UserPage.cooldownRemaining
       (UserPage.checkBookingStatus (Some bookingTime) currentTime s).1).
Proof.
  change UserPage.COOLDOWN_PERIOD with 300000. split_and!; try done.
  - intros s Hs. unfold UserPage.second, UserPage.tick.
    repeat case_bool_decide; simpl; lia.
  - intros [t|] now s Hs Ht; simpl; [|done].
    specialize (Ht t eq_refl). change UserPage.COOLDOWN_PERIOD with 300000.
    case_bool_decide; simpl; lia.
  - intros t now s Hlt. simpl. change UserPage.COOLDOWN_PERIOD with 300000.
    rewrite bool_decide_eq_true_2 by lia. simpl. lia.
Qed.

Lemma cooldown_within_period_witness :
  0 ≤ UserPage.cooldownRemaining
        (UserPage.checkBookingStatus (Some 1000) 61000 UserPage.initialBookingState).1
    ≤ UserPage.COOLDOWN_PERIOD.
Proof.
  apply (proj1 (proj2 (proj2 (proj2 (proj2 cooldown_within_period))))
           (Some 1000) 61000 UserPage.initialBookingState).
  - done.
  - intros t [= <-]. done.
Defined.

Section format.
Import Stdlib.Strings.Ascii.

Lemma pad_two_digits (n : Z) :
  0 ≤ n < 100 →
  UserPage.padStart 2 "0"%char (decimal n) =
  String (UserPage.digit (n / 10)) (String (UserPage.digit (n mod 10)) "").
Proof.
  intros Hn.
  assert (Hall : forallb
    (λ k, bool_decide
       (UserPage.padStart 2 "0"%char (decimal (Z.of_nat k)) =
        String (UserPage.digit (Z.of_nat k / 10))
          (String (UserPage.digit (Z.of_nat k mod 10)) ""))) (seq 0 100) = true)
    by (vm_compute; reflexivity).
  rewrite forallb_forall in Hall.
  assert (Hin : In (Z.to_nat n) (seq 0 100)) by (apply in_seq; lia).
  apply Hall in Hin. rewrite Z2Nat.id in Hin by lia.
  by apply bool_decide_eq_true in Hin.
Qed.

(** X22.  Any cooldown below a hundred minutes is shown as two digits of
    minutes, a colon and two digits of seconds, fractions of a second
    dropped: for [0 <= ms < 6000000] the text is the tens and units of
    [ms / 60000], then ":", then the tens and units of
    [(ms mod 60000) / 1000]. *)
Theorem format_cooldown_digits (ms : Z) :
  0 ≤ ms < 6000000 →
  let minutes := ms / 60000 in
  let seconds := ms mod 60000 / 1000 in
  UserPage.formatCooldownTime ms =
    String (UserPage.digit (minutes / 10))
      (String (UserPage.digit (minutes mod 10))
         (String ":"
            (String (UserPage.digit (seconds / 10))
               (String (UserPage.digit (seconds mod 10)) "")))) ∧
  0 ≤ seconds < 60.
Proof.
  intros Hms minutes seconds.
  assert (Hm : 0 ≤ minutes < 100).
  { subst minutes. split; [apply Z.div_pos; lia|apply Z.div_lt_upper_bound; lia]. }
  assert (Hs : 0 ≤ seconds < 60).
  { subst seconds. pose proof (Z.mod_pos_bound ms 60000 ltac:(lia)).
    split; [apply Z.div_pos; lia|apply Z.div_lt_upper_bound; lia]. }
  split; [|done].
  unfold UserPage.formatCooldownTime. rewrite Z.rem_mod_nonneg by lia.
  fold minutes seconds. rewrite !pad_two_digits by lia. reflexivity.
Qed.

Lemma format_cooldown_digits_witness :
  UserPage.formatCooldownTime 299999 =
    String (UserPage.digit (299999 / 60000 / 10))
      (String (UserPage.digit ((299999 / 60000) mod 10))
         (String ":"
            (String (UserPage.digit (299999 mod 60000 / 1000 / 10))
               (String (UserPage.digit ((299999 mod 60000 / 1000) mod 10)) "")))) ∧
  0 ≤ 299999 mod 60000 / 1000 < 60.
Proof. apply (format_cooldown_digits 299999). lia. Defined.

Example format_cooldown_period :
  UserPage.formatCooldownTime UserPage.COOLDOWN_PERIOD = "05:00" ∧
  UserPage.formatCooldownTime 299999 = "04:59" ∧
  UserPage.formatCooldownTime 0 = "00:00".
Proof. repeat split; reflexivity. Qed.
End format.

(** ** What the journey calls leave alone *)

Lemma assign_takes_available (w : bool) (body : option AssignJourneyRequest.t)
    (file : File) :
  (AdminJourneysAssign.POST w body file).2 = file ∨
  ∃ req i journey k car driver,
    FleetData.cars (readData file) !! k = Some car ∧
    Car.status car = available ∧
    (AdminJourneysAssign.POST w body file).2 =
      Some (assigned req i journey k car driver (readData file)).
Proof.
  unfold AdminJourneysAssign.POST.
  destruct body as [req|]; [|by left].
  destruct (falsy _ || falsy _ || falsy _); [by left|].
  destruct (list_find _ (FleetData.journeys _)) as [[i j]|] eqn:Hj; [|by left].
  case_bool_decide as Hs; [by left|].
  destruct (find _ (FleetData.cars _)) as [c|] eqn:Hc; [|by left].
  case_bool_decide as Ha; [by left|].
  destruct (find _ (FleetData.drivers _)) as [d|] eqn:Hd; [|by left].
  destruct (Driver.onLeave d); [by left|].
  destruct w; [right|by left].
  apply find_Some_index in Hc as [k Hc].
  rewrite (findIndex_of_list_find _ _ _ _ Hc). simpl.
  exists req, i, j, k, c, d. split_and!.
  - by apply list_find_Some in Hc as (? & _).
  - by destruct (Car.status c).
  - done.
Qed.

Lemma count_alter_le {A} (P : A → Prop) `{!∀ x, Decision (P x)} (f : A → A)
    (i : nat) (l : list A) :
  (∀ x, P (f x) → P x) → count P (alter f i l) ≤ count P l.
Proof.
  intros Hf. revert i. induction l as [|x l IH]; intros i; [done|].
  destruct i as [|i]; simpl; rewrite !count_cons.
  - unfold indicator. destruct (decide (P (f x))) as [Hx|Hx], (decide (P x)) as [Hy|Hy];
      try lia. by destruct Hy; apply Hf.
  - change (list_alter f i l) with (alter f i l). specialize (IH i). lia.
Qed.

Lemma handle_cars (c : Call) (file : File) :
  FleetData.users (readData (handle c file).2) = FleetData.users (readData file) ∧
  FleetData.drivers (readData (handle c file).2) = FleetData.drivers (readData file) ∧
  (∀ k car, FleetData.cars (readData file) !! k = Some car →
     ∃ car', FleetData.cars (readData (handle c file).2) !! k = Some car' ∧
       (car' = car ∨
        Car.status car = available ∧ car' = Car.with_status in_use car)) ∧
  count (λ c, Car.status c = available) (FleetData.cars (readData (handle c file).2))
    ≤ count (λ c, Car.status c = available) (FleetData.cars (readData file)).
Proof.
  assert (Hsame : ∀ file' : File,
    FleetData.users (readData file') = FleetData.users (readData file) →
    FleetData.drivers (readData file') = FleetData.drivers (readData file) →
    FleetData.cars (readData file') = FleetData.cars (readData file) →
    FleetData.users (readData file') = FleetData.users (readData file) ∧
    FleetData.drivers (readData file') = FleetData.drivers (readData file) ∧
    (∀ k car, FleetData.cars (readData file) !! k = Some car →
       ∃ car', FleetData.cars (readData file') !! k = Some car' ∧
         (car' = car ∨
          Car.status car = available ∧ car' = Car.with_status in_use car)) ∧
    count (λ c, Car.status c = available) (FleetData.cars (readData file'))
      ≤ count (λ c, Car.status c = available) (FleetData.cars (readData file))).
  { intros file' Hu Hd Hc. rewrite Hc. split_and!; [done|done| |lia].
    intros k car Hk. exists car. by split; [|left]. }
  destruct c as [clock w body|w body|clock w body|clock w body|clock w body]; simpl.
  - destruct (request_outcome clock w body file)
      as [[-> _]|(req & user & start & _ & _ & _ & ->)]; by apply Hsame.
  - destruct (assign_takes_available w body file)
      as [->|(req & i & j & k0 & car0 & driver & Hk0 & Ha & ->)]; [by apply Hsame|].
    simpl. split_and!; try done.
    + intros k car Hk. destruct (decide (k = k0)) as [->|Hne].
      * rewrite list_lookup_alter_eq, Hk. simpl. eexists; split; [done|].
        right. by simplify_eq.
      * rewrite list_lookup_alter_ne by done. eauto.
    + apply count_alter_le. by intros x.
  - destruct (cancel_outcome clock w body file)
      as [[-> _]|(req & i0 & j0 & _ & _ & _ & _ & ->)]; by apply Hsame.
  - destruct (dropoff_outcome clock w body file)
      as [[-> _]|(req & i0 & j0 & _ & _ & _ & _ & ->)]; by apply Hsame.
  - destruct (route_change_outcome clock w body file)
      as [[-> _]|(req & i0 & j0 & _ & _ & _ & _ & ->)]; by apply Hsame.
Qed.

(** X23.  The journey calls (request, admin assign, cancel, dropoff, route
    change) never release a car and never touch a user or a driver: after
    any sequence of them the users and the drivers are as before, every car
    is as before or was [available] and is now [in_use] with its other
    fields kept, and the number of available cars has not grown.  A car
    taken by an assignment stays [in_use] when its journey is dropped off or
    cancelled. *)
Theorem journey_calls_never_release_cars (cs : list Call) (file : File) :
  FleetData.users (readData (run cs file)) = FleetData.users (readData file) ∧
  FleetData.drivers (readData (run cs file)) = FleetData.drivers (readData file) ∧
  (∀ k car, FleetData.cars (readData file) !! k = Some car →
     ∃ car', FleetData.cars (readData (run cs file)) !! k = Some car' ∧
       (car' = car ∨
        Car.status car = available ∧ car' = Car.with_status in_use car)) ∧
  count (λ c, Car.status c = available) (FleetData.cars (readData (run cs file)))
    ≤ count (λ c, Car.status c = available) (FleetData.cars (readData file)).
Proof.
  revert file. induction cs as [|c cs IH]; intros file.
  - simpl. split_and!; [done|done| |lia]. intros k car Hk. exists car. by split; [|left].
  - simpl. destruct (handle_cars c file) as (Hu & Hd & Hc & Hn).
    destruct (IH (handle c file).2) as (Hu' & Hd' & Hc' & Hn').
    change (foldl (λ f c, (handle c f).2) (handle c file).2 cs)
      with (run cs (handle c file).2).
    split_and!; [congruence|congruence| |lia].
    intros k car Hk. destruct (Hc k car Hk) as (car1 & Hk1 & H1).
    destruct (Hc' k car1 Hk1) as (car' & Hk' & H').
    exists car'. split; [done|].
    destruct H1 as [->|[Ha ->]]; [done|].
    destruct H' as [->|[Ha' _]]; [by right|done].
Qed.

Example dropoff_keeps_car_in_use :
  let req := AssignJourneyRequest.mk "journey-1" "car1" "driver1" in
  let data := Demo.fleet [Demo.journey "journey-1" "u1" requested] (Demo.stats 0 1 1) in
  let file := run [CallAssign true (Some req);
                   CallDropoff Demo.clock true (Some (DropoffRequest.mk "journey-1" None))]
                  (Some data) in
  Journey.status <$> FleetData.journeys (readData file) !! 0%nat = Some completed ∧
  Car.status <$> FleetData.cars (readData file) !! 0%nat = Some in_use ∧
  SystemStats.availableCars (FleetData.systemStats (readData file)) = 0.
Proof. repeat split; reflexivity. Qed.

(** ** Journeys that share an id *)

(** A handler that looks a journey up by id and overwrites the slot it
    found never reaches a slot behind another one with the same id. *)
Lemma shadowed_insert (l : list Journey.t) (id : string) (i0 i k : nat)
    (jx upd j0 j : Journey.t) :
  list_find (λ j, Journey.id j = id) l = Some (i0, jx) →
  Journey.id upd = Journey.id jx →
  (i < k)%nat → l !! i = Some j0 → l !! k = Some j → Journey.id j0 = Journey.id j →
  (∃ j0', <[i0 := upd]> l !! i = Some j0' ∧ Journey.id j0' = Journey.id j) ∧
  <[i0 := upd]> l !! k = Some j.
Proof.
  intros Hf Hupd Hlt Hi Hk Hid.
  apply list_find_Some in Hf as (Hi0 & Hjx & Hmin). split.
  - destruct (decide (i0 = i)) as [->|Hne].
    + exists upd. split; [|simplify_eq; congruence].
      apply list_lookup_insert_eq. by eapply lookup_lt_Some.
    + exists j0. split; [|done]. by rewrite list_lookup_insert_ne.
  - destruct (decide (i0 = k)) as [->|Hne].
    + simplify_eq. destruct (Hmin i j0 Hi Hlt). congruence.
    + by rewrite list_lookup_insert_ne.
Qed.

Lemma handle_shadowed (c : Call) (file : File) (i k : nat) (j0 j : Journey.t) :
  (i < k)%nat →
  FleetData.journeys (readData file) !! i = Some j0 →
  FleetData.journeys (readData file) !! k = Some j →
  Journey.id j0 = Journey.id j →
  (∃ j0', FleetData.journeys (readData (handle c file).2) !! i = Some j0' ∧
          Journey.id j0' = Journey.id j) ∧
  FleetData.journeys (readData (handle c file).2) !! k = Some j.
Proof.
  intros Hlt Hi Hk Hid.
  destruct c as [clock w body|w body|clock w body|clock w body|clock w body]; simpl.
  - destruct (request_outcome clock w body file)
      as [[-> _]|(req & user & start & _ & _ & _ & ->)]; [by eauto|].
    simpl. split; [exists j0; split; [|done]|]; by apply lookup_app_l_Some.
  - destruct (assign_outcome w body file)
      as [[-> _]|(req & i0 & jx & k0 & car & driver & _ & Hf & _ & _ & ->)];
      [by eauto|].
    simpl. by eapply shadowed_insert.
  - destruct (cancel_outcome clock w body file)
      as [[-> _]|(req & i0 & jx & _ & Hf & _ & _ & ->)]; [by eauto|].
    simpl. by eapply shadowed_insert.
  - destruct (dropoff_outcome clock w body file)
      as [[-> _]|(req & i0 & jx & _ & Hf & _ & _ & ->)]; [by eauto|].
    simpl. by eapply shadowed_insert.
  - destruct (route_change_outcome clock w body file)
      as [[-> _]|(req & i0 & jx & _ & Hf & _ & _ & ->)]; [by eauto|].
    simpl. by eapply shadowed_insert.
Qed.

(** X24.  The handlers look a journey up by id and take the first match,
    so a journey that stands behind another one with the same id is out of
    reach: through any sequence of journey calls it stays in its slot
    exactly as it was, so it is never assigned, cancelled, dropped off or
    rerouted.  Two requests accepted in the same millisecond give such a
    pair. *)
Theorem shadowed_journey_never_changes (cs : list Call) (file : File) (i k : nat)
    (j0 j : Journey.t) :
  (i < k)%nat →
  FleetData.journeys (readData file) !! i = Some j0 →
  FleetData.journeys (readData file) !! k = Some j →
  Journey.id j0 = Journey.id j →
  FleetData.journeys (readData (run cs file)) !! k = Some j.
Proof.
  intros Hlt. revert file j0. induction cs as [|c cs IH]; intros file j0 Hi Hk Hid.
  - done.
  - destruct (handle_shadowed c file i k j0 j Hlt Hi Hk Hid) as ((j0' & Hi' & Hid') & Hk').
    exact (IH _ _ Hi' Hk' Hid').
Qed.

Lemma shadowed_journey_never_changes_witness :
  let ada := JourneyRequest.mk "u1" "Airport" (Some Demo.dhaka) None in
  let bob := JourneyRequest.mk "u2" "Harbour" (Some Demo.dhaka) None in
  let file :=
    run [CallRequest Demo.clock true (Some ada); CallRequest Demo.clock true (Some bob)]
        (Some (Demo.fleet [] (Demo.stats 0 0 1))) in
  let second := JourneysRequest.newJourney Demo.clock bob (Demo.user "u2" "Bob") Demo.dhaka in
  FleetData.journeys
    (readData
       (run [CallAssign true
               (Some (AssignJourneyRequest.mk "journey-1700000000000" "car1" "driver1"));
             CallCancel Demo.clock true
               (Some (CancelRequest.mk "journey-1700000000000" None))]
            file)) !! 1%nat = Some second.
Proof.
  apply (shadowed_journey_never_changes
           [CallAssign true
              (Some (AssignJourneyRequest.mk "journey-1700000000000" "car1" "driver1"));
            CallCancel Demo.clock true
              (Some (CancelRequest.mk "journey-1700000000000" None))]
           (run [CallRequest Demo.clock true
                   (Some (JourneyRequest.mk "u1" "Airport" (Some Demo.dhaka) None));
                 CallRequest Demo.clock true
                   (Some (JourneyRequest.mk "u2" "Harbour" (Some Demo.dhaka) None))]
                (Some (Demo.fleet [] (Demo.stats 0 0 1))))
           0%nat 1%nat
           (JourneysRequest.newJourney Demo.clock
              (JourneyRequest.mk "u1" "Airport" (Some Demo.dhaka) None)
              (Demo.user "u1" "Ada") Demo.dhaka)
           (JourneysRequest.newJourney Demo.clock
              (JourneyRequest.mk "u2" "Harbour" (Some Demo.dhaka) None)
              (Demo.user "u2" "Bob") Demo.dhaka)).
  - lia.
  - vm_compute. reflexivity.
  - vm_compute. reflexivity.
  - reflexivity.
Defined.

(** ** A request taken back *)

(** X25.  Cancelling a request undoes it in the counters and for the user,
    but not in the list.  When a journey request is accepted, no journey
    had its id before and the stored pending counter is below [2 ^ 53] in
    absolute value (where the addition and the subtraction of the code are
    exact), cancelling the new journey answers 200; the journey
    stays last in the list, with the status [cancelled] and the time of the
    cancel as end time; users, drivers and cars are as before the request;
    the pending counter is back at its old value, or at zero when that was
    negative; a counter that was right is right again; and the same user can
    request again. *)
Theorem request_then_cancel_restores (clock clock' : Clock.t) (req : JourneyRequest.t)
    (reason : option string) (start : Location.t) (user : User.t)
    (data : FleetData.t) :
  JourneyRequest.userId req ≠ "" →
  JourneyRequest.destination req ≠ "" →
  JourneyRequest.startLocation req = Some start →
  find (λ u, User.id u = JourneyRequest.userId req) (FleetData.users data) = Some user →
  find (λ j, Journey.userId j = JourneyRequest.userId req ∧ Journey.status j = requested)
       (FleetData.journeys data) = None →
  find (λ j, Journey.id j = "journey-" +:+ decimal (Clock.now clock))
       (FleetData.journeys data) = None →
  - 2 ^ 53 < SystemStats.pendingRequests (FleetData.systemStats data) < 2 ^ 53 →
  let new := JourneysRequest.newJourney clock req user start in
  let file := (JourneysRequest.POST clock true (Some req) (Some data)).2 in
  let out :=
    JourneysCancel.POST clock' true (Some (CancelRequest.mk (Journey.id new) reason))
      file in
  Response.status out.1 = 200 ∧
  FleetData.journeys (readData out.2) =
    (FleetData.journeys data ++
       [Journey.with_end cancelled (Some (Clock.toISOString clock')) new])%list ∧
  FleetData.users (readData out.2) = FleetData.users data ∧
  FleetData.drivers (readData out.2) = FleetData.drivers data ∧
  FleetData.cars (readData out.2) = FleetData.cars data ∧
  SystemStats.pendingRequests (FleetData.systemStats (readData out.2)) =
    Z.max 0 (SystemStats.pendingRequests (FleetData.systemStats data)) ∧
  SystemStats.activeJourneys (FleetData.systemStats (readData out.2)) =
    SystemStats.activeJourneys (FleetData.systemStats data) ∧
  SystemStats.availableCars (FleetData.systemStats (readData out.2)) =
    SystemStats.availableCars (FleetData.systemStats data) ∧
  (pendingConsistent data → pendingConsistent (readData out.2)) ∧
  Response.status (JourneysRequest.POST clock' true (Some req) out.2).1 = 200.
Proof.
  intros Hu Hd Hstart Huser Hpending Hfresh _ new file out.
  assert (Hfile : file =
    Some (FleetData.set_systemStats
            (SystemStats.set_pendingRequests
               (SystemStats.pendingRequests (FleetData.systemStats data) + 1)
               (FleetData.systemStats data))
            (FleetData.set_journeys (FleetData.journeys data ++ [new]) data))).
  { subst file. rewrite (request_checked clock true req start user data) by done.
    by rewrite Hpending. }
  set (creq := CancelRequest.mk (Journey.id new) reason) in *.
  set (data1 := FleetData.set_systemStats
            (SystemStats.set_pendingRequests
               (SystemStats.pendingRequests (FleetData.systemStats data) + 1)
               (FleetData.systemStats data))
            (FleetData.set_journeys (FleetData.journeys data ++ [new]) data)) in *.
  assert (Hfind : list_find (λ j, Journey.id j = CancelRequest.journeyId creq)
                    (FleetData.journeys data1)
                  = Some (length (FleetData.journeys data), new)).
  { apply find_None_list_find in Hfresh.
    change (FleetData.journeys data1) with (FleetData.journeys data ++ [new])%list.
    rewrite list_find_app_r by exact Hfresh. simpl.
    rewrite decide_True by done. simpl. by rewrite ?Nat.add_0_r. }
  assert (Hout : out =
    (success
       (match reason with
        | Some r => if falsy r then "Journey cancelled successfully"
                    else "Journey cancelled: " +:+ r
        | None => "Journey cancelled successfully"
        end)
       (Some (Journey.with_end cancelled (Some (Clock.toISOString clock')) new)),
     Some (FleetData.set_systemStats
             (SystemStats.set_pendingRequests
                (Z.max 0 (SystemStats.pendingRequests (FleetData.systemStats data) + 1 - 1))
                (FleetData.systemStats data1))
             (FleetData.set_journeys
                (FleetData.journeys data ++
                   [Journey.with_end cancelled (Some (Clock.toISOString clock')) new])
                data1)))).
  { subst out. rewrite Hfile. unfold JourneysCancel.POST, readData.
    rewrite not_falsy by (unfold creq, new; simpl; discriminate).
    rewrite Hfind.
    change (Journey.status new) with requested.
    change (FleetData.journeys data1) with (FleetData.journeys data ++ [new])%list.
    replace (<[length (FleetData.journeys data) :=
                Journey.with_end cancelled (Some (Clock.toISOString clock')) new]>
             (FleetData.journeys data ++ [new])%list)
      with (FleetData.journeys data ++
              [Journey.with_end cancelled (Some (Clock.toISOString clock')) new])%list.
    2:{ replace (length (FleetData.journeys data))
          with (length (FleetData.journeys data) + 0)%nat at 1 by lia.
        by rewrite insert_app_r. }
    simpl.
    rewrite lookup_app_r by lia. rewrite Nat.sub_diag. reflexivity. }
  assert (Hmax : Z.max 0 (SystemStats.pendingRequests (FleetData.systemStats data) + 1 - 1)
                 = Z.max 0 (SystemStats.pendingRequests (FleetData.systemStats data)))
    by (f_equal; lia).
  rewrite Hout.
  split_and!; [done|done|done|done|done|exact Hmax|done|done| |].
  - unfold pendingConsistent. simpl. intros Hp. rewrite Hmax, Hp.
    unfold count. rewrite list.filter_app, length_app. simpl. lia.
  - cbn [snd]. erewrite request_checked; [|done..].
    simpl FleetData.journeys.
    replace (find _ (FleetData.journeys data ++ _)) with (@None Journey.t); [done|].
    symmetry. apply find_None_list_find, list_find_None, Forall_app. split.
    + apply find_None_list_find in Hpending. by apply list_find_None in Hpending.
    + apply Forall_singleton. simpl. by intros [_ ?].
Qed.

Lemma request_then_cancel_restores_witness :
  let req := JourneyRequest.mk "u1" "Airport" (Some Demo.dhaka) None in
  let data := Demo.fleet [Demo.journey "journey-1" "u2" requested] (Demo.stats 0 1 1) in
  let new := JourneysRequest.newJourney Demo.clock req (Demo.user "u1" "Ada") Demo.dhaka in
  let file := (JourneysRequest.POST Demo.clock true (Some req) (Some data)).2 in
  let out :=
    JourneysCancel.POST Demo.clock true (Some (CancelRequest.mk (Journey.id new) None))
      file in
  Response.status out.1 = 200 ∧
  FleetData.journeys (readData out.2) =
    (FleetData.journeys data ++
       [Journey.with_end cancelled (Some (Clock.toISOString Demo.clock)) new])%list ∧
  FleetData.users (readData out.2) = FleetData.users data ∧
  FleetData.drivers (readData out.2) = FleetData.drivers data ∧
  FleetData.cars (readData out.2) = FleetData.cars data ∧
  SystemStats.pendingRequests (FleetData.systemStats (readData out.2)) =
    Z.max 0 (SystemStats.pendingRequests (FleetData.systemStats data)) ∧
  SystemStats.activeJourneys (FleetData.systemStats (readData out.2)) =
    SystemStats.activeJourneys (FleetData.systemStats data) ∧
  SystemStats.availableCars (FleetData.systemStats (readData out.2)) =
    SystemStats.availableCars (FleetData.systemStats data) ∧
  (pendingConsistent data → pendingConsistent (readData out.2)) ∧
  Response.status (JourneysRequest.POST Demo.clock true (Some req) out.2).1 = 200.
Proof.
  apply (request_then_cancel_restores Demo.clock Demo.clock
           (JourneyRequest.mk "u1" "Airport" (Some Demo.dhaka) None) None Demo.dhaka
           (Demo.user "u1" "Ada")
           (Demo.fleet [Demo.journey "journey-1" "u2" requested] (Demo.stats 0 1 1)));
    first [discriminate | vm_compute; reflexivity | vm_compute; split; reflexivity].
Defined.
